(** * pyabf.epochs: epoch timeline construction and command-waveform synthesis

    A shallow embedding of [src/pyabf/epochs.py] (class [Epochs]) and the
    properties of its specification.

    - Python ints are [Z]; list lengths and [range] indices are [nat].
    - The one float computed from an int, [int(sweepPointCount/64)], is
      [int_truediv_64]: the quotient rounded to a 53-bit significand, or
      [OverflowError].
    - Python strings are lists of Unicode code points ([pystr]), so that
      [chr(x+64)] is a one-element list.
    - The command levels are Python floats.  Their arithmetic is kept
      abstract in the class [Level]: no property below depends on a law of
      floating-point addition or multiplication.
    - A method that mutates [self] is a function from the object to the
      mutated object; exceptions and [warnings.warn] are threaded through
      the monad [M]. *)

From Stdlib Require Import ZArith String Ascii Sorted.
From stdpp Require Import base tactics option list numbers pretty.

Local Open Scope Z_scope.

(** ** Python strings *)

Definition pystr := list Z.

Definition str (s : string) : pystr :=
  (λ a, Z.of_nat (nat_of_ascii a)) <$> list_ascii_of_string s.


(** ["%d" % z] for an int. *)
Definition fmt_d (z : Z) : pystr := str (pretty z).

(** [s.rjust(w, ' ')] *)
Definition rjust (w : nat) (s : pystr) : pystr :=
  replicate (w - length s)%nat 32 ++ s.

(** ** Exceptions and warnings *)

Inductive exn :=
  IndexError | ValueError | TypeError | AttributeError | OverflowError.

Inductive outcome (A : Type) :=
  | Ok (a : A)
  | Raise (e : exn).
Arguments Ok {A} a.
Arguments Raise {A} e.

(** A computation yields a value or an exception, together with the
    messages passed to [warnings.warn] on the way, in order. *)
Definition M (A : Type) : Type := outcome A * list pystr.

Definition ret {A} (a : A) : M A := (Ok a, []).
Definition raise {A} (e : exn) : M A := (Raise e, []).
Definition warn (msg : pystr) : M unit := (Ok (), [msg]).

Definition bind {A B} (m : M A) (k : A → M B) : M B :=
  match m with
  | (Ok a, w) => let '(r, w') := k a in (r, w ++ w')
  | (Raise e, w) => (Raise e, w)
  end.

Notation "'do' x <- m ; k" := (bind m (λ x, k))
  (at level 20, x name, m at level 100, k at level 200, only parsing).
Notation "'do' ' p <- m ; k" := (bind m (λ x, match x with p => k end))
  (at level 20, p pattern, m at level 100, k at level 200, only parsing).

(** [chr(n)]: a one-character string, [ValueError] outside
    [range(0x110000)]. *)
Definition chr (n : Z) : M pystr :=
  if (0 <=? n) && (n <=? 1114111) then ret [n] else raise ValueError.

(** ** True division by 64

    [int(n / 64)] for a Python int [n].  The division is true division: its
    result is the float (53-bit significand) nearest to the quotient, a tie
    going to the even significand, and an [OverflowError] when that float
    is not finite.  [int] then truncates towards zero.  Below [2^53] the
    quotient is itself a float, so the result is the truncated quotient;
    from [2^53] on the low bits of [n] are rounded away first. *)

(** [a / 2^s] rounded to the nearest integer, ties to even. *)
Definition round_half_even (a s : Z) : Z :=
  let m := Z.shiftr a s in
  let r := a mod 2 ^ s in
  let half := 2 ^ (s - 1) in
  if (half <? r) || ((r =? half) && Z.odd m) then m + 1 else m.

Definition int_truediv_64 (n : Z) : M Z :=
  let a := Z.abs n in
  if a <? 2 ^ 53 then ret (n ÷ 64)
  else
    (* the significand [m] keeps 53 bits of [a]; the float is
       [m * 2^s / 64] *)
    let s := Z.log2 a - 52 in
    let m := round_half_even a s in
    if 2 ^ 1030 <=? m * 2 ^ s then raise OverflowError
    else ret (Z.sgn n * (m * 2 ^ s / 64)).

(** Reading an attribute that has not been assigned yet. *)
Definition attr {A} (o : option A) : M A :=
  match o with Some a => ret a | None => raise AttributeError end.

Fixpoint mapM {A B} (f : A → M B) (l : list A) : M (list B) :=
  match l with
  | [] => ret []
  | x :: l' => do y <- f x; do ys <- mapM f l'; ret (y :: ys)
  end.

Fixpoint foldM {A B} (f : B → A → M B) (b : B) (l : list A) : M B :=
  match l with
  | [] => ret b
  | x :: l' => do b' <- f b x; foldM f b' l'
  end.

(** ** Python list indexing *)

(** [l[i]]: a negative index counts from the end. *)
Definition py_index (len i : Z) : option nat :=
  let j := if i <? 0 then i + len else i in
  if (j <? 0) || (len <=? j) then None else Some (Z.to_nat j).

Definition getitem {A} (l : list A) (i : Z) : M A :=
  match py_index (Z.of_nat (length l)) i with
  | Some j => match l !! j with Some x => ret x | None => raise IndexError end
  | None => raise IndexError
  end.

(** [l[i] = x] *)
Definition setitem {A} (l : list A) (i : Z) (x : A) : M (list A) :=
  match py_index (Z.of_nat (length l)) i with
  | Some j => ret (<[j:=x]> l)
  | None => raise IndexError
  end.

(** ** Command levels *)

Class Level (V : Type) := {
  lofZ : Z → V;          (* an int literal used where a level is expected *)
  ladd : V → V → V;      (* level + increment *)
  lscale : V → Z → V;    (* levelDelta * sweepNumber *)
  ltrunc : V → Z;        (* the integer printed by "%d" % level *)
  leqZ : V → Z → bool    (* level == int *)
}.

(** Integer levels, for the concrete headers below, whose levels are small
    integers that a float holds exactly. *)
#[export] Instance Level_Z : Level Z := {
  lofZ z := z;
  ladd := Z.add;
  lscale := Z.mul;
  ltrunc z := z;
  leqZ := Z.eqb
}.

(** ** The header object read by [Epochs] *)

Module ABF.
(** [abf._epochPerDacSection]: the epoch table, one parallel list per
    column. *)
Record EpochPerDacSection (V : Type) := {
  nDACNum : list Z;
  nEpochType : list Z;
  fEpochInitLevel : list V;
  fEpochLevelInc : list V;
  lEpochInitDuration : list Z;
  lEpochDurationInc : list Z;
  lEpochPulsePeriod : list Z;
  lEpochPulseWidth : list Z
}.
Arguments Build_EpochPerDacSection {V}.
Arguments nDACNum {V}.
Arguments nEpochType {V}.
Arguments fEpochInitLevel {V}.
Arguments fEpochLevelInc {V}.
Arguments lEpochInitDuration {V}.
Arguments lEpochDurationInc {V}.
Arguments lEpochPulsePeriod {V}.
Arguments lEpochPulseWidth {V}.

(** [abf._dacSection] *)
Record DacSection := { nInterEpisodeLevel : list Z }.

Record t (V : Type) := {
  abfFileFormat : Z;
  sweepPointCount : Z;
  holdingCommand : list V;
  _epochPerDacSection : EpochPerDacSection V;
  _dacSection : DacSection;
  dacUnits : list pystr
}.
Arguments Build_t {V}.
Arguments abfFileFormat {V}.
Arguments sweepPointCount {V}.
Arguments holdingCommand {V}.
Arguments _epochPerDacSection {V}.
Arguments _dacSection {V}.
Arguments dacUnits {V}.
End ABF.

(** ** Python values held by the lists handed to [_txtFmt] *)

Inductive pyval (V : Type) :=
  | PInt (z : Z)
  | PFloat (v : V)
  | PStr (s : pystr).
Arguments PInt {V} z.
Arguments PFloat {V} v.
Arguments PStr {V} s.

(** ** The [Epochs] object *)

Record Epochs (V : Type) := {
  abf : ABF.t V;
  channel : Z;
  pointStart : list Z;
  pointEnd : list Z;
  label : list pystr;
  type : list (pyval V);
  level : list V;
  levelDelta : list V;
  duration : list Z;
  durationDelta : list Z;
  pulsePeriod : list Z;
  pulseWidth : list Z;
  digitalOutputs : list Z;
  _pointOffset : option Z;
  epochCount : option nat;
  epochList : option (list nat);
  dacUnits : option pystr
}.
Arguments Build_Epochs {V}.
Arguments abf {V}.
Arguments channel {V}.
Arguments pointStart {V}.
Arguments pointEnd {V}.
Arguments label {V}.
Arguments type {V}.
Arguments level {V}.
Arguments levelDelta {V}.
Arguments duration {V}.
Arguments durationDelta {V}.
Arguments pulsePeriod {V}.
Arguments pulseWidth {V}.
Arguments digitalOutputs {V}.
Arguments _pointOffset {V}.
Arguments epochCount {V}.
Arguments epochList {V}.
Arguments dacUnits {V}.

Section Epochs.
Context {V : Type} `{Level V}.

(** *** Assignments to the attributes of [self] *)

Definition with_pointStart (x : list Z) (s : Epochs V) : Epochs V :=
  Build_Epochs (abf s) (channel s) x (pointEnd s) (label s) (type s)
    (level s) (levelDelta s) (duration s) (durationDelta s) (pulsePeriod s)
    (pulseWidth s) (digitalOutputs s) (_pointOffset s) (epochCount s)
    (epochList s) (dacUnits s).
Definition with_pointEnd (x : list Z) (s : Epochs V) : Epochs V :=
  Build_Epochs (abf s) (channel s) (pointStart s) x (label s) (type s)
    (level s) (levelDelta s) (duration s) (durationDelta s) (pulsePeriod s)
    (pulseWidth s) (digitalOutputs s) (_pointOffset s) (epochCount s)
    (epochList s) (dacUnits s).
Definition with_label (x : list pystr) (s : Epochs V) : Epochs V :=
  Build_Epochs (abf s) (channel s) (pointStart s) (pointEnd s) x (type s)
    (level s) (levelDelta s) (duration s) (durationDelta s) (pulsePeriod s)
    (pulseWidth s) (digitalOutputs s) (_pointOffset s) (epochCount s)
    (epochList s) (dacUnits s).
Definition with_type (x : list (pyval V)) (s : Epochs V) : Epochs V :=
  Build_Epochs (abf s) (channel s) (pointStart s) (pointEnd s) (label s) x
    (level s) (levelDelta s) (duration s) (durationDelta s) (pulsePeriod s)
    (pulseWidth s) (digitalOutputs s) (_pointOffset s) (epochCount s)
    (epochList s) (dacUnits s).
Definition with_level (x : list V) (s : Epochs V) : Epochs V :=
  Build_Epochs (abf s) (channel s) (pointStart s) (pointEnd s) (label s)
    (type s) x (levelDelta s) (duration s) (durationDelta s) (pulsePeriod s)
    (pulseWidth s) (digitalOutputs s) (_pointOffset s) (epochCount s)
    (epochList s) (dacUnits s).
Definition with_levelDelta (x : list V) (s : Epochs V) : Epochs V :=
  Build_Epochs (abf s) (channel s) (pointStart s) (pointEnd s) (label s)
    (type s) (level s) x (duration s) (durationDelta s) (pulsePeriod s)
    (pulseWidth s) (digitalOutputs s) (_pointOffset s) (epochCount s)
    (epochList s) (dacUnits s).
Definition with_duration (x : list Z) (s : Epochs V) : Epochs V :=
  Build_Epochs (abf s) (channel s) (pointStart s) (pointEnd s) (label s)
    (type s) (level s) (levelDelta s) x (durationDelta s) (pulsePeriod s)
    (pulseWidth s) (digitalOutputs s) (_pointOffset s) (epochCount s)
    (epochList s) (dacUnits s).
Definition with_durationDelta (x : list Z) (s : Epochs V) : Epochs V :=
  Build_Epochs (abf s) (channel s) (pointStart s) (pointEnd s) (label s)
    (type s) (level s) (levelDelta s) (duration s) x (pulsePeriod s)
    (pulseWidth s) (digitalOutputs s) (_pointOffset s) (epochCount s)
    (epochList s) (dacUnits s).
Definition with_pulsePeriod (x : list Z) (s : Epochs V) : Epochs V :=
  Build_Epochs (abf s) (channel s) (pointStart s) (pointEnd s) (label s)
    (type s) (level s) (levelDelta s) (duration s) (durationDelta s) x
    (pulseWidth s) (digitalOutputs s) (_pointOffset s) (epochCount s)
    (epochList s) (dacUnits s).
Definition with_pulseWidth (x : list Z) (s : Epochs V) : Epochs V :=
  Build_Epochs (abf s) (channel s) (pointStart s) (pointEnd s) (label s)
    (type s) (level s) (levelDelta s) (duration s) (durationDelta s)
    (pulsePeriod s) x (digitalOutputs s) (_pointOffset s) (epochCount s)
    (epochList s) (dacUnits s).
Definition with_digitalOutputs (x : list Z) (s : Epochs V) : Epochs V :=
  Build_Epochs (abf s) (channel s) (pointStart s) (pointEnd s) (label s)
    (type s) (level s) (levelDelta s) (duration s) (durationDelta s)
    (pulsePeriod s) (pulseWidth s) x (_pointOffset s) (epochCount s)
    (epochList s) (dacUnits s).
Definition with__pointOffset (x : Z) (s : Epochs V) : Epochs V :=
  Build_Epochs (abf s) (channel s) (pointStart s) (pointEnd s) (label s)
    (type s) (level s) (levelDelta s) (duration s) (durationDelta s)
    (pulsePeriod s) (pulseWidth s) (digitalOutputs s) (Some x)
    (epochCount s) (epochList s) (dacUnits s).
Definition with_epochCount (x : nat) (s : Epochs V) : Epochs V :=
  Build_Epochs (abf s) (channel s) (pointStart s) (pointEnd s) (label s)
    (type s) (level s) (levelDelta s) (duration s) (durationDelta s)
    (pulsePeriod s) (pulseWidth s) (digitalOutputs s) (_pointOffset s)
    (Some x) (epochList s) (dacUnits s).
Definition with_epochList (x : list nat) (s : Epochs V) : Epochs V :=
  Build_Epochs (abf s) (channel s) (pointStart s) (pointEnd s) (label s)
    (type s) (level s) (levelDelta s) (duration s) (durationDelta s)
    (pulsePeriod s) (pulseWidth s) (digitalOutputs s) (_pointOffset s)
    (epochCount s) (Some x) (dacUnits s).
Definition with_dacUnits (x : pystr) (s : Epochs V) : Epochs V :=
  Build_Epochs (abf s) (channel s) (pointStart s) (pointEnd s) (label s)
    (type s) (level s) (levelDelta s) (duration s) (durationDelta s)
    (pulsePeriod s) (pulseWidth s) (digitalOutputs s) (_pointOffset s)
    (epochCount s) (epochList s) (Some x).

(** *** [__init__] and the methods it calls *)

(** [self.abf = abf; self.channel = channel; self._initEpochVars()] *)
Definition _initEpochVars (a : ABF.t V) (ch : Z) : Epochs V :=
  Build_Epochs a ch [] [] [] [] [] [] [] [] [] [] [] None None None None.

Definition _updateForABFv1 (self : Epochs V) : M (Epochs V) :=
  do _ <- warn (str "ABFv1 epoch synthesis not fully supported");
  let n := ABF.sweepPointCount (abf self) in
  let self := with_pointStart (pointStart self ++ [0]) self in
  let self := with_pointEnd (pointEnd self ++ [n]) self in
  let self := with_type (type self ++ [PInt 1]) self in
  do hc <- getitem (ABF.holdingCommand (abf self)) (channel self);
  let self := with_level (level self ++ [hc]) self in
  let self := with_levelDelta (levelDelta self ++ [lofZ 0]) self in
  let self := with_duration (duration self ++ [n]) self in
  let self := with_durationDelta (durationDelta self ++ [0]) self in
  let self := with_pulsePeriod (pulsePeriod self ++ [0]) self in
  let self := with_pulseWidth (pulseWidth self ++ [0]) self in
  ret (with_digitalOutputs (digitalOutputs self ++ [n]) self).

Definition _addPreEpoch (self : Epochs V) : M (Epochs V) :=
  do off <- int_truediv_64 (ABF.sweepPointCount (abf self));
  let self := with__pointOffset off self in
  let self := with_pointStart (pointStart self ++ [0]) self in
  let self := with_pointEnd (pointEnd self ++ [off]) self in
  let self := with_type (type self ++ [PInt 1]) self in
  do hc <- getitem (ABF.holdingCommand (abf self)) (channel self);
  let self := with_level (level self ++ [hc]) self in
  let self := with_levelDelta (levelDelta self ++ [lofZ 0]) self in
  let self := with_duration (duration self ++ [off]) self in
  let self := with_durationDelta (durationDelta self ++ [0]) self in
  let self := with_pulsePeriod (pulsePeriod self ++ [0]) self in
  let self := with_pulseWidth (pulseWidth self ++ [0]) self in
  ret (with_digitalOutputs (digitalOutputs self ++ [off]) self).

(** The body of the loop of [_fillEpochsFromABF] for an entry [i] of the
    epoch table that belongs to this channel. *)
Definition _fillEpoch (i : nat) (self : Epochs V) : M (Epochs V) :=
  let epPerDac := ABF._epochPerDacSection (abf self) in
  let i := Z.of_nat i in
  do ps <- getitem (pointStart self) (-1);
  do d <- getitem (duration self) (-1);
  let self := with_pointStart (pointStart self ++ [ps + d]) self in
  do x <- getitem (ABF.nEpochType epPerDac) i;
  let self := with_type (type self ++ [PInt x]) self in
  do x <- getitem (ABF.fEpochInitLevel epPerDac) i;
  let self := with_level (level self ++ [x]) self in
  do x <- getitem (ABF.fEpochLevelInc epPerDac) i;
  let self := with_levelDelta (levelDelta self ++ [x]) self in
  do x <- getitem (ABF.lEpochInitDuration epPerDac) i;
  let self := with_duration (duration self ++ [x]) self in
  do x <- getitem (ABF.lEpochDurationInc epPerDac) i;
  let self := with_durationDelta (durationDelta self ++ [x]) self in
  do x <- getitem (ABF.lEpochPulsePeriod epPerDac) i;
  let self := with_pulsePeriod (pulsePeriod self ++ [x]) self in
  do x <- getitem (ABF.lEpochPulseWidth epPerDac) i;
  let self := with_pulseWidth (pulseWidth self ++ [x]) self in
  do ps <- getitem (pointStart self) (-1);
  do d <- getitem (duration self) (-1);
  ret (with_pointEnd (pointEnd self ++ [ps + d]) self).

(** [for i, dacNum in enumerate(nDACNum)], started at index [i]. *)
Fixpoint _fillEpochsFrom (i : nat) (dacNums : list Z) (self : Epochs V)
  : M (Epochs V) :=
  match dacNums with
  | [] => ret self
  | dacNum :: rest =>
      if decide (dacNum ≠ channel self) then _fillEpochsFrom (S i) rest self
      else do self <- _fillEpoch i self; _fillEpochsFrom (S i) rest self
  end.

Definition _fillEpochsFromABF (self : Epochs V) : M (Epochs V) :=
  _fillEpochsFrom 0 (ABF.nDACNum (ABF._epochPerDacSection (abf self))) self.

Definition _addPostEpoch (self : Epochs V) : M (Epochs V) :=
  let n := ABF.sweepPointCount (abf self) in
  do flag <- getitem (ABF.nInterEpisodeLevel (ABF._dacSection (abf self)))
               (channel self);
  if decide (flag ≠ 0) then
    do off <- attr (_pointOffset self);
    do pe <- setitem (pointEnd self) (-1) (n - 1 + off);
    ret (with_pointEnd pe self)
  else
    do pe <- getitem (pointEnd self) (-1);
    let self := with_pointStart (pointStart self ++ [pe]) self in
    do off <- attr (_pointOffset self);
    let self := with_pointEnd (pointEnd self ++ [n + off]) self in
    let self := with_type (type self ++ [PInt 1]) self in
    do lv <- getitem (level self) (-1);
    let self := with_level (level self ++ [lv]) self in
    let self := with_levelDelta (levelDelta self ++ [lofZ 0]) self in
    let self := with_duration (duration self ++ [0]) self in
    let self := with_durationDelta (durationDelta self ++ [0]) self in
    let self := with_pulsePeriod (pulsePeriod self ++ [0]) self in
    ret (with_pulseWidth (pulseWidth self ++ [0]) self).

Definition _createEpochLabels (self : Epochs V) : M (Epochs V) :=
  do l <- mapM (λ x : nat, chr (Z.of_nat x + 64))
            (seq 0 (length (type self)));
  let self := with_label l self in
  do l <- setitem (label self) 0 (str "pre");
  let self := with_label l self in
  do d <- getitem (duration self) (-1);
  if decide (d = 0) then
    do l <- setitem (label self) (-1) (str "post");
    ret (with_label l self)
  else ret self.

Definition _updateEpochDetails (self : Epochs V) : M (Epochs V) :=
  let self := with_epochCount (length (type self)) self in
  let self := with_epochList (seq 0 (length (type self))) self in
  do u <- getitem (ABF.dacUnits (abf self)) (channel self);
  ret (with_dacUnits u self).

(** [Epochs(abf, channel)] *)
Definition __init__ (a : ABF.t V) (ch : Z) : M (Epochs V) :=
  let self := _initEpochVars a ch in
  do self <-
    (if decide (ABF.abfFileFormat a = 1) then _updateForABFv1 self
     else if decide (ABF.abfFileFormat a = 2) then
       do self <- _addPreEpoch self;
       do self <- _fillEpochsFromABF self;
       _addPostEpoch self
     else ret self);
  do self <- _createEpochLabels self;
  _updateEpochDetails self.

(** [len(self)] *)
Definition __len__ (self : Epochs V) : M Z :=
  do l <- attr (epochList self);
  ret (Z.of_nat (length l)).

(** *** [_txtFmt] and the [text] property *)

(** [value == z] for an int [z] *)
Definition py_eq_int (value : pyval V) (z : Z) : bool :=
  match value with
  | PInt x => bool_decide (x = z)
  | PFloat x => leqZ x z
  | PStr _ => false
  end.

(** ["%d" % value]: a float is truncated, a string is a [TypeError]. *)
Definition percent_d (value : pyval V) : M pystr :=
  match value with
  | PInt x => ret (fmt_d x)
  | PFloat x => ret (fmt_d (ltrunc x))
  | PStr _ => raise TypeError
  end.

(** The loop of [_txtFmt] taken when [label == "Type"]: every
    [values[i]] is overwritten, in the list object that was passed. *)
Fixpoint _txtFmt_Type (values : list (pyval V)) : M (list (pyval V)) :=
  match values with
  | [] => ret []
  | value :: rest =>
      do v <-
        (if py_eq_int value 0 then ret (PStr (str "Off"))
         else if py_eq_int value 1 then ret (PStr (str "Step"))
         else if py_eq_int value 2 then ret (PStr (str "Ramp"))
         else
           do d <- percent_d value;
           do _ <- warn (str "UNSUPPORTED EPOCH TYPE: " ++ d);
           ret (PStr (d ++ str "?")));
      do rest <- _txtFmt_Type rest;
      ret (v :: rest)
  end.

(** [_txtFmt(label, values)] returns the list [values] as the call
    leaves it, and the formatted line. *)
Definition _txtFmt (label : pystr) (values : list (pyval V))
  : M (list (pyval V) * pystr) :=
  do values <-
    (if decide (label = str "Type") then _txtFmt_Type values
     else ret values);
  do cells <-
    mapM (λ val, match val with PStr s => ret s | _ => percent_d val end)
      values;
  ret (values, rjust 25 label ++ concat (rjust 7 <$> cells) ++ [10]).

(** The property returns the text block; [self.type] is the list that
    the second call of [_txtFmt] has rewritten. *)
Definition text (self : Epochs V) : M (pystr * Epochs V) :=
  let out := [10] in
  do '(_, line) <- _txtFmt (str "Ch" ++ fmt_d (channel self) ++ str " EPOCH")
                     (PStr <$> label self);
  let out := out ++ line in
  do '(values, line) <- _txtFmt (str "Type") (type self);
  let self := with_type values self in
  let out := out ++ line in
  do u <- attr (dacUnits self);
  do '(_, line) <- _txtFmt (str "First Level (" ++ u ++ str ")")
                     (PFloat <$> level self);
  let out := out ++ line in
  do u <- attr (dacUnits self);
  do '(_, line) <- _txtFmt (str "Delta Level (" ++ u ++ str ")")
                     (PFloat <$> levelDelta self);
  let out := out ++ line in
  do '(_, line) <- _txtFmt (str "First Duration (samples)")
                     (PInt <$> duration self);
  let out := out ++ line in
  do '(_, line) <- _txtFmt (str "Delta Duration (samples)")
                     (PInt <$> durationDelta self);
  let out := out ++ line in
  do '(_, line) <- _txtFmt (str "Train Period (samples)")
                     (PInt <$> pulsePeriod self);
  let out := out ++ line in
  do '(_, line) <- _txtFmt (str "Pulse Width (samples)")
                     (PInt <$> pulseWidth self);
  let out := out ++ line in
  do '(_, line) <- _txtFmt (str "Epoch Start (samples)")
                     (PInt <$> pointStart self);
  let out := out ++ line in
  do '(_, line) <- _txtFmt (str "Epoch End (samples)")
                     (PInt <$> pointEnd self);
  let out := out ++ line in
  ret (out ++ [10], self).

(** *** [stimulusWaveform] *)

(** [np.full(n, x)], also [np.empty(n)] followed by [fill(x)]: a negative
    length is a [ValueError]. *)
Definition np_full (n : Z) (x : V) : M (list V) :=
  if decide (n < 0) then raise ValueError
  else ret (replicate (Z.to_nat n) x).

(** A bound of the slice [a[i1:i2]] of an array of length [len]. *)
Definition slice_bound (len i : Z) : Z :=
  if decide (i < 0) then Z.max 0 (i + len) else Z.min i len.

(** [sweepC[i1:i2] = chunk] for one-dimensional arrays: the chunk must
    have the length of the slice, or length one (broadcast). *)
Definition set_slice (sweepC : list V) (i1 i2 : Z) (chunk : list V)
  : M (list V) :=
  let len := Z.of_nat (length sweepC) in
  let start := Z.to_nat (slice_bound len i1) in
  let m := Z.to_nat (slice_bound len i2 - slice_bound len i1) in
  if decide (length chunk = m) then
    ret (take start sweepC ++ chunk ++ drop (start + m) sweepC)
  else
    match chunk with
    | [x] => ret (take start sweepC ++ replicate m x ++ drop (start + m) sweepC)
    | _ => raise ValueError
    end.

(** The body of the loop over [self.epochList]. *)
Definition _stimulusEpoch (self : Epochs V) (sweepNumber : Z)
    (sweepC : list V) (epochNumber : nat) : M (list V) :=
  let e := Z.of_nat epochNumber in
  do ty <- getitem (type self) e;
  if py_eq_int ty 0 then ret sweepC
  else
    do lv <- getitem (level self) e;
    do dl <- getitem (levelDelta self) e;
    let sweepLevel := ladd lv (lscale dl sweepNumber) in
    do i1 <- getitem (pointStart self) e;
    do i2 <- getitem (pointEnd self) e;
    do i2 <-
      (if decide (i2 > Z.of_nat (length sweepC)) then
         do _ <- warn (str "sweep length is shorter than expected.");
         ret (Z.of_nat (length sweepC))
       else ret i2);
    (* both branches on the epoch type fill the chunk with the level *)
    do chunk <- np_full (i2 - i1) sweepLevel;
    set_slice sweepC i1 i2 chunk.

Definition stimulusWaveform (self : Epochs V) (sweepNumber : Z)
  : M (list V) :=
  do hc <- getitem (ABF.holdingCommand (abf self)) (channel self);
  do sweepC <- np_full (ABF.sweepPointCount (abf self)) hc;
  do el <- attr (epochList self);
  foldM (_stimulusEpoch self sweepNumber) sweepC el.

(** *** Vocabulary of the properties *)

(** The rows of the epoch table that belong to channel [ch], in table
    order; [i] is the index of the first entry of [dacNums]. *)
Fixpoint channelRows (i : nat) (dacNums : list Z) (ch : Z) : list nat :=
  match dacNums with
  | [] => []
  | dacNum :: rest =>
      if decide (dacNum ≠ ch) then channelRows (S i) rest ch
      else i :: channelRows (S i) rest ch
  end.

(** The base durations that the header declares for channel [ch]. *)
Definition channelDurations (a : ABF.t V) (ch : Z) : list Z :=
  omap (λ i, ABF.lEpochInitDuration (ABF._epochPerDacSection a) !! i)
    (channelRows 0 (ABF.nDACNum (ABF._epochPerDacSection a)) ch).

Definition sumZ (l : list Z) : Z := foldr Z.add 0 l.

(** The nine per-epoch lists filled by every construction path have
    length [n]. *)
Definition same_len (n : nat) (s : Epochs V) : Prop :=
  length (pointStart s) = n ∧ length (pointEnd s) = n ∧
  length (type s) = n ∧ length (level s) = n ∧
  length (levelDelta s) = n ∧ length (duration s) = n ∧
  length (durationDelta s) = n ∧ length (pulsePeriod s) = n ∧
  length (pulseWidth s) = n.

(** Epoch [i+1] starts where epoch [i] ends. *)
Definition contiguous (s : Epochs V) : Prop :=
  ∀ (i : nat) y x,
    pointEnd s !! i = Some y → pointStart s !! S i = Some x → y = x.

(** The state of the bounds while the real epochs are read: the first
    epoch starts at 0, every epoch ends at its start plus its base
    duration, and the epochs are contiguous. *)
Definition chained (s : Epochs V) : Prop :=
  length (pointStart s) = length (duration s) ∧
  length (pointEnd s) = length (duration s) ∧
  pointStart s !! 0%nat = Some 0 ∧
  (∀ (i : nat) x d, pointStart s !! i = Some x → duration s !! i = Some d →
                    pointEnd s !! i = Some (x + d)) ∧
  contiguous s.

(** The entries of a column of the epoch table on the given rows. *)
Definition column {A} (col : list A) (rows : list nat) : list A :=
  omap (λ i, col !! i) rows.

(** The index [i] is valid for [l[i]]. *)
Definition indexes {A} (i : Z) (l : list A) : Prop :=
  - Z.of_nat (length l) ≤ i < Z.of_nat (length l).

(** The seven columns of the epoch table that the loop reads have at
    least [n] entries. *)
Definition columns_reach (ep : ABF.EpochPerDacSection V) (n : nat) : Prop :=
  (n ≤ length (ABF.nEpochType ep))%nat ∧
  (n ≤ length (ABF.fEpochInitLevel ep))%nat ∧
  (n ≤ length (ABF.fEpochLevelInc ep))%nat ∧
  (n ≤ length (ABF.lEpochInitDuration ep))%nat ∧
  (n ≤ length (ABF.lEpochDurationInc ep))%nat ∧
  (n ≤ length (ABF.lEpochPulsePeriod ep))%nat ∧
  (n ≤ length (ABF.lEpochPulseWidth ep))%nat.

(** The attributes that the ingestion loop leaves alone. *)
Definition frame (s s' : Epochs V) : Prop :=
  abf s' = abf s ∧ channel s' = channel s ∧ label s' = label s ∧
  digitalOutputs s' = digitalOutputs s ∧
  _pointOffset s' = _pointOffset s ∧ epochCount s' = epochCount s ∧
  epochList s' = epochList s ∧ dacUnits s' = dacUnits s.

(** The labels that [_createEpochLabels] gives to [n] epochs whose last
    base duration is [d]. *)
Definition epochLabels (n : nat) (d : Z) : list pystr :=
  let l := <[0%nat := str "pre"]> ((λ x : nat, [Z.of_nat x + 64]) <$> seq 0 n) in
  if decide (d = 0) then <[pred n := str "post"]> l else l.

(** The object after [_createEpochLabels] and [_updateEpochDetails]. *)
Definition finished (s : Epochs V) (d : Z) (u : pystr) : Epochs V :=
  Build_Epochs (abf s) (channel s) (pointStart s) (pointEnd s)
    (epochLabels (length (type s)) d) (type s) (level s) (levelDelta s)
    (duration s) (durationDelta s) (pulsePeriod s) (pulseWidth s)
    (digitalOutputs s) (_pointOffset s) (Some (length (type s)))
    (Some (seq 0 (length (type s)))) (Some u).

(** The value of [int(sweepPointCount/64)], which [_addPreEpoch] stores in
    [_pointOffset]; when the division overflows no object is built. *)
Definition preOffset (a : ABF.t V) : Z :=
  match int_truediv_64 (ABF.sweepPointCount a) with
  | (Ok off, _) => off
  | _ => 0
  end.

(** The object after [_addPreEpoch] on fresh lists. *)
Definition preEpoch (a : ABF.t V) (ch : Z) (hc : V) : Epochs V :=
  let off := preOffset a in
  Build_Epochs a ch [0] [off] [] [PInt 1] [hc] [lofZ 0] [off] [0] [0] [0]
    [off] (Some off) None None None.

(** The object after [_updateForABFv1] on fresh lists. *)
Definition legacyEpoch (a : ABF.t V) (ch : Z) (hc : V) : Epochs V :=
  let n := ABF.sweepPointCount a in
  Build_Epochs a ch [0] [n] [] [PInt 1] [hc] [lofZ 0] [n] [0] [0] [0] [n]
    None None None None.

(** The object after the appending branch of [_addPostEpoch]. *)
Definition postEpoch (s : Epochs V) (pe off : Z) (lv : V) : Epochs V :=
  Build_Epochs (abf s) (channel s) (pointStart s ++ [pe])
    (pointEnd s ++ [ABF.sweepPointCount (abf s) + off]) (label s)
    (type s ++ [PInt 1]) (level s ++ [lv]) (levelDelta s ++ [lofZ 0])
    (duration s ++ [0]) (durationDelta s ++ [0]) (pulsePeriod s ++ [0])
    (pulseWidth s ++ [0]) (digitalOutputs s) (_pointOffset s)
    (epochCount s) (epochList s) (dacUnits s).

(** The object after the sustaining branch of [_addPostEpoch]. *)
Definition sustained (s : Epochs V) (off : Z) : Epochs V :=
  with_pointEnd
    (<[pred (length (pointEnd s)) := ABF.sweepPointCount (abf s) - 1 + off]>
       (pointEnd s)) s.

(** The epochs already in [s] are kept, in place, in [s']. *)
Definition grown (s s' : Epochs V) : Prop :=
  type s `prefix_of` type s' ∧ level s `prefix_of` level s' ∧
  levelDelta s `prefix_of` levelDelta s'.

(** What every constructed object satisfies: the per-epoch lists and the
    labels have the length recorded in [epochCount], and [epochList] is
    [range(epochCount)]. *)
Definition well_formed (self : Epochs V) : Prop :=
  ∃ n, same_len n self ∧ length (label self) = n ∧
       epochCount self = Some n ∧ epochList self = Some (seq 0 n).

(** The label of epoch [i] among [n] epochs whose last base duration is
    [d]: the relabelling of the last epoch is applied after the one of
    the first. *)
Definition labelAt (n : nat) (d : Z) (i : nat) : pystr :=
  if decide (d = 0 ∧ S i = n) then str "post"
  else if decide (i = 0%nat) then str "pre"
  else [Z.of_nat i + 64].

(** Epoch [e] is not disabled and sample [j] lies in its range
    [[pointStart, pointEnd)] clamped to the sweep length. *)
Definition covers (self : Epochs V) (e j : nat) : bool :=
  match type self !! e, pointStart self !! e, pointEnd self !! e with
  | Some t, Some i1, Some i2 =>
      negb (py_eq_int t 0)
      && bool_decide (i1 ≤ Z.of_nat j
                      < Z.min i2 (ABF.sweepPointCount (abf self)))
  | _, _, _ => false
  end.

(** The level of epoch [e] in sweep [k]. *)
Definition levelAt (self : Epochs V) (k : Z) (e : nat) : option V :=
  match level self !! e, levelDelta self !! e with
  | Some lv, Some dl => Some (ladd lv (lscale dl k))
  | _, _ => None
  end.

(** Sample [j] after the first [n] epochs have been written over the
    holding command [hc]. *)
Fixpoint waveAt (self : Epochs V) (k : Z) (hc : V) (n j : nat) : option V :=
  match n with
  | O => Some hc
  | S e => if covers self e j then levelAt self k e
           else waveAt self k hc e j
  end.


(** A computation returns [a], whatever it warns about. *)
Definition returns {A} (m : M A) (a : A) : Prop := ∃ w, m = (Ok a, w).

End Epochs.

(** ** Concrete headers

    Levels are taken in [Z].  Each header has two DAC channels; the rows of
    the epoch table that belong to channel 1 are skipped when channel 0 is
    built. *)

Definition mkHeader (fmt n : Z) (hold : list Z)
    (dacs types : list Z) (levels incs : list Z) (durs : list Z)
    (flags : list Z) : ABF.t Z :=
  ABF.Build_t fmt n hold
    (ABF.Build_EpochPerDacSection dacs types levels incs durs
       (const 0 <$> dacs) (const 0 <$> dacs) (const 0 <$> dacs))
    (ABF.Build_DacSection flags) [str "pA"; str "mV"].

(** A step and a disabled epoch that fit in a sweep of 1000 samples; the
    channel reverts after the last epoch. *)
Definition header_fit : ABF.t Z :=
  mkHeader 2 1000 [-70; 0] [0; 1; 0] [1; 1; 0] [10; 99; 20] [5; 0; 0]
    [100; 7; 200] [0; 0].

(** The same epochs with the sustain flag set. *)
Definition header_sustain : ABF.t Z :=
  mkHeader 2 1000 [-70; 0] [0; 1; 0] [1; 1; 0] [10; 99; 20] [5; 0; 0]
    [100; 7; 200] [1; 0].

(** The declared epochs run past the end of a sweep of 1000 samples: the
    second one starts at sample 1215. *)
Definition header_long : ABF.t Z :=
  mkHeader 2 1000 [-70; 0] [0; 0] [1; 1] [10; 20] [0; 0] [1200; 300] [0; 0].

(** No epoch is declared for channel 0 and the channel sustains. *)
Definition header_empty_sustain : ABF.t Z :=
  mkHeader 2 1000 [-70; 0] [1] [1] [99] [0] [7] [1; 0].

(** The same with a sweep shorter than 64 samples, so that the pre-epoch
    has width 0. *)
Definition header_short_sustain : ABF.t Z :=
  mkHeader 2 10 [-70; 0] [1] [1] [99] [0] [7] [1; 0].

(** One disabled epoch whose level differs from the holding command. *)
Definition header_off : ABF.t Z :=
  mkHeader 2 128 [-70; 0] [0] [0] [10] [0] [50] [0; 0].

(** A legacy-format header; the epoch table it carries is not read. *)
Definition header_legacy : ABF.t Z :=
  mkHeader 1 1000 [-70; 0] [0; 0] [1; 1] [10; 20] [0; 0] [1200; 300] [0; 0].

(** A sweep length outside the range of a float. *)
Definition header_huge : ABF.t Z :=
  mkHeader 2 (2 ^ 1030) [-70; 0] [0] [1] [10] [0] [50] [0; 0].

(** A header whose format code is neither 1 nor 2. *)
Definition header_unknown : ABF.t Z :=
  mkHeader 3 1000 [-70; 0] [0; 0] [1; 1] [10; 20] [0; 0] [100; 300] [0; 0].

(** The object that [Epochs(abf, 0)] builds, or the fresh lists when the
    constructor raises. *)
Definition built (a : ABF.t Z) : Epochs Z :=
  match __init__ a 0 with
  | (Ok self, _) => self
  | _ => _initEpochVars a 0
  end.

Definition timeline_fit : Epochs Z := Eval vm_compute in built header_fit.
Definition timeline_sustain : Epochs Z :=
  Eval vm_compute in built header_sustain.
Definition timeline_long : Epochs Z := Eval vm_compute in built header_long.
Definition timeline_empty_sustain : Epochs Z :=
  Eval vm_compute in built header_empty_sustain.
Definition timeline_short_sustain : Epochs Z :=
  Eval vm_compute in built header_short_sustain.
Definition timeline_off : Epochs Z := Eval vm_compute in built header_off.
Definition timeline_legacy : Epochs Z :=
  Eval vm_compute in built header_legacy.

(** The state of [header_fit] when [_addPostEpoch] is called. *)
Definition ingested_fit : Epochs Z :=
  Eval vm_compute in
    match (do s <- _addPreEpoch (_initEpochVars header_fit 0);
           _fillEpochsFromABF s) with
    | (Ok s, _) => s
    | _ => _initEpochVars header_fit 0
    end.

Definition ingested_sustain : Epochs Z :=
  Eval vm_compute in
    match (do s <- _addPreEpoch (_initEpochVars header_sustain 0);
           _fillEpochsFromABF s) with
    | (Ok s, _) => s
    | _ => _initEpochVars header_sustain 0
    end.

(** Sample [j] of a synthesized waveform, if synthesis returned. *)
Definition sampleOf (m : M (list Z)) (j : nat) : option Z :=
  match m with
  | (Ok out, _) => out !! j
  | _ => None
  end.

(** [timeline_off] after one read of the [text] property. *)
Definition timeline_off_shown : Epochs Z :=
  Eval vm_compute in
    match text timeline_off with
    | (Ok (_, self), _) => self
    | _ => timeline_off
    end.

(** * Properties *)

Section Properties.
Context {V : Type} `{Level V}.



(** ** The monad *)

Lemma bind_ok {A B} (a : A) (k : A → M B) : bind (Ok a, []) k = k a.
Proof. unfold bind. by destruct (k a). Qed.

Lemma bind_ret {A B} (a : A) (k : A → M B) : bind (ret a) k = k a.
Proof. apply bind_ok. Qed.

Lemma bind_raise {A B} (e : exn) (k : A → M B) :
  bind (raise e) k = raise e.
Proof. done. Qed.

Lemma bind_Ok_inv {A B} (m : M A) (k : A → M B) (b : B) w :
  bind m k = (Ok b, w) →
  ∃ a w1 w2, m = (Ok a, w1) ∧ k a = (Ok b, w2) ∧ w = w1 ++ w2.
Proof.
  unfold bind. destruct m as [[a|e] w1]; [|done].
  destruct (k a) as [r w2] eqn:Hk. intros [= -> <-]. by exists a, w1, w2.
Qed.

Lemma ret_Ok_inv {A} (a b : A) w : ret a = (Ok b, w) → a = b ∧ w = [].
Proof. by intros [= -> <-]. Qed.

Lemma attr_Ok_inv {A} (o : option A) a w :
  attr o = (Ok a, w) → o = Some a ∧ w = [].
Proof. destruct o; [|done]. by intros [= -> <-]. Qed.

(** ** The width of the pre-epoch *)

Lemma round_half_even_bounds a s :
  0 ≤ a → 0 ≤ s → a / 2 ^ s ≤ round_half_even a s ≤ a / 2 ^ s + 1.
Proof.
  intros Ha Hs. unfold round_half_even. cbv zeta.
  rewrite Z.shiftr_div_pow2 by done. case_match; lia.
Qed.

Lemma int_truediv_64_small n :
  Z.abs n < 2 ^ 53 → int_truediv_64 n = ret (n ÷ 64).
Proof.
  intros Hn. unfold int_truediv_64. cbv zeta.
  by destruct (Z.ltb_spec (Z.abs n) (2 ^ 53)); [|lia].
Qed.

Lemma significand_bound a :
  2 ^ 53 ≤ a →
  let s := Z.log2 a - 52 in
  0 < s ∧ 0 ≤ round_half_even a s ∧ round_half_even a s * 2 ^ s ≤ 2 * a.
Proof.
  intros Ha s.
  assert (0 < a) as Hpos by (pose proof (Z.pow_pos_nonneg 2 53); lia).
  destruct (Z.log2_spec a Hpos) as [Hlo Hhi].
  assert (53 ≤ Z.log2 a) as He by (by apply Z.log2_le_pow2).
  assert (0 < s) as Hs by (unfold s; lia).
  split; [done|].
  pose proof (round_half_even_bounds a s ltac:(lia) ltac:(lia)) as [Hm1 Hm2].
  assert (0 < 2 ^ s) as HP by (apply Z.pow_pos_nonneg; lia).
  assert (0 ≤ a / 2 ^ s) as Hq by (apply Z.div_pos; lia).
  split; [lia|].
  assert (2 ^ Z.succ (Z.log2 a) = 2 ^ 53 * 2 ^ s) as Hsplit.
  { rewrite <- Z.pow_add_r by lia. f_equal. unfold s. lia. }
  assert (2 ^ Z.succ (Z.log2 a) = 2 * 2 ^ Z.log2 a) as Hsucc
    by (rewrite Z.pow_succ_r by lia; done).
  assert (a / 2 ^ s < 2 ^ 53) as Hlt.
  { apply Z.div_lt_upper_bound; [done|]. lia. }
  assert (round_half_even a s * 2 ^ s ≤ 2 ^ 53 * 2 ^ s) as Hle.
  { apply Z.mul_le_mono_nonneg_r; lia. }
  lia.
Qed.

Lemma int_truediv_64_returns n :
  Z.abs n < 2 ^ 1024 → ∃ off, int_truediv_64 n = (Ok off, []).
Proof.
  intros Hn. unfold int_truediv_64. cbv zeta.
  destruct (Z.ltb_spec (Z.abs n) (2 ^ 53)); [by eexists|].
  destruct (significand_bound (Z.abs n)) as (_ & _ & Hb); [done|].
  destruct (Z.leb_spec (2 ^ 1030)
              (round_half_even (Z.abs n) (Z.log2 (Z.abs n) - 52)
               * 2 ^ (Z.log2 (Z.abs n) - 52))) as [Hbig|]; [|by eexists].
  exfalso.
  assert (2 * 2 ^ 1024 ≤ 2 ^ 1030).
  { change (2 ^ 1030) with (64 * 2 ^ 1024).
    pose proof (Z.pow_pos_nonneg 2 1024). lia. }
  lia.
Qed.

Lemma int_truediv_64_Ok n off w :
  int_truediv_64 n = (Ok off, w) → w = [] ∧ (0 ≤ n → 0 ≤ off).
Proof.
  unfold int_truediv_64. cbv zeta.
  destruct (Z.ltb_spec (Z.abs n) (2 ^ 53)) as [|Hbig].
  - intros [= <- <-]. split; [done|]. intros. by apply Z.quot_pos.
  - destruct (significand_bound (Z.abs n)) as (Hs & Hm & _); [done|].
    case_match; [done|]. intros [= <- <-]. split; [done|]. intros Hn.
    apply Z.mul_nonneg_nonneg; [lia|].
    apply Z.div_pos; [|done]. apply Z.mul_nonneg_nonneg; [done|].
    apply Z.pow_nonneg. lia.
Qed.

Lemma int_truediv_64_raise_inv n x w :
  int_truediv_64 n = (Raise x, w) →
  x = OverflowError ∧ w = [] ∧ 2 ^ 1024 ≤ Z.abs n.
Proof.
  intros Hr.
  destruct (Z.lt_ge_cases (Z.abs n) (2 ^ 1024)) as [Hlt|Hge].
  - apply int_truediv_64_returns in Hlt as [off Hoff]. congruence.
  - revert Hr. unfold int_truediv_64. cbv zeta.
    repeat case_match; try done. by intros [= <- <-].
Qed.

Lemma int_truediv_64_overflows n :
  2 ^ 1030 ≤ Z.abs n → int_truediv_64 n = (Raise OverflowError, []).
Proof.
  intros Hn.
  assert (2 ^ 53 ≤ 2 ^ 1030) as H53 by (by apply Z.pow_le_mono_r).
  unfold int_truediv_64. cbv zeta.
  destruct (Z.ltb_spec (Z.abs n) (2 ^ 53)); [lia|].
  set (a := Z.abs n) in *. set (s := Z.log2 a - 52).
  assert (0 < a) as Hpos by (pose proof (Z.pow_pos_nonneg 2 53); lia).
  destruct (Z.log2_spec a Hpos) as [Hlo _].
  assert (1030 ≤ Z.log2 a) as He by (by apply Z.log2_le_pow2).
  assert (0 < 2 ^ s) as HP by (apply Z.pow_pos_nonneg; unfold s; lia).
  pose proof (round_half_even_bounds a s ltac:(lia) ltac:(unfold s; lia))
    as [Hm _].
  assert (2 ^ Z.log2 a = 2 ^ s * 2 ^ 52) as Hsplit.
  { rewrite <- Z.pow_add_r by (unfold s; lia). f_equal. unfold s. lia. }
  assert (2 ^ 52 ≤ a / 2 ^ s) as Hq.
  { apply Z.div_le_lower_bound; [done|]. lia. }
  assert (2 ^ 1030 ≤ 2 ^ Z.log2 a) as Hbig by (by apply Z.pow_le_mono_r).
  assert (2 ^ 52 * 2 ^ s ≤ round_half_even a s * 2 ^ s) as Hle.
  { apply Z.mul_le_mono_nonneg_r; lia. }
  destruct (Z.leb_spec (2 ^ 1030) (round_half_even a s * 2 ^ s));
    [done|lia].
Qed.

Lemma preOffset_Ok (a : ABF.t V) off w :
  int_truediv_64 (ABF.sweepPointCount a) = (Ok off, w) →
  off = preOffset a ∧ w = [].
Proof.
  intros Hoff. unfold preOffset. rewrite Hoff.
  by apply int_truediv_64_Ok in Hoff as [-> _].
Qed.

Lemma preOffset_nonneg (a : ABF.t V) :
  0 ≤ ABF.sweepPointCount a → 0 ≤ preOffset a.
Proof.
  intros Hn. unfold preOffset.
  destruct (int_truediv_64 (ABF.sweepPointCount a)) as [[off|e] w] eqn:Hoff;
    [|done].
  apply int_truediv_64_Ok in Hoff as [_ Hoff]. by apply Hoff.
Qed.

(** ** Indexing *)

Lemma py_index_nat (n i : nat) :
  py_index (Z.of_nat n) (Z.of_nat i) = if decide (i < n)%nat then Some i else None.
Proof.
  unfold py_index. destruct (Z.ltb_spec (Z.of_nat i) 0); [lia|].
  case_decide.
  - destruct (Z.ltb_spec (Z.of_nat i) 0), (Z.leb_spec (Z.of_nat n) (Z.of_nat i));
      simpl; try lia. by rewrite Nat2Z.id.
  - destruct (Z.leb_spec (Z.of_nat n) (Z.of_nat i)); [|lia].
    by rewrite orb_true_r.
Qed.

Lemma py_index_last (n : nat) :
  py_index (Z.of_nat n) (-1) = if decide (n = 0)%nat then None else Some (pred n).
Proof.
  unfold py_index. simpl. case_decide.
  - subst. done.
  - destruct (Z.ltb_spec (-1 + Z.of_nat n) 0); [lia|].
    destruct (Z.leb_spec (Z.of_nat n) (-1 + Z.of_nat n)); [lia|].
    simpl. f_equal. lia.
Qed.

Lemma py_index_lt (n : nat) i j : py_index (Z.of_nat n) i = Some j → (j < n)%nat.
Proof.
  unfold py_index.
  destruct (Z.ltb_spec i 0);
    repeat match goal with
    | |- context [(?a <? ?b)] => destruct (Z.ltb_spec a b)
    | |- context [(?a <=? ?b)] => destruct (Z.leb_spec a b)
    end; simpl; intros [= <-]; lia.
Qed.

Lemma getitem_nat {A} (l : list A) (i : nat) :
  getitem l (Z.of_nat i)
  = match l !! i with Some x => ret x | None => raise IndexError end.
Proof.
  unfold getitem. rewrite py_index_nat. case_decide; [done|].
  by rewrite lookup_ge_None_2 by lia.
Qed.

Lemma getitem_last {A} (l : list A) :
  getitem l (-1)
  = match last l with Some x => ret x | None => raise IndexError end.
Proof.
  unfold getitem. rewrite py_index_last, last_lookup. case_decide as Hl.
  - by apply length_zero_iff_nil in Hl as ->.
  - done.
Qed.

Lemma getitem_snoc {A} (l : list A) x : getitem (l ++ [x]) (-1) = ret x.
Proof. by rewrite getitem_last, last_snoc. Qed.

Lemma getitem_Ok_inv {A} (l : list A) i x w :
  getitem l i = (Ok x, w) → w = [] ∧ ∃ j, l !! j = Some x.
Proof.
  unfold getitem. destruct (py_index _ i) as [j|]; [|done].
  destruct (l !! j) eqn:Hj; [|done]. intros [= -> <-]. eauto.
Qed.

Lemma getitem_last_Ok_inv {A} (l : list A) x w :
  getitem l (-1) = (Ok x, w) → last l = Some x ∧ w = [].
Proof. rewrite getitem_last. destruct (last l); [|done]. by intros [= -> <-]. Qed.

Lemma getitem_nat_Ok_inv {A} (l : list A) (i : nat) x w :
  getitem l (Z.of_nat i) = (Ok x, w) → l !! i = Some x ∧ w = [].
Proof. rewrite getitem_nat. destruct (l !! i); [|done]. by intros [= -> <-]. Qed.

Lemma setitem_last {A} (l : list A) x y :
  setitem (l ++ [x]) (-1) y = ret (l ++ [y]).
Proof.
  unfold setitem. rewrite py_index_last, length_app. simpl.
  case_decide; [lia|]. f_equal. f_equal.
  replace (pred (length l + 1)) with (length l + 0)%nat by lia.
  by rewrite insert_app_r.
Qed.

Lemma setitem_Ok_inv {A} (l : list A) i x l' w :
  setitem l i x = (Ok l', w) →
  w = [] ∧ ∃ j, (j < length l)%nat ∧ py_index (Z.of_nat (length l)) i = Some j
                ∧ l' = <[j:=x]> l.
Proof.
  unfold setitem. destruct (py_index _ i) as [j|] eqn:Hj; [|done].
  intros [= <- <-]. split; [done|]. exists j. eauto using py_index_lt.
Qed.

(** Inversion of a computation that returned. *)
Ltac minv :=
  repeat (cbv beta zeta in *;
    match goal with
    | H : bind _ _ = (Ok _, _) |- _ =>
        apply bind_Ok_inv in H as (? & ? & ? & ? & ? & ->)
    | H : ret _ = (Ok _, _) |- _ => apply ret_Ok_inv in H as [<- ->]
    | H : getitem _ (-1) = (Ok _, _) |- _ =>
        apply getitem_last_Ok_inv in H as [? ->]
    | H : getitem _ (Z.of_nat _) = (Ok _, _) |- _ =>
        apply getitem_nat_Ok_inv in H as [? ->]
    | H : attr _ = (Ok _, _) |- _ => apply attr_Ok_inv in H as [? ->]
    end).

(** ** One iteration of the ingestion loop *)

Lemma _fillEpoch_Ok i (s s' : Epochs V) w :
  _fillEpoch i s = (Ok s', w) →
  w = [] ∧
  ∃ ps d t lv dl du dd pp pw,
    let ep := ABF._epochPerDacSection (abf s) in
    last (pointStart s) = Some ps ∧ last (duration s) = Some d ∧
    ABF.nEpochType ep !! i = Some t ∧
    ABF.fEpochInitLevel ep !! i = Some lv ∧
    ABF.fEpochLevelInc ep !! i = Some dl ∧
    ABF.lEpochInitDuration ep !! i = Some du ∧
    ABF.lEpochDurationInc ep !! i = Some dd ∧
    ABF.lEpochPulsePeriod ep !! i = Some pp ∧
    ABF.lEpochPulseWidth ep !! i = Some pw ∧
    s' = Build_Epochs (abf s) (channel s) (pointStart s ++ [ps + d])
           (pointEnd s ++ [ps + d + du]) (label s) (type s ++ [PInt t])
           (level s ++ [lv]) (levelDelta s ++ [dl]) (duration s ++ [du])
           (durationDelta s ++ [dd]) (pulsePeriod s ++ [pp])
           (pulseWidth s ++ [pw]) (digitalOutputs s) (_pointOffset s)
           (epochCount s) (epochList s) (dacUnits s).
Proof.
  unfold _fillEpoch. intros Hf. minv. simpl in *.
  rewrite last_snoc in *. simplify_eq.
  split; [done|]. by repeat eexists.
Qed.

Lemma chained_snoc (s s' : Epochs V) ps d du :
  chained s →
  last (pointStart s) = Some ps → last (duration s) = Some d →
  pointStart s' = pointStart s ++ [ps + d] →
  pointEnd s' = pointEnd s ++ [ps + d + du] →
  duration s' = duration s ++ [du] →
  chained s'.
Proof.
  intros (Hl1 & Hl2 & H0 & Hend & Hc) Hps Hd E1 E2 E3.
  rewrite last_lookup in Hps, Hd. rewrite Hl1 in Hps.
  assert (0 < length (duration s))%nat as Hn.
  { apply lookup_lt_Some in Hd. destruct (length (duration s)); simpl in *; lia. }
  unfold chained, contiguous. rewrite E1, E2, E3, !length_app. simpl.
  split_and!; [lia|lia|..].
  - rewrite lookup_app_l by lia. done.
  - intros i x d' Hx Hd'.
    destruct (decide (i < length (duration s))%nat) as [Hi|Hi].
    + rewrite lookup_app_l in Hx, Hd' by lia. rewrite lookup_app_l by lia. eauto.
    + rewrite lookup_app_r in Hx, Hd' by lia.
      rewrite lookup_app_r by lia. rewrite Hl1 in Hx. rewrite Hl2.
      destruct (i - length (duration s))%nat; simpl in *; [|done].
      by simplify_eq.
  - intros i y x Hy Hx.
    destruct (decide (S i < length (duration s))%nat) as [Hi|Hi].
    + rewrite lookup_app_l in Hy, Hx by lia. eauto.
    + assert (S i = length (duration s)) as Hi'.
      { apply lookup_lt_Some in Hx. rewrite length_app in Hx. simpl in Hx. lia. }
      rewrite lookup_app_l in Hy by lia.
      rewrite lookup_app_r in Hx by lia.
      replace (S i - length (pointStart s))%nat with 0%nat in Hx by lia.
      simpl in Hx. simplify_eq.
      replace (pred (length (duration s))) with i in * by lia.
      specialize (Hend _ _ _ Hps Hd). congruence.
Qed.

Lemma frame_refl (s : Epochs V) : frame s s.
Proof. by unfold frame. Qed.

Lemma frame_trans (s1 s2 s3 : Epochs V) : frame s1 s2 → frame s2 s3 → frame s1 s3.
Proof. unfold frame. intros. destruct_and!. split_and!; congruence. Qed.

(** ** The ingestion loop *)

Lemma _fillEpochsFrom_Ok dacNums : ∀ i (s s' : Epochs V) w,
  _fillEpochsFrom i dacNums s = (Ok s', w) →
  let rows := channelRows i dacNums (channel s) in
  w = [] ∧ frame s s' ∧
  duration s' = duration s
    ++ omap (λ j, ABF.lEpochInitDuration (ABF._epochPerDacSection (abf s)) !! j) rows ∧
  (chained s → chained s') ∧
  (∀ n, same_len n s → same_len (n + length rows) s') ∧
  grown s s'.
Proof.
  induction dacNums as [|dacNum rest IH]; intros i s s' w; simpl.
  - intros [= <- <-]. rewrite app_nil_r.
    split_and!; auto using frame_refl.
    + intros n. by rewrite Nat.add_0_r.
    + by unfold grown.
  - case_decide as Hd.
    + intros Hf. by apply IH in Hf.
    + intros Hf. apply bind_Ok_inv in Hf as (s1 & w1 & w2 & Hs1 & Hf & ->).
      apply _fillEpoch_Ok in Hs1
        as (-> & ps & d & t & lv & dl & du & dd & pp & pw & Hs1).
      cbv zeta in Hs1.
      destruct Hs1 as (Hps & Hld & Ht & Hlv & Hdl & Hdu & Hdd & Hpp & Hpw & ->).
      apply IH in Hf as (-> & Hfr & Hdur & Hch & Hlen & Hgr). simpl in *.
      split_and!.
      * done.
      * eapply frame_trans; [|exact Hfr]. by unfold frame.
      * rewrite Hdur, Hdu. simpl. by rewrite <- app_assoc.
      * intros Hc. apply Hch. by eapply chained_snoc.
      * intros n Hn.
        replace (n + S (length (channelRows (S i) rest (channel s))))%nat
          with (S n + length (channelRows (S i) rest (channel s)))%nat by lia.
        apply Hlen. unfold same_len in *. simpl.
        rewrite !length_app. simpl. destruct_and!. split_and!; lia.
      * destruct Hgr as (? & ? & ?). simpl in *.
        unfold grown; split_and!; by eapply prefix_app_l.
Qed.

(** ** The steps of [__init__] *)

Lemma getitem_Ok_nil {A} (l : list A) i x w :
  getitem l i = (Ok x, w) → w = [].
Proof. intros Hg. by apply getitem_Ok_inv in Hg as [-> _]. Qed.

Lemma _addPreEpoch_Ok (a : ABF.t V) ch (s : Epochs V) w :
  _addPreEpoch (_initEpochVars a ch) = (Ok s, w) →
  w = [] ∧ ∃ hc, getitem (ABF.holdingCommand a) ch = (Ok hc, [])
                 ∧ s = preEpoch a ch hc.
Proof.
  unfold _addPreEpoch. simpl. intros Hp.
  apply bind_Ok_inv in Hp as (off & w0 & ? & Hoff & Hp & ->).
  apply preOffset_Ok in Hoff as [-> ->]. cbv zeta in Hp.
  apply bind_Ok_inv in Hp as (hc & w1 & w2 & Hhc & Hp & ->). simpl in Hhc.
  pose proof (getitem_Ok_nil _ _ _ _ Hhc) as ->.
  apply ret_Ok_inv in Hp as [<- ->]. split; [done|]. by exists hc.
Qed.

Lemma _addPreEpoch_offset (a : ABF.t V) ch (s : Epochs V) w :
  _addPreEpoch (_initEpochVars a ch) = (Ok s, w) →
  int_truediv_64 (ABF.sweepPointCount a) = (Ok (preOffset a), []).
Proof.
  unfold _addPreEpoch. simpl. intros Hp.
  apply bind_Ok_inv in Hp as (off & w0 & ? & Hoff & _).
  pose proof Hoff as [-> ->]%preOffset_Ok. done.
Qed.

Lemma mapM_chr n : ∀ i l w,
  mapM (λ x : nat, chr (Z.of_nat x + 64)) (seq i n) = (Ok l, w) →
  w = [] ∧ l = (λ x : nat, [Z.of_nat x + 64]) <$> seq i n.
Proof.
  induction n as [|n IH]; intros i l w; simpl.
  - by intros [= <- <-].
  - intros Hm. apply bind_Ok_inv in Hm as (y & w1 & w2 & Hy & Hm & ->).
    apply bind_Ok_inv in Hm as (ys & w3 & w4 & Hys & Hm & ->).
    apply ret_Ok_inv in Hm as [<- ->]. apply IH in Hys as [-> ->].
    unfold chr in Hy. destruct (_ && _); [|done].
    by apply ret_Ok_inv in Hy as [<- ->].
Qed.

Lemma setitem_0_Ok_inv {A} (l : list A) x l' w :
  setitem l 0 x = (Ok l', w) → w = [] ∧ l ≠ [] ∧ l' = <[0%nat := x]> l.
Proof.
  intros Hs. apply setitem_Ok_inv in Hs as (-> & j & Hj & Hi & ->).
  change 0 with (Z.of_nat 0) in Hi. rewrite py_index_nat in Hi.
  case_decide; [|done]. simplify_eq. split_and!; [done| |done].
  intros ->. simpl in *. lia.
Qed.

Lemma setitem_last_Ok_inv {A} (l : list A) x l' w :
  setitem l (-1) x = (Ok l', w) → w = [] ∧ l' = <[pred (length l) := x]> l.
Proof.
  intros Hs. apply setitem_Ok_inv in Hs as (-> & j & Hj & Hi & ->).
  rewrite py_index_last in Hi. case_decide; [done|]. by simplify_eq.
Qed.

Lemma _createEpochLabels_Ok (s s' : Epochs V) w :
  _createEpochLabels s = (Ok s', w) →
  w = [] ∧ type s ≠ [] ∧
  ∃ d, last (duration s) = Some d
       ∧ s' = with_label (epochLabels (length (type s)) d) s.
Proof.
  unfold _createEpochLabels. intros Hc.
  apply bind_Ok_inv in Hc as (l0 & ? & ? & Hl0 & Hc & ->).
  apply mapM_chr in Hl0 as [-> ->]. cbv zeta in Hc. simpl in Hc.
  apply bind_Ok_inv in Hc as (l1 & ? & ? & Hl1 & Hc & ->).
  apply setitem_0_Ok_inv in Hl1 as (-> & Hne & ->).
  apply bind_Ok_inv in Hc as (d & ? & ? & Hd & Hc & ->).
  apply getitem_last_Ok_inv in Hd as [Hd ->].
  assert (type s ≠ []) as Hty.
  { intros Hty. rewrite Hty in Hne. by apply Hne. }
  case_decide as Hd0.
  - apply bind_Ok_inv in Hc as (l2 & ? & ? & Hl2 & Hc & ->).
    apply setitem_last_Ok_inv in Hl2 as (-> & ->).
    apply ret_Ok_inv in Hc as [<- ->].
    rewrite length_insert, length_fmap, length_seq.
    split_and!; [done..|]. exists d. split; [done|].
    unfold epochLabels. by rewrite decide_True by done.
  - apply ret_Ok_inv in Hc as [<- ->]. split_and!; [done..|].
    exists d. split; [done|].
    unfold epochLabels. by rewrite decide_False by done.
Qed.

Lemma _updateEpochDetails_Ok (s s' : Epochs V) w :
  _updateEpochDetails s = (Ok s', w) →
  w = [] ∧ ∃ u, getitem (ABF.dacUnits (abf s)) (channel s) = (Ok u, [])
    ∧ s' = with_dacUnits u
             (with_epochList (seq 0 (length (type s)))
                (with_epochCount (length (type s)) s)).
Proof.
  unfold _updateEpochDetails. simpl. intros Hu.
  apply bind_Ok_inv in Hu as (u & w1 & w2 & Hg & Hu & ->).
  pose proof (getitem_Ok_nil _ _ _ _ Hg) as ->.
  apply ret_Ok_inv in Hu as [<- ->]. split; [done|]. by exists u.
Qed.

(** The last two steps of [__init__], common to every format. *)
Lemma finish_Ok (s : Epochs V) (self : Epochs V) w :
  (do s' <- _createEpochLabels s; _updateEpochDetails s') = (Ok self, w) →
  w = [] ∧ type s ≠ [] ∧
  ∃ d u, last (duration s) = Some d
         ∧ getitem (ABF.dacUnits (abf s)) (channel s) = (Ok u, [])
         ∧ self = finished s d u.
Proof.
  intros Hf. apply bind_Ok_inv in Hf as (s' & w1 & w2 & Hl & Hu & ->).
  apply _createEpochLabels_Ok in Hl as (-> & Hne & d & Hd & ->).
  apply _updateEpochDetails_Ok in Hu as (-> & u & Hu & ->).
  split_and!; [done..|]. by exists d, u.
Qed.

Lemma _addPostEpoch_Ok (s s' : Epochs V) w :
  _addPostEpoch s = (Ok s', w) →
  w = [] ∧
  ∃ flag off,
    getitem (ABF.nInterEpisodeLevel (ABF._dacSection (abf s))) (channel s)
      = (Ok flag, []) ∧
    _pointOffset s = Some off ∧
    ((flag ≠ 0 ∧ pointEnd s ≠ [] ∧ s' = sustained s off) ∨
     (flag = 0 ∧ ∃ pe lv, last (pointEnd s) = Some pe ∧
                          last (level s) = Some lv ∧
                          s' = postEpoch s pe off lv)).
Proof.
  unfold _addPostEpoch. cbv zeta. intros Hp.
  apply bind_Ok_inv in Hp as (flag & ? & ? & Hflag & Hp & ->).
  pose proof (getitem_Ok_nil _ _ _ _ Hflag) as ->.
  case_decide as Hf.
  - apply bind_Ok_inv in Hp as (off & ? & ? & Hoff & Hp & ->).
    apply attr_Ok_inv in Hoff as [Hoff ->].
    apply bind_Ok_inv in Hp as (pe & ? & ? & Hpe & Hp & ->).
    pose proof Hpe as Hpe'.
    apply setitem_last_Ok_inv in Hpe as [-> ->].
    apply ret_Ok_inv in Hp as [<- ->]. split; [done|].
    exists flag, off. split_and!; [done..|]. left. split_and!; [done| |done].
    intros Hnil. rewrite Hnil in Hpe'. done.
  - apply bind_Ok_inv in Hp as (pe & ? & ? & Hpe & Hp & ->).
    apply getitem_last_Ok_inv in Hpe as [Hpe ->]. simpl in Hp.
    apply bind_Ok_inv in Hp as (off & ? & ? & Hoff & Hp & ->).
    apply attr_Ok_inv in Hoff as [Hoff ->].
    apply bind_Ok_inv in Hp as (lv & ? & ? & Hlv & Hp & ->).
    apply getitem_last_Ok_inv in Hlv as [Hlv ->].
    apply ret_Ok_inv in Hp as [<- ->]. split; [done|].
    exists flag, off. split_and!; [done..|]. right.
    split; [lia|]. by exists pe, lv.
Qed.

Lemma _updateForABFv1_Ok (a : ABF.t V) ch (s : Epochs V) w :
  _updateForABFv1 (_initEpochVars a ch) = (Ok s, w) →
  w = [str "ABFv1 epoch synthesis not fully supported"] ∧
  ∃ hc, getitem (ABF.holdingCommand a) ch = (Ok hc, [])
        ∧ s = legacyEpoch a ch hc.
Proof.
  unfold _updateForABFv1. cbv zeta. intros Hp.
  apply bind_Ok_inv in Hp as ([] & ? & ? & [= <-] & Hp & ->).
  apply bind_Ok_inv in Hp as (hc & ? & ? & Hhc & Hp & ->). simpl in Hhc.
  pose proof (getitem_Ok_nil _ _ _ _ Hhc) as ->.
  apply ret_Ok_inv in Hp as [<- ->]. split; [done|]. by exists hc.
Qed.

(** ** [__init__], by format *)

Lemma legacy_Ok (a : ABF.t V) ch (self : Epochs V) w :
  ABF.abfFileFormat a = 1 →
  __init__ a ch = (Ok self, w) →
  w = [str "ABFv1 epoch synthesis not fully supported"] ∧
  ∃ hc u, getitem (ABF.holdingCommand a) ch = (Ok hc, [])
          ∧ getitem (ABF.dacUnits a) ch = (Ok u, [])
          ∧ self = finished (legacyEpoch a ch hc) (ABF.sweepPointCount a) u.
Proof.
  unfold __init__. cbv zeta. intros Hfmt Hi. rewrite decide_True in Hi by done.
  apply bind_Ok_inv in Hi as (s & ? & ? & Hs & Hi & ->).
  apply _updateForABFv1_Ok in Hs as (-> & hc & Hhc & ->).
  apply finish_Ok in Hi as (-> & _ & d & u & Hd & Hu & ->).
  simpl in *. simplify_eq. split; [done|]. by exists hc, u.
Qed.

Lemma segmented_Ok (a : ABF.t V) ch (self : Epochs V) w :
  ABF.abfFileFormat a = 2 →
  __init__ a ch = (Ok self, w) →
  w = [] ∧
  ∃ hc s1 s2 d u,
    getitem (ABF.holdingCommand a) ch = (Ok hc, []) ∧
    _fillEpochsFromABF (preEpoch a ch hc) = (Ok s1, []) ∧
    _addPostEpoch s1 = (Ok s2, []) ∧
    abf s1 = a ∧ channel s1 = ch ∧ abf s2 = a ∧ channel s2 = ch ∧
    last (duration s2) = Some d ∧
    getitem (ABF.dacUnits a) ch = (Ok u, []) ∧
    self = finished s2 d u.
Proof.
  unfold __init__. cbv zeta. intros Hfmt Hi.
  rewrite decide_False, decide_True in Hi by (done || lia).
  apply bind_Ok_inv in Hi as (s2 & ? & ? & Hs & Hi & ->).
  apply bind_Ok_inv in Hs as (s0 & ? & ? & Hs0 & Hs & ->).
  apply _addPreEpoch_Ok in Hs0 as (-> & hc & Hhc & ->).
  apply bind_Ok_inv in Hs as (s1 & ? & ? & Hs1 & Hs2 & ->).
  pose proof Hs1 as Hs1'. unfold _fillEpochsFromABF in Hs1'.
  apply _fillEpochsFrom_Ok in Hs1' as (-> & Hfr & _).
  destruct Hfr as (Ha & Hc & _). simpl in Ha, Hc.
  pose proof Hs2 as Hs2'.
  apply _addPostEpoch_Ok in Hs2' as (-> & flag & off & _ & _ & Hcase).
  assert (abf s2 = a ∧ channel s2 = ch) as [Ha2 Hc2].
  { destruct Hcase as [(_ & _ & ->)|(_ & pe & lv & _ & _ & ->)]; by simpl. }
  apply finish_Ok in Hi as (-> & _ & d & u & Hd & Hu & ->).
  rewrite Ha2, Hc2 in Hu. split; [done|].
  by exists hc, s1, s2, d, u.
Qed.

Lemma other_format_raises (a : ABF.t V) ch (self : Epochs V) w :
  ABF.abfFileFormat a ≠ 1 → ABF.abfFileFormat a ≠ 2 →
  __init__ a ch ≠ (Ok self, w).
Proof.
  unfold __init__. cbv zeta. intros H1 H2 Hi.
  rewrite !decide_False in Hi by done. rewrite bind_ret in Hi.
  by apply finish_Ok in Hi as (_ & Hne & _).
Qed.

Lemma length_epochLabels n d : length (epochLabels n d) = n.
Proof.
  unfold epochLabels. case_decide;
    by rewrite ?length_insert, length_fmap, length_seq.
Qed.

Lemma segmented_shape (a : ABF.t V) ch (self : Epochs V) w :
  ABF.abfFileFormat a = 2 →
  __init__ a ch = (Ok self, w) →
  let off := preOffset a in
  let rows := channelRows 0 (ABF.nDACNum (ABF._epochPerDacSection a)) ch in
  w = [] ∧
  ∃ hc s1 flag u,
    getitem (ABF.holdingCommand a) ch = (Ok hc, []) ∧
    getitem (ABF.nInterEpisodeLevel (ABF._dacSection a)) ch = (Ok flag, []) ∧
    getitem (ABF.dacUnits a) ch = (Ok u, []) ∧
    frame (preEpoch a ch hc) s1 ∧ grown (preEpoch a ch hc) s1 ∧
    chained s1 ∧ same_len (1 + length rows) s1 ∧
    duration s1 = off :: channelDurations a ch ∧
    ((flag ≠ 0 ∧ ∃ d, last (duration s1) = Some d
                      ∧ self = finished (sustained s1 off) d u) ∨
     (flag = 0 ∧ ∃ pe lv, last (pointEnd s1) = Some pe
                          ∧ last (level s1) = Some lv
                          ∧ self = finished (postEpoch s1 pe off lv) 0 u)).
Proof.
  intros Hfmt Hi off rows.
  apply segmented_Ok in Hi
    as (-> & hc & s1 & s2 & d & u & Hhc & Hs1 & Hs2 & Ha1 & Hc1 & Ha2 & Hc2
        & Hd & Hu & ->); [|done].
  split; [done|].
  apply _fillEpochsFrom_Ok in Hs1 as (_ & Hfr & Hdur & Hch & Hlen & Hgr).
  simpl in Hdur, Hlen.
  apply _addPostEpoch_Ok in Hs2 as (_ & flag & off' & Hflag & Hoff & Hcase).
  rewrite Ha1, Hc1 in Hflag.
  assert (off' = off) as ->.
  { destruct Hfr as (_ & _ & _ & _ & Hp & _). simpl in Hp.
    unfold off. congruence. }
  exists hc, s1, flag, u. split_and!; try done.
  - apply Hch. unfold chained, contiguous. simpl. split_and!; try done.
    intros [|i] x d'; simpl; [|done]. intros [= <-] [= <-]. f_equal.
  - apply (Hlen 1%nat). by unfold same_len.
  - destruct Hcase as [(Hf & Hne & ->)|(Hf & pe & lv & Hpe & Hlv & ->)].
    + left. split; [done|]. exists d. simpl in Hd. done.
    + right. split; [done|]. exists pe, lv. split_and!; try done.
      simpl in Hd. rewrite last_snoc in Hd. by simplify_eq.
Qed.

Lemma segmented_offset (a : ABF.t V) ch (self : Epochs V) w :
  ABF.abfFileFormat a = 2 →
  __init__ a ch = (Ok self, w) →
  int_truediv_64 (ABF.sweepPointCount a) = (Ok (preOffset a), []) ∧
  _pointOffset self = Some (preOffset a).
Proof.
  intros Hfmt Hi. split.
  - unfold __init__ in Hi. cbv zeta in Hi.
    rewrite decide_False, decide_True in Hi by (done || lia).
    apply bind_Ok_inv in Hi as (s2 & ? & ? & Hs & _).
    apply bind_Ok_inv in Hs as (s0 & ? & ? & Hs0 & _).
    by apply _addPreEpoch_offset in Hs0.
  - apply segmented_shape in Hi
      as (_ & hc & s1 & flag & u & _ & _ & _ & Hfr & _ & _ & _ & _ & Hcase);
      [|done].
    destruct Hfr as (_ & _ & _ & _ & Hoff & _). simpl in Hoff.
    by destruct Hcase as [(_ & d & _ & ->)|(_ & pe & lv & _ & _ & ->)].
Qed.

Lemma well_formed_finished (s : Epochs V) d u n :
  same_len n s → well_formed (finished s d u).
Proof.
  intros Hn. exists n. pose proof Hn as (_ & _ & Hty & _).
  unfold finished. simpl. rewrite length_epochLabels, Hty.
  split_and!; try done.
Qed.

Lemma same_len_sustained n (s : Epochs V) off : same_len n s → same_len n (sustained s off).
Proof.
  unfold same_len, sustained. simpl. rewrite length_insert. tauto.
Qed.

Lemma same_len_postEpoch n (s : Epochs V) pe off lv :
  same_len n s → same_len (S n) (postEpoch s pe off lv).
Proof.
  unfold same_len, postEpoch. simpl. rewrite !length_app. simpl.
  intros. destruct_and!. split_and!; lia.
Qed.

Lemma init_well_formed (a : ABF.t V) ch (self : Epochs V) w :
  __init__ a ch = (Ok self, w) →
  well_formed self ∧ abf self = a ∧ channel self = ch ∧
  ∃ hc, getitem (ABF.holdingCommand a) ch = (Ok hc, []).
Proof.
  intros Hi.
  destruct (decide (ABF.abfFileFormat a = 1)) as [Hf1|Hf1];
    [|destruct (decide (ABF.abfFileFormat a = 2)) as [Hf2|Hf2]].
  - apply legacy_Ok in Hi as (_ & hc & u & Hhc & _ & ->); [|done].
    split_and!; [|done|done|by exists hc].
    by apply (well_formed_finished _ _ _ 1%nat).
  - apply segmented_shape in Hi
      as (_ & hc & s1 & flag & u & Hhc & _ & _ & Hfr & _ & _ & Hlen & _ & Hcase);
      [|done].
    destruct Hfr as (Ha & Hc & _). simpl in Ha, Hc.
    destruct Hcase as [(_ & d & _ & ->)|(_ & pe & lv & _ & _ & ->)].
    + split_and!; [|done|done|by exists hc].
      eapply well_formed_finished, same_len_sustained, Hlen.
    + split_and!; [|done|done|by exists hc].
      eapply well_formed_finished, same_len_postEpoch, Hlen.
  - by apply other_format_raises in Hi.
Qed.

(** C10: after construction, on either format, the nine per-epoch lists
    and the label list all have the length stored in [epochCount]; the
    list [digitalOutputs], which only the first synthetic epoch extends,
    has length one. *)
Theorem C10_parallel_lists (a : ABF.t V) ch (self : Epochs V) w :
  __init__ a ch = (Ok self, w) →
  ∃ n, epochCount self = Some n ∧
    length (pointStart self) = n ∧ length (pointEnd self) = n ∧
    length (type self) = n ∧ length (level self) = n ∧
    length (levelDelta self) = n ∧ length (duration self) = n ∧
    length (durationDelta self) = n ∧ length (pulsePeriod self) = n ∧
    length (pulseWidth self) = n ∧ length (label self) = n ∧
    length (digitalOutputs self) = 1%nat.
Proof.
  intros Hi. pose proof Hi as Hwf.
  apply init_well_formed in Hwf as ((n & Hn & Hl & Hc & _) & _).
  exists n. unfold same_len in Hn. destruct_and!. split_and!; try done.
  destruct (decide (ABF.abfFileFormat a = 1)) as [Hf1|Hf1];
    [|destruct (decide (ABF.abfFileFormat a = 2)) as [Hf2|Hf2]].
  - by apply legacy_Ok in Hi as (_ & hc & u & _ & _ & ->).
  - apply segmented_shape in Hi
      as (_ & hc & s1 & flag & u & _ & _ & _ & Hfr & _ & _ & _ & _ & Hcase);
      [|done].
    destruct Hfr as (_ & _ & _ & Hdo & _). simpl in Hdo.
    destruct Hcase as [(_ & d & _ & ->)|(_ & pe & lv & _ & _ & ->)];
      simpl; by rewrite Hdo.
  - by apply other_format_raises in Hi.
Qed.

(** ** Contiguity *)

Lemma contiguous_sustained (s : Epochs V) off : chained s → contiguous (sustained s off).
Proof.
  intros (Hl1 & Hl2 & _ & _ & Hc) i y x. unfold sustained. simpl.
  intros Hy Hx. apply lookup_lt_Some in Hx as Hlt.
  rewrite list_lookup_insert_ne in Hy by lia. eauto.
Qed.

Lemma contiguous_postEpoch (s : Epochs V) pe off lv :
  chained s → last (pointEnd s) = Some pe →
  contiguous (postEpoch s pe off lv).
Proof.
  intros (Hl1 & Hl2 & _ & _ & Hc) Hpe i y x. unfold postEpoch. simpl.
  intros Hy Hx. rewrite last_lookup in Hpe.
  destruct (decide (S i < length (pointStart s))%nat) as [Hi|Hi].
  - rewrite lookup_app_l in Hy, Hx by lia. eauto.
  - apply lookup_lt_Some in Hx as Hlt. rewrite length_app in Hlt. simpl in Hlt.
    rewrite lookup_app_r in Hx by lia.
    replace (S i - length (pointStart s))%nat with 0%nat in Hx by lia.
    rewrite lookup_app_l in Hy by lia.
    replace (pred (length (pointEnd s))) with i in Hpe by lia.
    simpl in Hx. congruence.
Qed.

(** C3: in a timeline built from a segmented-format header, every epoch
    ends where the next one starts: [pointEnd[i] == pointStart[i+1]] for
    every consecutive pair. *)
Theorem C3_contiguous (a : ABF.t V) ch (self : Epochs V) w :
  ABF.abfFileFormat a = 2 →
  __init__ a ch = (Ok self, w) →
  ∀ (i : nat) y x,
    pointEnd self !! i = Some y → pointStart self !! S i = Some x → y = x.
Proof.
  intros Hfmt Hi.
  apply segmented_shape in Hi
    as (_ & hc & s1 & flag & u & _ & _ & _ & _ & _ & Hch & _ & _ & Hcase);
    [|done].
  destruct Hcase as [(_ & d & _ & ->)|(_ & pe & lv & Hpe & _ & ->)].
  - by apply (contiguous_sustained s1).
  - by apply (contiguous_postEpoch s1).
Qed.

(** ** The post-epoch *)

Lemma _addPostEpoch_sustain (s : Epochs V) flag off :
  getitem (ABF.nInterEpisodeLevel (ABF._dacSection (abf s))) (channel s)
    = (Ok flag, []) →
  flag ≠ 0 → _pointOffset s = Some off → pointEnd s ≠ [] →
  _addPostEpoch s = (Ok (sustained s off), []).
Proof.
  intros Hflag Hf Hoff Hne. unfold _addPostEpoch. cbv zeta.
  rewrite Hflag, bind_ok, decide_True by done.
  rewrite Hoff. simpl attr. rewrite bind_ret.
  unfold setitem. rewrite py_index_last.
  rewrite decide_False by (by intros ?%length_zero_iff_nil).
  by rewrite bind_ret.
Qed.

Lemma _addPostEpoch_revert (s : Epochs V) flag off pe lv :
  getitem (ABF.nInterEpisodeLevel (ABF._dacSection (abf s))) (channel s)
    = (Ok flag, []) →
  flag = 0 → _pointOffset s = Some off →
  last (pointEnd s) = Some pe → last (level s) = Some lv →
  _addPostEpoch s = (Ok (postEpoch s pe off lv), []).
Proof.
  intros Hflag Hf Hoff Hpe Hlv. unfold _addPostEpoch. cbv zeta.
  rewrite Hflag, bind_ok, decide_False by lia.
  rewrite getitem_last, Hpe, bind_ret. simpl.
  rewrite Hoff. simpl attr. rewrite bind_ret.
  by rewrite getitem_last, Hlv, bind_ret.
Qed.

(** C5: on the segmented path, [_addPostEpoch] branches on the channel's
    entry of [nInterEpisodeLevel]; [off] is the value of [_pointOffset],
    which [_addPreEpoch] has set to [int(sweepPointCount/64)].  When the
    entry is true nothing is appended: the only change is that the last
    element of [pointEnd] becomes [sweepPointCount - 1 + _pointOffset].
    When it is false exactly one epoch is appended: a step ([type] 1) from
    the previous end to [sweepPointCount + _pointOffset], with the previous
    epoch's level, a zero level increment and a zero base duration. *)
Theorem C5_post_epoch (a : ABF.t V) ch (s1 : Epochs V) w flag :
  (do s <- _addPreEpoch (_initEpochVars a ch); _fillEpochsFromABF s)
    = (Ok s1, w) →
  getitem (ABF.nInterEpisodeLevel (ABF._dacSection a)) ch = (Ok flag, []) →
  let n := ABF.sweepPointCount a in
  ∃ off s2,
    int_truediv_64 n = (Ok off, []) ∧ _pointOffset s1 = Some off ∧
    _addPostEpoch s1 = (Ok s2, []) ∧ _pointOffset s2 = Some off ∧
    if decide (flag ≠ 0) then
      pointEnd s2 = <[pred (length (pointEnd s1)) := n - 1 + off]> (pointEnd s1) ∧
      last (pointEnd s2) = Some (n - 1 + off) ∧
      pointStart s2 = pointStart s1 ∧ type s2 = type s1 ∧
      level s2 = level s1 ∧ levelDelta s2 = levelDelta s1 ∧
      duration s2 = duration s1 ∧ durationDelta s2 = durationDelta s1 ∧
      pulsePeriod s2 = pulsePeriod s1 ∧ pulseWidth s2 = pulseWidth s1
    else
      ∃ lastEnd lastLevel,
        last (pointEnd s1) = Some lastEnd ∧ last (level s1) = Some lastLevel ∧
        pointStart s2 = pointStart s1 ++ [lastEnd] ∧
        pointEnd s2 = pointEnd s1 ++ [n + off] ∧
        type s2 = type s1 ++ [PInt 1] ∧
        level s2 = level s1 ++ [lastLevel] ∧
        levelDelta s2 = levelDelta s1 ++ [lofZ 0] ∧
        duration s2 = duration s1 ++ [0] ∧
        durationDelta s2 = durationDelta s1 ++ [0] ∧
        pulsePeriod s2 = pulsePeriod s1 ++ [0] ∧
        pulseWidth s2 = pulseWidth s1 ++ [0].
Proof.
  intros Hs Hflag n.
  apply bind_Ok_inv in Hs as (s0 & ? & ? & Hs0 & Hs1 & ->).
  pose proof (_addPreEpoch_offset _ _ _ _ Hs0) as Hdiv.
  apply _addPreEpoch_Ok in Hs0 as (-> & hc & Hhc & ->).
  exists (preOffset a).
  apply _fillEpochsFrom_Ok in Hs1 as (-> & Hfr & _ & _ & Hlen & _).
  specialize (Hlen 1%nat). simpl in Hlen.
  destruct Hlen as (_ & Hpe & _ & Hlv & _); [by unfold same_len|].
  destruct Hfr as (Ha & Hc & _ & _ & Hoff & _). simpl in Ha, Hc, Hoff.
  rewrite <- Ha, <- Hc in Hflag.
  assert (pointEnd s1 ≠ []) as Hne by (by intros E; rewrite E in Hpe).
  assert (level s1 ≠ []) as Hne' by (by intros E; rewrite E in Hlv).
  case_decide as Hf.
  - exists (sustained s1 (preOffset a)).
    split; [done|]. split; [done|].
    split; [by apply (_addPostEpoch_sustain _ flag)|].
    unfold sustained. simpl. rewrite Ha. split_and!; try done.
    rewrite last_lookup, length_insert. apply list_lookup_insert_eq.
    destruct (pointEnd s1); simpl in *; [done|lia].
  - apply last_is_Some in Hne as [pe Hpe'], Hne' as [lv Hlv'].
    exists (postEpoch s1 pe (preOffset a) lv).
    split; [done|]. split; [done|].
    split; [apply (_addPostEpoch_revert _ flag); try done; lia|].
    split; [done|]. exists pe, lv. unfold postEpoch. simpl. rewrite Ha.
    by split_and!.
Qed.

(** ** Construction returns *)

Lemma mapM_chr_ok n : ∀ i,
  Z.of_nat (i + n) + 63 ≤ 1114111 →
  mapM (λ x : nat, chr (Z.of_nat x + 64)) (seq i n)
  = (Ok ((λ x : nat, [Z.of_nat x + 64]) <$> seq i n), []).
Proof.
  induction n as [|n IH]; intros i Hi; simpl; [done|].
  assert (chr (Z.of_nat i + 64) = ret [Z.of_nat i + 64]) as ->.
  { unfold chr.
    destruct (Z.leb_spec 0 (Z.of_nat i + 64)); [|lia].
    by destruct (Z.leb_spec (Z.of_nat i + 64) 1114111); [|lia]. }
  rewrite bind_ret, IH by lia. by rewrite bind_ok.
Qed.

Lemma finish_forward (s : Epochs V) d u :
  type s ≠ [] → Z.of_nat (length (type s)) + 63 ≤ 1114111 →
  last (duration s) = Some d →
  getitem (ABF.dacUnits (abf s)) (channel s) = (Ok u, []) →
  (do s' <- _createEpochLabels s; _updateEpochDetails s')
  = (Ok (finished s d u), []).
Proof.
  intros Hne Hn Hd Hu. unfold _createEpochLabels.
  rewrite mapM_chr_ok by (simpl; lia). rewrite bind_ok. cbv zeta. simpl label.
  unfold setitem at 1. change 0 with (Z.of_nat 0) at 1.
  rewrite py_index_nat, length_fmap, length_seq.
  rewrite decide_True by (destruct (type s); simpl in *; [done|lia]).
  rewrite bind_ret. simpl duration. rewrite getitem_last, Hd, bind_ret.
  simpl label. unfold finished, epochLabels. case_decide.
  - unfold setitem. rewrite py_index_last, length_insert, length_fmap, length_seq.
    rewrite decide_False by (destruct (type s); simpl in *; [done|lia]).
    rewrite !bind_ret. unfold _updateEpochDetails. simpl.
    by rewrite Hu, bind_ok.
  - rewrite bind_ret. unfold _updateEpochDetails. simpl.
    by rewrite Hu, bind_ok.
Qed.

(** C8: a legacy-format header (format 1) gives, whatever else it holds,
    a timeline of exactly one epoch: a step from 0 to [sweepPointCount] at
    the channel's holding command, with zero increments, no pre-epoch
    offset, and the compatibility warning as the only diagnostic.  The
    channel indexes [holdingCommand] and [dacUnits]. *)
Theorem C8_legacy (a : ABF.t V) ch hc u :
  ABF.abfFileFormat a = 1 →
  getitem (ABF.holdingCommand a) ch = (Ok hc, []) →
  getitem (ABF.dacUnits a) ch = (Ok u, []) →
  ∃ self,
    __init__ a ch
    = (Ok self, [str "ABFv1 epoch synthesis not fully supported"]) ∧
    epochCount self = Some 1%nat ∧
    pointStart self = [0] ∧ pointEnd self = [ABF.sweepPointCount a] ∧
    type self = [PInt 1] ∧ level self = [hc] ∧
    levelDelta self = [lofZ 0] ∧ duration self = [ABF.sweepPointCount a] ∧
    durationDelta self = [0] ∧ pulsePeriod self = [0] ∧
    pulseWidth self = [0] ∧ _pointOffset self = None.
Proof.
  intros Hfmt Hhc Hu.
  exists (finished (legacyEpoch a ch hc) (ABF.sweepPointCount a) u).
  split; [|by split_and!].
  unfold __init__. cbv zeta. rewrite decide_True by done.
  assert (_updateForABFv1 (_initEpochVars a ch)
          = (Ok (legacyEpoch a ch hc),
             [str "ABFv1 epoch synthesis not fully supported"])) as ->.
  { unfold _updateForABFv1. cbv zeta. simpl abf. simpl channel.
    rewrite Hhc. reflexivity. }
  unfold bind at 1.
  by rewrite (finish_forward _ (ABF.sweepPointCount a) u).
Qed.

(** ** Labels *)

Lemma lookup_epochLabels n d i :
  (i < n)%nat → epochLabels n d !! i = Some (labelAt n d i).
Proof.
  intros Hi. unfold epochLabels, labelAt.
  assert (((λ x : nat, [Z.of_nat x + 64]) <$> seq 0 n) !! i
          = Some [Z.of_nat i + 64]) as Hchr.
  { by rewrite list_lookup_fmap, lookup_seq_lt. }
  case_decide as Hd.
  - rewrite list_lookup_insert, length_insert, length_fmap, length_seq.
    case_decide as Hlast.
    + rewrite decide_True; [done|]. split; [done|lia].
    + rewrite decide_False by lia.
      rewrite list_lookup_insert, length_fmap, length_seq.
      case_decide as H0.
      * rewrite decide_True by lia. done.
      * rewrite decide_False by lia. done.
  - rewrite decide_False by tauto.
    rewrite list_lookup_insert, length_fmap, length_seq.
    case_decide as H0.
    + rewrite decide_True by lia. done.
    + rewrite decide_False by lia. done.
Qed.

Lemma labelAt_inj n d i j : labelAt n d i = labelAt n d j → i = j.
Proof.
  unfold labelAt. repeat case_decide; try lia;
    try (intros [=]; lia); try (by vm_compute).
Qed.

Lemma NoDup_epochLabels n d : NoDup (epochLabels n d).
Proof.
  apply NoDup_alt. intros i j x Hi Hj.
  pose proof (lookup_lt_Some _ _ _ Hi) as Hin.
  pose proof (lookup_lt_Some _ _ _ Hj) as Hjn.
  rewrite length_epochLabels in Hin, Hjn.
  rewrite lookup_epochLabels in Hi, Hj by done.
  apply (labelAt_inj n d). congruence.
Qed.

Lemma init_labels (a : ABF.t V) ch (self : Epochs V) w :
  __init__ a ch = (Ok self, w) →
  type self ≠ [] ∧
  ∃ d, last (duration self) = Some d
       ∧ label self = epochLabels (length (type self)) d.
Proof.
  intros Hi.
  destruct (decide (ABF.abfFileFormat a = 1)) as [Hf1|Hf1];
    [|destruct (decide (ABF.abfFileFormat a = 2)) as [Hf2|Hf2]].
  - apply legacy_Ok in Hi as (_ & hc & u & _ & _ & ->); [|done].
    split; [done|]. by exists (ABF.sweepPointCount a).
  - pose proof Hi as Hi'.
    apply segmented_Ok in Hi
      as (_ & hc & s1 & s2 & d & u & _ & _ & _ & _ & _ & _ & _ & Hd & _ & ->);
      [|done].
    apply init_well_formed in Hi' as ((n & Hn & _) & _).
    destruct Hn as (_ & _ & Hty & _ & _ & Hdu & _). simpl in Hty, Hdu.
    split; [|by exists d]. simpl. intros E. rewrite E in Hty. simpl in Hty.
    subst n. apply length_zero_iff_nil in Hdu. by rewrite Hdu in Hd.
  - by apply other_format_raises in Hi.
Qed.

(** C9, as the code has it: with [n] epochs and [d] the base duration of
    the last one, the first label is ["pre"] unless the timeline is a single
    epoch of base duration zero, whose label is ["post"]; the last label is
    ["post"] when [d] is zero; every other epoch at position [i] has the
    one-character label [chr(64+i)] (['A'] at position 1, then the
    following code points); and the labels are pairwise distinct. *)
Theorem C9_labels (a : ABF.t V) ch (self : Epochs V) w :
  __init__ a ch = (Ok self, w) →
  ∃ n d, length (label self) = n ∧ (1 ≤ n)%nat ∧
    last (duration self) = Some d ∧
    (n ≠ 1%nat ∨ d ≠ 0 → label self !! 0%nat = Some (str "pre")) ∧
    (n = 1%nat → d = 0 → label self = [str "post"]) ∧
    (d = 0 → last (label self) = Some (str "post")) ∧
    (∀ i, (0 < i < n)%nat → (S i < n)%nat ∨ d ≠ 0 →
          label self !! i = Some [Z.of_nat i + 64]) ∧
    NoDup (label self).
Proof.
  intros Hi. apply init_labels in Hi as (Hne & d & Hd & Hl).
  exists (length (type self)), d. rewrite Hl, length_epochLabels.
  assert (1 ≤ length (type self))%nat as Hn.
  { destruct (type self); simpl; [done|lia]. }
  split_and!; try done.
  - intros Hor. rewrite lookup_epochLabels by lia. f_equal.
    unfold labelAt. rewrite decide_False by lia. by rewrite decide_True.
  - intros Hn1 Hd0. apply list_eq. intros [|i].
    + rewrite lookup_epochLabels by lia. simpl. f_equal.
      unfold labelAt. rewrite decide_True; [done|]. split; [done|lia].
    + simpl. apply lookup_ge_None. rewrite length_epochLabels. lia.
  - intros Hd0. rewrite last_lookup, length_epochLabels.
    rewrite lookup_epochLabels by lia. f_equal.
    unfold labelAt. rewrite decide_True; [done|]. split; [done|lia].
  - intros i Hin Hor. rewrite lookup_epochLabels by lia. f_equal.
    unfold labelAt. rewrite !decide_False by lia. done.
  - apply NoDup_epochLabels.
Qed.

(** ** The synthetic epochs *)

(** C6, as the code has it: every constructed timeline has at least one
    epoch.  A legacy timeline is a single epoch [[0, sweepPointCount)]
    and [_pointOffset] is never set.  On the segmented path the first
    epoch is the synthetic pre-epoch (a step from 0 at the holding command,
    of base duration [_pointOffset], the value of
    [int(sweepPointCount/64)]); with [rows] epochs declared for the channel
    the timeline has [1 + rows] epochs when the sustain flag is true, so no
    post-epoch exists then, and [2 + rows] epochs when it is false, the
    last one being the synthetic post-epoch, which ends at
    [sweepPointCount + _pointOffset]. *)
Theorem C6_pre_post (a : ABF.t V) ch (self : Epochs V) w :
  __init__ a ch = (Ok self, w) →
  ∃ n, epochCount self = Some n ∧ (1 ≤ n)%nat ∧
    (ABF.abfFileFormat a = 1 →
     n = 1%nat ∧ _pointOffset self = None ∧
     pointStart self = [0] ∧ pointEnd self = [ABF.sweepPointCount a] ∧
     duration self = [ABF.sweepPointCount a]) ∧
    (ABF.abfFileFormat a = 2 →
     let rows := channelRows 0 (ABF.nDACNum (ABF._epochPerDacSection a)) ch in
     ∃ off hc flag,
       int_truediv_64 (ABF.sweepPointCount a) = (Ok off, []) ∧
       _pointOffset self = Some off ∧
       getitem (ABF.holdingCommand a) ch = (Ok hc, []) ∧
       getitem (ABF.nInterEpisodeLevel (ABF._dacSection a)) ch
         = (Ok flag, []) ∧
       pointStart self !! 0%nat = Some 0 ∧
       type self !! 0%nat = Some (PInt 1) ∧
       level self !! 0%nat = Some hc ∧
       levelDelta self !! 0%nat = Some (lofZ 0) ∧
       duration self !! 0%nat = Some off ∧
       (flag ≠ 0 → n = (1 + length rows)%nat) ∧
       (flag = 0 →
          n = (2 + length rows)%nat ∧
          last (type self) = Some (PInt 1) ∧
          last (levelDelta self) = Some (lofZ 0) ∧
          last (duration self) = Some 0 ∧
          last (pointEnd self) = Some (ABF.sweepPointCount a + off))).
Proof.
  intros Hi. pose proof Hi as Hwf.
  apply init_well_formed in Hwf as ((n & Hn & _ & Hc & _) & _).
  pose proof Hi as Hl. apply init_labels in Hl as (Hne & _).
  exists n. destruct Hn as (_ & _ & Hty & _).
  split_and!; [done|destruct (type self); simpl in *; [done|lia]| |].
  { intros Hfmt.
    apply legacy_Ok in Hi as (_ & hc & u & _ & _ & ->); [|done].
    simpl in Hc. by injection Hc as <-. }
  intros Hfmt rows.
  destruct (segmented_offset a ch self w Hfmt Hi) as [Hdiv Hpo].
  set (off := preOffset a) in *.
  apply segmented_shape in Hi
    as (_ & hc & s1 & flag & u & Hhc & Hflag & _ & Hfr & Hgr & Hch & Hlen
        & Hdur & Hcase); [|done].
  exists off, hc, flag. split; [done|]. split; [done|].
  split; [done|]. split; [done|]. clear Hpo.
  destruct Hgr as (Hg1 & Hg2 & Hg3). simpl in Hg1, Hg2, Hg3.
  destruct Hch as (_ & _ & Hps0 & _).
  assert (type s1 !! 0%nat = Some (PInt 1)) as Ht0
    by (by apply (prefix_lookup_Some [PInt 1])).
  assert (level s1 !! 0%nat = Some hc) as Hl0
    by (by apply (prefix_lookup_Some [hc])).
  assert (levelDelta s1 !! 0%nat = Some (lofZ 0)) as Hd0
    by (by apply (prefix_lookup_Some [lofZ 0])).
  assert (duration s1 !! 0%nat = Some off) as Hu0 by (by rewrite Hdur).
  destruct Hlen as (_ & _ & Hlty & _).
  destruct Hfr as (Ha & _). simpl in Ha.
  destruct Hcase as [(Hf & d & _ & ->)|(Hf & pe & lv & _ & _ & ->)];
    simpl in *.
  - split_and!; try done. intros _. unfold rows. lia.
  - rewrite !last_snoc, length_app in *. simpl in *.
    split_and!; try by apply lookup_app_l_Some.
    + done.
    + intros _. rewrite Ha. split_and!; try done. unfold rows. lia.
Qed.

(** ** Bounds *)

Lemma sumZ_app l k : sumZ (l ++ k) = sumZ l + sumZ k.
Proof. induction l as [|x l IH]; simpl; lia. Qed.

Lemma sumZ_nonneg l : Forall (λ d, 0 ≤ d) l → 0 ≤ sumZ l.
Proof. induction 1; simpl; lia. Qed.

Lemma chained_sums (s : Epochs V) :
  chained s → ∀ i, (i < length (duration s))%nat →
    pointStart s !! i = Some (sumZ (take i (duration s))) ∧
    pointEnd s !! i = Some (sumZ (take (S i) (duration s))).
Proof.
  intros (Hl1 & Hl2 & H0 & Hend & Hc) i. induction i as [|i IH]; intros Hi.
  - destruct (lookup_lt_is_Some_2 (duration s) 0%nat Hi) as [d Hd].
    split; [done|]. rewrite (Hend _ _ _ H0 Hd).
    rewrite (take_S_r _ _ _ Hd). simpl. f_equal. lia.
  - destruct IH as [_ Hpe]; [lia|].
    destruct (lookup_lt_is_Some_2 (duration s) (S i) Hi) as [d Hd].
    destruct (lookup_lt_is_Some_2 (pointStart s) (S i)) as [x Hx]; [lia|].
    pose proof (Hc _ _ _ Hpe Hx) as <-.
    split; [done|]. rewrite (Hend _ _ _ Hx Hd).
    rewrite (take_S_r _ (S i) _ Hd), sumZ_app. simpl. f_equal. lia.
Qed.

Lemma chained_bounds (s : Epochs V) i x y :
  chained s → Forall (λ d, 0 ≤ d) (duration s) →
  pointStart s !! i = Some x → pointEnd s !! i = Some y → 0 ≤ x ≤ y.
Proof.
  intros Hch Hnn Hx Hy. pose proof Hch as (Hl1 & _).
  apply lookup_lt_Some in Hx as Hi. rewrite Hl1 in Hi.
  destruct (chained_sums s Hch i Hi) as [Hx' Hy'].
  destruct (lookup_lt_is_Some_2 (duration s) i Hi) as [d Hd].
  rewrite (take_S_r _ _ _ Hd), sumZ_app in Hy'. simpl in Hy'.
  assert (0 ≤ d) by (by eapply (Forall_lookup_1 _ _ _ _ Hnn)).
  assert (0 ≤ sumZ (take i (duration s)))
    by (by apply sumZ_nonneg, Forall_take).
  simplify_eq. lia.
Qed.

Lemma sumZ_all_but_last off D :
  0 ≤ off → sumZ (take (length D) (off :: D)) ≤ off + sumZ (removelast D).
Proof.
  intros Hoff. destruct D as [|d D]; [simpl; lia|].
  rewrite removelast_firstn_len. simpl. lia.
Qed.

(** C7, as the code has it: when the sweep length is non-negative, the
    durations declared for the channel are non-negative and they fit in the
    sweep (their sum is at most [sweepPointCount] when the sustain flag is
    false; the sum of all but the last is at most [sweepPointCount - 1]
    when it is true), every epoch has [0 <= pointStart <= pointEnd]. *)
Theorem C7_bounds (a : ABF.t V) ch (self : Epochs V) w :
  __init__ a ch = (Ok self, w) →
  0 ≤ ABF.sweepPointCount a →
  (ABF.abfFileFormat a = 2 →
   Forall (λ d, 0 ≤ d) (channelDurations a ch) ∧
   ∀ flag,
     getitem (ABF.nInterEpisodeLevel (ABF._dacSection a)) ch = (Ok flag, []) →
     (flag ≠ 0 →
      sumZ (removelast (channelDurations a ch)) ≤ ABF.sweepPointCount a - 1) ∧
     (flag = 0 → sumZ (channelDurations a ch) ≤ ABF.sweepPointCount a)) →
  ∀ (i : nat) x y,
    pointStart self !! i = Some x → pointEnd self !! i = Some y → 0 ≤ x ≤ y.
Proof.
  intros Hi HN Hfit.
  destruct (decide (ABF.abfFileFormat a = 1)) as [Hf1|Hf1];
    [|destruct (decide (ABF.abfFileFormat a = 2)) as [Hf2|Hf2]].
  - apply legacy_Ok in Hi as (_ & hc & u & _ & _ & ->); [|done].
    intros [|i] x y; simpl; [|done]. intros [= <-] [= <-]. lia.
  - destruct (Hfit Hf2) as [Hnn Hsum].
    apply segmented_shape in Hi
      as (_ & hc & s1 & flag & u & _ & Hflag & _ & Hfr & _ & Hch & Hlen
          & Hdur & Hcase); [|done].
    destruct Hfr as (Ha & _). simpl in Ha.
    destruct (Hsum flag Hflag) as [Hsus Hrev].
    assert (0 ≤ preOffset a) as Hoff by (by apply preOffset_nonneg).
    assert (Forall (λ d, 0 ≤ d) (duration s1)) as Hnn1
      by (rewrite Hdur; by constructor).
    pose proof Hch as (Hl1 & Hl2 & _).
    assert (length (duration s1) = S (length (channelDurations a ch))) as Hld
      by (by rewrite Hdur).
    destruct Hcase as [(Hf & d & _ & ->)|(Hf & pe & lv & Hpe & _ & ->)];
      intros i x y; simpl; rewrite Ha; clear Ha.
    + intros Hx Hy. apply lookup_lt_Some in Hx as Hlt.
      specialize (Hsus Hf).
      destruct (decide (i = pred (length (pointEnd s1)))) as [->|Hne].
      * rewrite list_lookup_insert_eq in Hy by lia. simplify_eq.
        destruct (chained_sums s1 Hch (pred (length (pointEnd s1))))
          as [Hx' _]; [lia|].
        rewrite Hx' in Hx. simplify_eq.
        split; [by apply sumZ_nonneg, Forall_take|].
        rewrite Hl2, Hld, Hdur. simpl pred.
        pose proof (sumZ_all_but_last _ (channelDurations a ch) Hoff).
        lia.
      * rewrite list_lookup_insert_ne in Hy by done.
        by eapply chained_bounds.
    + intros Hx Hy. specialize (Hrev Hf).
      destruct (decide (i < length (pointStart s1))%nat) as [Hlt|Hge].
      * rewrite lookup_app_l in Hx, Hy by lia. by eapply chained_bounds.
      * apply lookup_lt_Some in Hx as Hlt. rewrite length_app in Hlt.
        simpl in Hlt.
        rewrite lookup_app_r in Hx, Hy by lia.
        replace (i - length (pointStart s1))%nat with 0%nat in Hx by lia.
        replace (i - length (pointEnd s1))%nat with 0%nat in Hy by lia.
        simpl in Hx, Hy. simplify_eq.
        rewrite last_lookup in Hpe.
        destruct (chained_sums s1 Hch (pred (length (pointEnd s1))))
          as [_ Hy']; [lia|].
        rewrite Hy' in Hpe. simplify_eq.
        replace (S (pred (length (pointEnd s1)))) with (length (duration s1))
          by lia.
        rewrite firstn_all.
        split; [by apply sumZ_nonneg|].
        rewrite Hdur. simpl. lia.
  - by apply other_format_raises in Hi.
Qed.

(** ** Waveform synthesis *)

Lemma returns_ret {A} (a : A) : returns (ret a) a.
Proof. by exists []. Qed.

Lemma returns_bind {A B} (m : M A) (k : A → M B) a b :
  returns m a → returns (k a) b → returns (bind m k) b.
Proof.
  intros [w1 ->] [w2 Hk]. exists (w1 ++ w2). unfold bind. by rewrite Hk.
Qed.

Lemma returns_getitem {A} (l : list A) (i : nat) x :
  l !! i = Some x → returns (getitem l (Z.of_nat i)) x.
Proof. intros Hx. rewrite getitem_nat, Hx. apply returns_ret. Qed.

Lemma np_full_returns n (x : V) :
  0 ≤ n → np_full n x = ret (replicate (Z.to_nat n) x).
Proof. intros Hn. unfold np_full. by rewrite decide_False by lia. Qed.

(** Writing a chunk of the right length into an in-range slice. *)
Lemma set_slice_in_range (sweepC : list V) i1 i2 x :
  0 ≤ i1 ≤ i2 → i2 ≤ Z.of_nat (length sweepC) →
  set_slice sweepC i1 i2 (replicate (Z.to_nat (i2 - i1)) x)
  = ret (take (Z.to_nat i1) sweepC ++ replicate (Z.to_nat (i2 - i1)) x
         ++ drop (Z.to_nat i2) sweepC).
Proof.
  intros H1 H2. unfold set_slice, slice_bound.
  destruct (decide (i1 < 0)); [lia|]. destruct (decide (i2 < 0)); [lia|].
  rewrite !Z.min_l by lia.
  rewrite length_replicate, decide_True by done.
  do 4 f_equal. lia.
Qed.

Lemma lookup_painted (sweepC : list V) i1 i2 x (j : nat) :
  0 ≤ i1 ≤ i2 → i2 ≤ Z.of_nat (length sweepC) →
  (take (Z.to_nat i1) sweepC ++ replicate (Z.to_nat (i2 - i1)) x
     ++ drop (Z.to_nat i2) sweepC) !! j
  = if bool_decide (i1 ≤ Z.of_nat j < i2) then Some x else sweepC !! j.
Proof.
  intros H1 H2. case_bool_decide as Hj.
  - rewrite lookup_app_r by (rewrite length_take; lia).
    rewrite length_take, lookup_app_l by (rewrite length_replicate; lia).
    apply lookup_replicate_2. lia.
  - destruct (decide (Z.of_nat j < i1)).
    + rewrite lookup_app_l by (rewrite length_take; lia).
      apply lookup_take_lt. lia.
    + rewrite lookup_app_r by (rewrite length_take; lia).
      rewrite lookup_app_r by (rewrite length_take, length_replicate; lia).
      rewrite lookup_drop, length_take, length_replicate. f_equal. lia.
Qed.

Lemma length_painted (sweepC : list V) i1 i2 x :
  0 ≤ i1 ≤ i2 → i2 ≤ Z.of_nat (length sweepC) →
  length (take (Z.to_nat i1) sweepC ++ replicate (Z.to_nat (i2 - i1)) x
            ++ drop (Z.to_nat i2) sweepC) = length sweepC.
Proof.
  intros H1 H2.
  rewrite !length_app, length_take, length_replicate, length_drop. lia.
Qed.

(** One iteration of the loop of [stimulusWaveform], on an epoch whose
    bounds keep the clamped range inside the sweep. *)
Lemma _stimulusEpoch_step (self : Epochs V) k (sweepC : list V) (e : nat) t lv dl i1 i2 :
  Z.of_nat (length sweepC) = ABF.sweepPointCount (abf self) →
  type self !! e = Some t → level self !! e = Some lv →
  levelDelta self !! e = Some dl →
  pointStart self !! e = Some i1 → pointEnd self !! e = Some i2 →
  (py_eq_int t 0 = false →
   0 ≤ i1 ≤ Z.min i2 (ABF.sweepPointCount (abf self))) →
  ∃ out, returns (_stimulusEpoch self k sweepC e) out ∧
         length out = length sweepC ∧
         ∀ j, out !! j = if covers self e j then levelAt self k e
                         else sweepC !! j.
Proof.
  intros Hlen Ht Hlv Hdl Hi1 Hi2 Hfit. unfold _stimulusEpoch. cbv zeta.
  unfold covers, levelAt. rewrite Ht, Hlv, Hdl, Hi1, Hi2.
  destruct (py_eq_int t 0) eqn:Hoff.
  - exists sweepC. split_and!; [|done|done].
    eapply returns_bind; [by apply returns_getitem|]. cbv beta.
    rewrite Hoff. apply returns_ret.
  - specialize (Hfit eq_refl). cbn [negb andb].
    set (c := Z.min i2 (ABF.sweepPointCount (abf self))) in *.
    set (x := ladd lv (lscale dl k)).
    assert (c ≤ Z.of_nat (length sweepC)) as Hc by (unfold c; lia).
    exists (take (Z.to_nat i1) sweepC ++ replicate (Z.to_nat (c - i1)) x
            ++ drop (Z.to_nat c) sweepC).
    split_and!.
    + eapply returns_bind; [by apply returns_getitem|]. cbv beta.
      rewrite Hoff.
      eapply returns_bind; [by apply returns_getitem|]. cbv beta.
      eapply returns_bind; [by apply returns_getitem|]. cbv beta.
      eapply returns_bind; [by apply returns_getitem|]. cbv beta.
      eapply returns_bind; [by apply returns_getitem|]. cbv beta.
      apply (returns_bind _ _ c).
      { case_decide.
        - exists [str "sweep length is shorter than expected."].
          unfold c. rewrite Z.min_r by lia. by rewrite Hlen.
        - unfold c. rewrite Z.min_l by lia. apply returns_ret. }
      rewrite np_full_returns, bind_ret by lia.
      rewrite set_slice_in_range by lia. apply returns_ret.
    + apply length_painted; lia.
    + intros j. by rewrite lookup_painted by lia.
Qed.

Lemma foldM_waveform (self : Epochs V) k hc n m : ∀ a (sweepC : list V),
  same_len n self → (a + m ≤ n)%nat →
  Z.of_nat (length sweepC) = ABF.sweepPointCount (abf self) →
  (∀ e t i1 i2,
     type self !! e = Some t → py_eq_int t 0 = false →
     pointStart self !! e = Some i1 → pointEnd self !! e = Some i2 →
     0 ≤ i1 ≤ Z.min i2 (ABF.sweepPointCount (abf self))) →
  (∀ j, (j < length sweepC)%nat → sweepC !! j = waveAt self k hc a j) →
  ∃ out, returns (foldM (_stimulusEpoch self k) sweepC (seq a m)) out ∧
         length out = length sweepC ∧
         ∀ j, (j < length sweepC)%nat →
              out !! j = waveAt self k hc (a + m) j.
Proof.
  induction m as [|m IH]; intros a sweepC Hn Ham Hlen Hfit Hinv; simpl.
  - exists sweepC. rewrite Nat.add_0_r. split_and!; [apply returns_ret|done..].
  - pose proof Hn as (Hl1 & Hl2 & Hl3 & Hl4 & Hl5 & _).
    destruct (lookup_lt_is_Some_2 (type self) a) as [t Ht]; [lia|].
    destruct (lookup_lt_is_Some_2 (level self) a) as [lv Hlv]; [lia|].
    destruct (lookup_lt_is_Some_2 (levelDelta self) a) as [dl Hdl]; [lia|].
    destruct (lookup_lt_is_Some_2 (pointStart self) a) as [i1 Hi1]; [lia|].
    destruct (lookup_lt_is_Some_2 (pointEnd self) a) as [i2 Hi2]; [lia|].
    destruct (_stimulusEpoch_step self k sweepC a t lv dl i1 i2)
      as (mid & Hret & Hlmid & Hmid); try done.
    { intros Hoff. by eapply Hfit. }
    destruct (IH (S a) mid) as (out & Hout & Hlout & Hfin); try done.
    + lia.
    + by rewrite Hlmid.
    + intros j Hj. rewrite Hmid. simpl. rewrite Hinv by lia. done.
    + exists out. split_and!.
      * by eapply returns_bind.
      * congruence.
      * intros j Hj. rewrite Hfin by lia. f_equal. lia.
Qed.

Lemma waveAt_uncovered (self : Epochs V) k hc n j :
  (∀ e, (e < n)%nat → covers self e j = false) →
  waveAt self k hc n j = Some hc.
Proof.
  induction n as [|n IH]; intros Hno; simpl; [done|].
  rewrite Hno by lia. apply IH. intros e He. apply Hno. lia.
Qed.

Lemma waveAt_covered (self : Epochs V) k hc n j e :
  (e < n)%nat → covers self e j = true →
  (∀ e', (e < e' < n)%nat → covers self e' j = false) →
  waveAt self k hc n j = levelAt self k e.
Proof.
  induction n as [|n IH]; intros He Hc Hlater; simpl; [lia|].
  destruct (decide (e = n)) as [->|Hne].
  - by rewrite Hc.
  - rewrite Hlater by lia. apply IH; [lia|done|].
    intros e' He'. apply Hlater. lia.
Qed.

Lemma covers_lt (self : Epochs V) n e j :
  same_len n self → covers self e j = true → (e < n)%nat.
Proof.
  intros (_ & _ & Hty & _) Hc. unfold covers in Hc.
  destruct (type self !! e) eqn:Ht; [|done].
  apply lookup_lt_Some in Ht. lia.
Qed.

(** Synthesis on a well-formed object whose enabled epochs keep their
    clamped range inside the sweep. *)
Lemma stimulusWaveform_spec (self : Epochs V) k hc :
  well_formed self →
  getitem (ABF.holdingCommand (abf self)) (channel self) = (Ok hc, []) →
  0 ≤ ABF.sweepPointCount (abf self) →
  (∀ e t i1 i2,
     type self !! e = Some t → py_eq_int t 0 = false →
     pointStart self !! e = Some i1 → pointEnd self !! e = Some i2 →
     0 ≤ i1 ≤ Z.min i2 (ABF.sweepPointCount (abf self))) →
  ∃ out, returns (stimulusWaveform self k) out ∧
    length out = Z.to_nat (ABF.sweepPointCount (abf self)) ∧
    ∀ j, (j < Z.to_nat (ABF.sweepPointCount (abf self)))%nat →
      (∀ e lv dl,
         covers self e j = true →
         (∀ e', (e < e')%nat → covers self e' j = false) →
         level self !! e = Some lv → levelDelta self !! e = Some dl →
         out !! j = Some (ladd lv (lscale dl k))) ∧
      ((∀ e, covers self e j = false) → out !! j = Some hc).
Proof.
  intros (n & Hn & _ & _ & Hel) Hhc HN Hfit.
  set (N := ABF.sweepPointCount (abf self)) in *.
  destruct (foldM_waveform self k hc n n 0%nat (replicate (Z.to_nat N) hc))
    as (out & Hout & Hlen & Hfin); try done.
  - rewrite length_replicate. lia.
  - intros j Hj. rewrite length_replicate in Hj. simpl.
    by apply lookup_replicate_2.
  - rewrite length_replicate in Hlen, Hfin. simpl in Hfin.
    exists out. split_and!; [|done|].
    + unfold stimulusWaveform. rewrite Hhc, bind_ok.
      fold N. rewrite np_full_returns, bind_ret by done.
      rewrite Hel. simpl attr. by rewrite bind_ret.
    + intros j Hj. rewrite Hfin by done. split.
      * intros e lv dl Hc Hlater Hlv Hdl.
        rewrite (waveAt_covered _ _ _ _ _ e); eauto using covers_lt.
        -- unfold levelAt. by rewrite Hlv, Hdl.
        -- intros e' He'. apply Hlater. lia.
      * intros Hno. apply waveAt_uncovered. eauto.
Qed.

End Properties.

(** * The properties on the concrete headers *)

Local Ltac compute_eq := vm_compute; reflexivity.

Lemma C3_contiguous_witness :
  ABF.abfFileFormat header_fit = 2 ∧
  __init__ header_fit 0 = (Ok timeline_fit, []) ∧
  ∀ (i : nat) y x,
    pointEnd timeline_fit !! i = Some y →
    pointStart timeline_fit !! S i = Some x → y = x.
Proof.
  split; [reflexivity|]. split; [compute_eq|].
  apply (C3_contiguous header_fit 0 timeline_fit []);
    [reflexivity|compute_eq].
Defined.

Lemma C10_parallel_lists_witness :
  __init__ header_sustain 0 = (Ok timeline_sustain, []) ∧
  ∃ n, epochCount timeline_sustain = Some n ∧
    length (pointStart timeline_sustain) = n ∧
    length (pointEnd timeline_sustain) = n ∧
    length (type timeline_sustain) = n ∧
    length (level timeline_sustain) = n ∧
    length (levelDelta timeline_sustain) = n ∧
    length (duration timeline_sustain) = n ∧
    length (durationDelta timeline_sustain) = n ∧
    length (pulsePeriod timeline_sustain) = n ∧
    length (pulseWidth timeline_sustain) = n ∧
    length (label timeline_sustain) = n ∧
    length (digitalOutputs timeline_sustain) = 1%nat.
Proof.
  split; [compute_eq|].
  apply (C10_parallel_lists header_sustain 0 timeline_sustain []).
  compute_eq.
Defined.

Lemma C5_post_epoch_witness :
  (do s <- _addPreEpoch (_initEpochVars header_fit 0); _fillEpochsFromABF s)
    = (Ok ingested_fit, []) ∧
  getitem (ABF.nInterEpisodeLevel (ABF._dacSection header_fit)) 0
    = (Ok 0, []) ∧
  ∃ s2, _addPostEpoch ingested_fit = (Ok s2, []) ∧
        pointStart s2 = [0; 15; 115; 315] ∧
        pointEnd s2 = [15; 115; 315; 1015] ∧
        type s2 = [PInt 1; PInt 1; PInt 0; PInt 1] ∧
        level s2 = [-70; 10; 20; 20] ∧
        duration s2 = [15; 100; 200; 0].
Proof.
  split; [compute_eq|]. split; [compute_eq|].
  destruct (C5_post_epoch header_fit 0 ingested_fit [] 0)
    as (off & s2 & Hdiv & _ & Hs2 & _ & Hrest); [compute_eq|compute_eq|].
  vm_compute in Hdiv. injection Hdiv as <-.
  case_decide; [done|].
  destruct Hrest as (lastEnd & lastLevel & Hle & Hll & Hps & Hpe & Hty & Hlv
                     & _ & Hdu & _).
  vm_compute in Hle, Hll. injection Hle as <-. injection Hll as <-.
  exists s2. by split_and!.
Defined.

Lemma C8_legacy_witness :
  ABF.abfFileFormat header_legacy = 1 ∧
  getitem (ABF.holdingCommand header_legacy) 0 = (Ok (-70), []) ∧
  getitem (ABF.dacUnits header_legacy) 0 = (Ok (str "pA"), []) ∧
  ∃ self,
    __init__ header_legacy 0
    = (Ok self, [str "ABFv1 epoch synthesis not fully supported"]) ∧
    epochCount self = Some 1%nat ∧
    pointStart self = [0] ∧ pointEnd self = [1000] ∧
    type self = [PInt 1] ∧ level self = [-70] ∧
    levelDelta self = [0] ∧ duration self = [1000] ∧
    durationDelta self = [0] ∧ pulsePeriod self = [0] ∧
    pulseWidth self = [0] ∧ _pointOffset self = None.
Proof.
  split; [reflexivity|]. split; [compute_eq|]. split; [compute_eq|].
  exact (C8_legacy header_legacy 0 (-70) (str "pA") eq_refl
           ltac:(compute_eq) ltac:(compute_eq)).
Defined.

Lemma C9_labels_witness :
  __init__ header_fit 0 = (Ok timeline_fit, []) ∧
  ∃ n d, length (label timeline_fit) = n ∧ (1 ≤ n)%nat ∧
    last (duration timeline_fit) = Some d ∧
    (n ≠ 1%nat ∨ d ≠ 0 → label timeline_fit !! 0%nat = Some (str "pre")) ∧
    (n = 1%nat → d = 0 → label timeline_fit = [str "post"]) ∧
    (d = 0 → last (label timeline_fit) = Some (str "post")) ∧
    (∀ i, (0 < i < n)%nat → (S i < n)%nat ∨ d ≠ 0 →
          label timeline_fit !! i = Some [Z.of_nat i + 64]) ∧
    NoDup (label timeline_fit).
Proof.
  split; [compute_eq|].
  apply (C9_labels header_fit 0 timeline_fit []). compute_eq.
Defined.

(** With a sweep shorter than 64 samples, no epoch declared for the channel
    and the sustain flag set, the only epoch has base duration 0 and its
    label is ["post"]: the first label is not ["pre"]. *)
Lemma C9_counterexample :
  __init__ header_short_sustain 0 = (Ok timeline_short_sustain, []) ∧
  label timeline_short_sustain = [str "post"] ∧
  label timeline_short_sustain !! 0%nat ≠ Some (str "pre").
Proof. split; [compute_eq|]. split; [compute_eq|]. by vm_compute. Qed.

Lemma C6_pre_post_witness :
  __init__ header_fit 0 = (Ok timeline_fit, []) ∧
  ∃ n, epochCount timeline_fit = Some n ∧ (1 ≤ n)%nat ∧
    (ABF.abfFileFormat header_fit = 1 →
     n = 1%nat ∧ _pointOffset timeline_fit = None ∧
     pointStart timeline_fit = [0] ∧ pointEnd timeline_fit = [1000] ∧
     duration timeline_fit = [1000]) ∧
    (ABF.abfFileFormat header_fit = 2 →
     ∃ off hc flag,
       int_truediv_64 1000 = (Ok off, []) ∧
       _pointOffset timeline_fit = Some off ∧
       getitem (ABF.holdingCommand header_fit) 0 = (Ok hc, []) ∧
       getitem (ABF.nInterEpisodeLevel (ABF._dacSection header_fit)) 0
         = (Ok flag, []) ∧
       pointStart timeline_fit !! 0%nat = Some 0 ∧
       type timeline_fit !! 0%nat = Some (PInt 1) ∧
       level timeline_fit !! 0%nat = Some hc ∧
       levelDelta timeline_fit !! 0%nat = Some 0 ∧
       duration timeline_fit !! 0%nat = Some off ∧
       (flag ≠ 0 → n = 3%nat) ∧
       (flag = 0 →
          n = 4%nat ∧
          last (type timeline_fit) = Some (PInt 1) ∧
          last (levelDelta timeline_fit) = Some 0 ∧
          last (duration timeline_fit) = Some 0 ∧
          last (pointEnd timeline_fit) = Some (1000 + off))).
Proof.
  assert (__init__ header_fit 0 = (Ok timeline_fit, [])) as Hi
    by compute_eq.
  split; [exact Hi|].
  exact (C6_pre_post header_fit 0 timeline_fit [] Hi).
Defined.

(** With no epoch declared for the channel and the sustain flag set, the
    timeline is the pre-epoch alone: there are no two epochs, and no epoch
    is labelled ["post"]. *)
Lemma C6_counterexample :
  ABF.abfFileFormat header_empty_sustain = 2 ∧
  __init__ header_empty_sustain 0 = (Ok timeline_empty_sustain, []) ∧
  epochCount timeline_empty_sustain = Some 1%nat ∧
  label timeline_empty_sustain = [str "pre"] ∧
  ¬ (∃ i j : nat, i ≠ j ∧ is_Some (label timeline_empty_sustain !! i)
                  ∧ is_Some (label timeline_empty_sustain !! j)).
Proof.
  split; [reflexivity|]. split; [compute_eq|]. split; [compute_eq|].
  split; [compute_eq|].
  intros (i & j & Hij & [x Hi] & [y Hj]).
  apply lookup_lt_Some in Hi, Hj. simpl in Hi, Hj. lia.
Qed.

Lemma C7_bounds_witness :
  __init__ header_fit 0 = (Ok timeline_fit, []) ∧
  0 ≤ ABF.sweepPointCount header_fit ∧
  (ABF.abfFileFormat header_fit = 2 →
   Forall (λ d, 0 ≤ d) (channelDurations header_fit 0) ∧
   ∀ flag,
     getitem (ABF.nInterEpisodeLevel (ABF._dacSection header_fit)) 0
       = (Ok flag, []) →
     (flag ≠ 0 →
      sumZ (removelast (channelDurations header_fit 0))
      ≤ ABF.sweepPointCount header_fit - 1) ∧
     (flag = 0 →
      sumZ (channelDurations header_fit 0) ≤ ABF.sweepPointCount header_fit)) ∧
  ∀ (i : nat) x y,
    pointStart timeline_fit !! i = Some x →
    pointEnd timeline_fit !! i = Some y → 0 ≤ x ≤ y.
Proof.
  assert (ABF.abfFileFormat header_fit = 2 →
    Forall (λ d, 0 ≤ d) (channelDurations header_fit 0) ∧
    ∀ flag,
      getitem (ABF.nInterEpisodeLevel (ABF._dacSection header_fit)) 0
        = (Ok flag, []) →
      (flag ≠ 0 →
       sumZ (removelast (channelDurations header_fit 0))
       ≤ ABF.sweepPointCount header_fit - 1) ∧
      (flag = 0 →
       sumZ (channelDurations header_fit 0) ≤ ABF.sweepPointCount header_fit))
    as Hfit.
  { intros _. split.
    - change (channelDurations header_fit 0) with [100; 200].
      repeat constructor; lia.
    - intros flag Hflag. vm_compute in Hflag. injection Hflag as <-.
      split; [done|]. intros _.
      change (channelDurations header_fit 0) with [100; 200]. simpl. lia. }
  split; [compute_eq|]. split; [simpl; lia|]. split; [exact Hfit|].
  apply (C7_bounds header_fit 0 timeline_fit []);
    [compute_eq|simpl; lia|exact Hfit].
Defined.

(** The durations declared for the channel are non-negative but run past
    the sweep: the post-epoch starts at 1515 and ends at 1015. *)
Lemma C7_counterexample :
  __init__ header_long 0 = (Ok timeline_long, []) ∧
  0 ≤ ABF.sweepPointCount header_long ∧
  Forall (λ d, 0 ≤ d) (channelDurations header_long 0) ∧
  pointStart timeline_long !! 3%nat = Some 1515 ∧
  pointEnd timeline_long !! 3%nat = Some 1015 ∧
  ¬ (∀ (i : nat) x y,
       pointStart timeline_long !! i = Some x →
       pointEnd timeline_long !! i = Some y → 0 ≤ x ≤ y).
Proof.
  split; [compute_eq|]. split; [simpl; lia|]. split.
  { change (channelDurations header_long 0) with [1200; 300].
    repeat constructor; lia. }
  split; [reflexivity|]. split; [reflexivity|].
  intros Hall. specialize (Hall 3%nat 1515 1015 eq_refl eq_refl). lia.
Qed.

(** C1 (the code against the claim): the timeline built from [header_long]
    holds the enabled epoch [[1215, 1515)], which lies past the end of the
    sweep of 1000 samples.  Its end is clamped to 1000, with the
    diagnostic, but the epoch is not skipped: the chunk length
    [1000 - 1215] is negative and synthesis raises [ValueError]. *)
Theorem C1_raises_past_sweep_end :
  __init__ header_long 0 = (Ok timeline_long, []) ∧
  type timeline_long !! 2%nat = Some (PInt 1) ∧
  pointStart timeline_long !! 2%nat = Some 1215 ∧
  pointEnd timeline_long !! 2%nat = Some 1515 ∧
  stimulusWaveform timeline_long 0
  = (Raise ValueError,
     [str "sweep length is shorter than expected.";
      str "sweep length is shorter than expected."]).
Proof. split_and!; compute_eq. Qed.

(** C2 (the code against the claim): on the timeline built from
    [header_long], sample 20 lies in the range [[15, 1000)] of the first
    declared epoch, clamped to the sweep, whose level is 10; the claim has
    it hold that level in an array of 1000 samples.  Synthesis raises
    [ValueError] at the next epoch instead, for sweep 0 and for sweep 3,
    and returns no array: the clamp of [i2] is not followed by a test of
    [i1] against it. *)
Theorem C2_no_waveform_past_sweep_end :
  __init__ header_long 0 = (Ok timeline_long, []) ∧
  covers timeline_long 1 20 = true ∧
  level timeline_long !! 1%nat = Some 10 ∧
  levelDelta timeline_long !! 1%nat = Some 0 ∧
  fst (stimulusWaveform timeline_long 0) = Raise ValueError ∧
  fst (stimulusWaveform timeline_long 3) = Raise ValueError ∧
  sampleOf (stimulusWaveform timeline_long 0) 20 = None ∧
  ¬ (∃ out ws, stimulusWaveform timeline_long 0 = (Ok out, ws)).
Proof.
  split; [compute_eq|]. split; [compute_eq|]. split; [compute_eq|].
  split; [compute_eq|]. split; [compute_eq|]. split; [compute_eq|].
  split; [compute_eq|].
  intros (out & ws & Hs). vm_compute in Hs. done.
Qed.

(** C4 (the code against the claim): reading [text] once rewrites
    [self.type] in place, from the type codes to their display names.
    After that no element of [type] equals 0, so the disabled epoch
    [[2, 52)] of [header_off] is no longer skipped: sample 2 of the
    waveform holds the holding command before the read and the epoch's
    level after it.  A second read of [text] raises [TypeError]. *)
Theorem C4_text_rewrites_type :
  __init__ header_off 0 = (Ok timeline_off, []) ∧
  match text timeline_off with
  | (Ok (_, self), w) => self = timeline_off_shown ∧ w = []
  | _ => False
  end ∧
  type timeline_off = [PInt 1; PInt 0; PInt 1] ∧
  type timeline_off_shown
  = [PStr (str "Step"); PStr (str "Off"); PStr (str "Step")] ∧
  sampleOf (stimulusWaveform timeline_off 0) 2 = Some (-70) ∧
  sampleOf (stimulusWaveform timeline_off_shown 0) 2 = Some 10 ∧
  fst (text timeline_off_shown) = Raise TypeError.
Proof.
  split; [compute_eq|]. split; [vm_compute; split; reflexivity|].
  split_and!; compute_eq.
Qed.

(** [int(n/64)] on small, large and huge sweep lengths: the truncated
    quotient below [2^53]; at [2^59 + 64] the quotient [2^53 + 1] is not a
    float and the tie goes to the even significand, [2^53]; [10^400] is
    outside the range of a float. *)
Lemma int_truediv_64_values :
  int_truediv_64 1000 = (Ok 15, []) ∧
  int_truediv_64 (-1000) = (Ok (-15), []) ∧
  (2 ^ 59 + 64) ÷ 64 = 2 ^ 53 + 1 ∧
  int_truediv_64 (2 ^ 59 + 64) = (Ok (2 ^ 53), []) ∧
  int_truediv_64 (10 ^ 400) = (Raise OverflowError, []).
Proof. split_and!; compute_eq. Qed.

(** * Further properties of the constructor *)

Section Construction.
Context {V : Type} `{Level V}.

Lemma getitem_out_of_range {A} (l : list A) i :
  i < - Z.of_nat (length l) ∨ Z.of_nat (length l) ≤ i →
  getitem l i = raise IndexError.
Proof.
  intros Hi. unfold getitem, py_index.
  destruct (Z.ltb_spec i 0).
  - destruct (Z.ltb_spec (i + Z.of_nat (length l)) 0); [done|lia].
  - destruct (Z.ltb_spec i 0); [lia|].
    destruct (Z.leb_spec (Z.of_nat (length l)) i); [done|lia].
Qed.

Lemma getitem_in_range {A} (l : list A) i :
  - Z.of_nat (length l) ≤ i < Z.of_nat (length l) →
  ∃ x, getitem l i = (Ok x, []).
Proof.
  intros Hi. unfold getitem.
  destruct (py_index (Z.of_nat (length l)) i) as [j|] eqn:E.
  - apply py_index_lt in E.
    destruct (lookup_lt_is_Some_2 l j E) as [x ->]. by exists x.
  - exfalso. unfold py_index in E.
    repeat match type of E with
    | context [(?a <? ?b)] => destruct (Z.ltb_spec a b)
    | context [(?a <=? ?b)] => destruct (Z.leb_spec a b)
    end; simpl in E; try done; lia.
Qed.

(** X1: a format code other than 1 and 2 leaves the lists empty, and the
    assignment [self.label[0] = "pre"] raises. *)
Theorem unknown_format_raises (a : ABF.t V) ch :
  ABF.abfFileFormat a ≠ 1 → ABF.abfFileFormat a ≠ 2 →
  __init__ a ch = (Raise IndexError, []).
Proof.
  intros H1 H2. unfold __init__. cbv zeta.
  rewrite !decide_False by done. by rewrite bind_ret.
Qed.

(** X2: a channel that does not index [holdingCommand] makes the constructor
    raise [IndexError], after the compatibility warning on the legacy
    path.  On the segmented path [int(sweepPointCount/64)] is evaluated
    before the channel is looked up: the [IndexError] needs a count that
    the division accepts, and a count from [2^1030] on raises
    [OverflowError] instead. *)
Theorem invalid_channel_raises (a : ABF.t V) ch :
  ch < - Z.of_nat (length (ABF.holdingCommand a))
  ∨ Z.of_nat (length (ABF.holdingCommand a)) ≤ ch →
  (ABF.abfFileFormat a = 1 →
   __init__ a ch
   = (Raise IndexError, [str "ABFv1 epoch synthesis not fully supported"])) ∧
  (ABF.abfFileFormat a = 2 →
   (Z.abs (ABF.sweepPointCount a) < 2 ^ 1024 →
    __init__ a ch = (Raise IndexError, [])) ∧
   (2 ^ 1030 ≤ Z.abs (ABF.sweepPointCount a) →
    __init__ a ch = (Raise OverflowError, []))).
Proof.
  intros Hch. apply getitem_out_of_range in Hch.
  split; intros Hfmt; unfold __init__; cbv zeta.
  - rewrite decide_True by done.
    unfold _updateForABFv1. cbv zeta. simpl abf. simpl channel.
    rewrite Hch. reflexivity.
  - rewrite decide_False, decide_True by (done || lia).
    unfold _addPreEpoch. simpl abf. split.
    + intros [off Hoff]%int_truediv_64_returns.
      rewrite Hoff, bind_ok. cbv zeta. simpl abf. simpl channel.
      rewrite Hch. reflexivity.
    + intros Hbig%int_truediv_64_overflows. rewrite Hbig. reflexivity.
Qed.

(** ** The rows that the ingestion loop selects *)

Lemma elem_of_channelRows dacNums ch : ∀ i j,
  j ∈ channelRows i dacNums ch
  ↔ (i ≤ j)%nat ∧ dacNums !! (j - i)%nat = Some ch.
Proof.
  induction dacNums as [|d rest IH]; intros i j; simpl.
  - rewrite elem_of_nil, lookup_nil. split; [done|by intros [_ ?]].
  - case_decide as Hd.
    + rewrite IH. split.
      * intros [Hij Hl]. split; [lia|].
        replace (j - i)%nat with (S (j - S i)) by lia. done.
      * intros [Hij Hl]. destruct (j - i)%nat as [|k] eqn:Hk; simpl in Hl.
        { congruence. }
        split; [lia|]. by replace (j - S i)%nat with k by lia.
    + assert (d = ch) as -> by (by destruct (decide (d = ch))).
      rewrite elem_of_cons, IH. split.
      * intros [->|[Hij Hl]].
        { split; [lia|]. by rewrite Nat.sub_diag. }
        split; [lia|]. by replace (j - i)%nat with (S (j - S i)) by lia.
      * intros [Hij Hl]. destruct (j - i)%nat as [|k] eqn:Hk; simpl in Hl.
        { left. lia. }
        right. split; [lia|]. by replace (j - S i)%nat with k by lia.
Qed.

Lemma channelRows_sorted dacNums ch : ∀ i,
  StronglySorted lt (channelRows i dacNums ch).
Proof.
  induction dacNums as [|d rest IH]; intros i; simpl; [constructor|].
  case_decide; [apply IH|]. constructor; [apply IH|].
  apply Forall_forall. intros j Hj. apply elem_of_channelRows in Hj. lia.
Qed.

Lemma length_channelRows dacNums ch : ∀ i,
  (length (channelRows i dacNums ch) ≤ length dacNums)%nat.
Proof.
  induction dacNums as [|d rest IH]; intros i; simpl; [done|].
  case_decide; simpl; specialize (IH (S i)); lia.
Qed.

(** ** What the ingestion loop appends *)

Lemma _fillEpochsFrom_columns dacNums : ∀ i (s s' : Epochs V) w,
  _fillEpochsFrom i dacNums s = (Ok s', w) →
  let ep := ABF._epochPerDacSection (abf s) in
  let rows := channelRows i dacNums (channel s) in
  type s' = type s ++ (PInt <$> column (ABF.nEpochType ep) rows) ∧
  level s' = level s ++ column (ABF.fEpochInitLevel ep) rows ∧
  levelDelta s' = levelDelta s ++ column (ABF.fEpochLevelInc ep) rows ∧
  duration s' = duration s ++ column (ABF.lEpochInitDuration ep) rows ∧
  durationDelta s'
  = durationDelta s ++ column (ABF.lEpochDurationInc ep) rows ∧
  pulsePeriod s' = pulsePeriod s ++ column (ABF.lEpochPulsePeriod ep) rows ∧
  pulseWidth s' = pulseWidth s ++ column (ABF.lEpochPulseWidth ep) rows.
Proof.
  induction dacNums as [|dacNum rest IH]; intros i s s' w; simpl.
  - intros [= <- <-]. unfold column. simpl. by rewrite !app_nil_r.
  - case_decide as Hd.
    + intros Hf. by apply IH in Hf.
    + intros Hf. apply bind_Ok_inv in Hf as (s1 & w1 & w2 & Hs1 & Hf & ->).
      apply _fillEpoch_Ok in Hs1
        as (-> & ps & d & t & lv & dl & du & dd & pp & pw & Hs1).
      cbv zeta in Hs1.
      destruct Hs1 as (Hps & Hld & Ht & Hlv & Hdl & Hdu & Hdd & Hpp & Hpw & ->).
      apply IH in Hf as (E1 & E2 & E3 & E4 & E5 & E6 & E7). simpl in *.
      unfold column in *. simpl.
      rewrite Ht, Hlv, Hdl, Hdu, Hdd, Hpp, Hpw. simpl.
      rewrite E1, E2, E3, E4, E5, E6, E7, <- !app_assoc. done.
Qed.

Lemma segmented_columns (a : ABF.t V) ch (self : Epochs V) w :
  ABF.abfFileFormat a = 2 →
  __init__ a ch = (Ok self, w) →
  let ep := ABF._epochPerDacSection a in
  let rows := channelRows 0 (ABF.nDACNum ep) ch in
  let off := preOffset a in
  ∃ hc flag,
    getitem (ABF.holdingCommand a) ch = (Ok hc, []) ∧
    getitem (ABF.nInterEpisodeLevel (ABF._dacSection a)) ch = (Ok flag, []) ∧
    let post {A} (x : A) : list A := if decide (flag ≠ 0) then [] else [x] in
    type self
    = PInt 1 :: (PInt <$> column (ABF.nEpochType ep) rows) ++ post (PInt 1) ∧
    (∃ lastLevel,
       last (hc :: column (ABF.fEpochInitLevel ep) rows) = Some lastLevel ∧
       level self
       = hc :: column (ABF.fEpochInitLevel ep) rows ++ post lastLevel) ∧
    levelDelta self
    = lofZ 0 :: column (ABF.fEpochLevelInc ep) rows ++ post (lofZ 0) ∧
    duration self
    = off :: column (ABF.lEpochInitDuration ep) rows ++ post 0 ∧
    durationDelta self
    = 0 :: column (ABF.lEpochDurationInc ep) rows ++ post 0 ∧
    pulsePeriod self
    = 0 :: column (ABF.lEpochPulsePeriod ep) rows ++ post 0 ∧
    pulseWidth self
    = 0 :: column (ABF.lEpochPulseWidth ep) rows ++ post 0 ∧
    length (type self) = (1 + length rows + length (post 0))%nat.
Proof.
  intros Hfmt Hi ep rows off.
  pose proof Hi as Hsh.
  apply segmented_shape in Hsh
    as (_ & hc' & s1' & flag & u' & _ & Hflag & _ & _ & _ & _ & Hlen & _
        & Hcase'); [|done].
  apply segmented_Ok in Hi
    as (_ & hc & s1 & s2 & d & u & Hhc & Hs1 & Hs2 & Ha1 & Hc1 & _ & _ & _
        & _ & ->); [|done].
  exists hc, flag. split; [done|]. split; [done|].
  pose proof Hs1 as Hcols.
  apply _fillEpochsFrom_columns in Hcols as (E1 & E2 & E3 & E4 & E5 & E6 & E7).
  simpl in E1, E2, E3, E4, E5, E6, E7.
  fold ep rows in E1, E2, E3, E4, E5, E6, E7.
  apply _fillEpochsFrom_Ok in Hs1 as (_ & _ & _ & _ & Hlen1 & _).
  specialize (Hlen1 1%nat). simpl in Hlen1. fold ep rows in Hlen1.
  destruct Hlen1 as (_ & _ & Hlty & _); [by unfold same_len|].
  apply _addPostEpoch_Ok in Hs2 as (_ & flag' & off' & Hflag' & _ & Hcase).
  rewrite Ha1, Hc1, Hflag in Hflag'. injection Hflag' as <-.
  destruct Hcase as [(Hf & _ & ->)|(Hf & pe & lv & _ & Hlv & ->)]; simpl.
  - destruct (decide (flag ≠ 0)); [|done]. rewrite !app_nil_r.
    split_and!; try done.
    + destruct (last_is_Some (hc :: column (ABF.fEpochInitLevel ep) rows))
        as [_ [lv Hlv]]; [done|]. by exists lv.
    + simpl. lia.
  - destruct (decide (flag ≠ 0)); [done|].
    rewrite E1, E2, E3, E4, E5, E6, E7. simpl. split_and!; try done.
    + exists lv. rewrite E2 in Hlv. done.
    + rewrite E1 in Hlty. simpl in Hlty.
      rewrite length_app. simpl. lia.
Qed.

(** X3: the per-epoch lists of a timeline built from a segmented-format header:
    the synthetic pre-epoch, then the rows of the channel copied from the
    seven columns of the table in table order, then the post-epoch when the
    channel does not sustain.  The base duration of the pre-epoch is
    [_pointOffset], the value of [int(sweepPointCount/64)]; it is the
    truncated quotient for every sweep length below [2^53]. *)
Theorem segmented_copies_rows (a : ABF.t V) ch (self : Epochs V) w :
  ABF.abfFileFormat a = 2 →
  __init__ a ch = (Ok self, w) →
  let ep := ABF._epochPerDacSection a in
  let rows := channelRows 0 (ABF.nDACNum ep) ch in
  ∃ off hc flag,
    int_truediv_64 (ABF.sweepPointCount a) = (Ok off, []) ∧
    _pointOffset self = Some off ∧
    (Z.abs (ABF.sweepPointCount a) < 2 ^ 53 →
     off = ABF.sweepPointCount a ÷ 64) ∧
    getitem (ABF.holdingCommand a) ch = (Ok hc, []) ∧
    getitem (ABF.nInterEpisodeLevel (ABF._dacSection a)) ch = (Ok flag, []) ∧
    let post {A} (x : A) : list A := if decide (flag ≠ 0) then [] else [x] in
    type self
    = PInt 1 :: (PInt <$> column (ABF.nEpochType ep) rows) ++ post (PInt 1) ∧
    (∃ lastLevel,
       last (hc :: column (ABF.fEpochInitLevel ep) rows) = Some lastLevel ∧
       level self
       = hc :: column (ABF.fEpochInitLevel ep) rows ++ post lastLevel) ∧
    levelDelta self
    = lofZ 0 :: column (ABF.fEpochLevelInc ep) rows ++ post (lofZ 0) ∧
    duration self
    = off :: column (ABF.lEpochInitDuration ep) rows ++ post 0 ∧
    durationDelta self
    = 0 :: column (ABF.lEpochDurationInc ep) rows ++ post 0 ∧
    pulsePeriod self
    = 0 :: column (ABF.lEpochPulsePeriod ep) rows ++ post 0 ∧
    pulseWidth self
    = 0 :: column (ABF.lEpochPulseWidth ep) rows ++ post 0 ∧
    length (type self) = (1 + length rows + length (post 0))%nat.
Proof.
  intros Hfmt Hi ep rows.
  destruct (segmented_offset a ch self w Hfmt Hi) as [Hdiv Hpo].
  destruct (segmented_columns a ch self w Hfmt Hi) as (hc & flag & Hcols).
  exists (preOffset a), hc, flag. split; [done|]. split; [done|].
  split; [|exact Hcols].
  intros Hsmall%int_truediv_64_small. rewrite Hsmall in Hdiv.
  by injection Hdiv.
Qed.

(** ** The rows behind the declared epochs *)

Lemma column_lookup {A} (col : list A) (rows : list nat) : ∀ (k j : nat),
  (∀ j, j ∈ rows → is_Some (col !! j)) →
  rows !! k = Some j → column col rows !! k = col !! j.
Proof.
  unfold column. induction rows as [|r rows IH]; intros k j Hall Hk; [done|].
  destruct (Hall r) as [x Hx]; [left|]. simpl. rewrite Hx.
  destruct k as [|k]; simpl in *.
  - by injection Hk as <-.
  - apply IH; [|done]. intros j' Hj'. apply Hall. by right.
Qed.

Lemma length_column {A} (col : list A) (rows : list nat) :
  (∀ j, j ∈ rows → is_Some (col !! j)) →
  length (column col rows) = length rows.
Proof.
  unfold column. induction rows as [|r rows IH]; intros Hall; [done|].
  destruct (Hall r) as [x Hx]; [left|]. simpl. rewrite Hx. simpl.
  f_equal. apply IH. intros j' Hj'. apply Hall. by right.
Qed.

Lemma _fillEpochsFrom_reach dacNums : ∀ i (s s' : Epochs V) w,
  _fillEpochsFrom i dacNums s = (Ok s', w) →
  let ep := ABF._epochPerDacSection (abf s) in
  ∀ j, j ∈ channelRows i dacNums (channel s) →
    is_Some (ABF.nEpochType ep !! j) ∧
    is_Some (ABF.fEpochInitLevel ep !! j) ∧
    is_Some (ABF.fEpochLevelInc ep !! j) ∧
    is_Some (ABF.lEpochInitDuration ep !! j) ∧
    is_Some (ABF.lEpochDurationInc ep !! j) ∧
    is_Some (ABF.lEpochPulsePeriod ep !! j) ∧
    is_Some (ABF.lEpochPulseWidth ep !! j).
Proof.
  induction dacNums as [|dacNum rest IH]; intros i s s' w; simpl.
  - intros _ j Hj. by apply elem_of_nil in Hj.
  - case_decide as Hd.
    + intros Hf. by apply (IH _ _ _ _ Hf).
    + intros Hf. apply bind_Ok_inv in Hf as (s1 & w1 & w2 & Hs1 & Hf & ->).
      apply _fillEpoch_Ok in Hs1
        as (-> & ps & d & t & lv & dl & du & dd & pp & pw & Hs1).
      cbv zeta in Hs1.
      destruct Hs1 as (Hps & Hld & Ht & Hlv & Hdl & Hdu & Hdd & Hpp & Hpw & ->).
      pose proof (IH _ _ _ _ Hf) as Hrest. simpl in Hrest.
      intros j [->|Hj]%elem_of_cons; [|by apply Hrest].
      rewrite Ht, Hlv, Hdl, Hdu, Hdd, Hpp, Hpw. by split_and!.
Qed.


(** X4: the loop of [_fillEpochsFromABF] reads exactly the rows of the epoch
    table whose DAC number is the channel, each once and in table order:
    epoch [k + 1] of the timeline holds the seven entries of the [k]-th such
    row. *)
Theorem ingestion_selects_channel_rows (a : ABF.t V) ch (self : Epochs V) w :
  ABF.abfFileFormat a = 2 →
  __init__ a ch = (Ok self, w) →
  let ep := ABF._epochPerDacSection a in
  let rows := channelRows 0 (ABF.nDACNum ep) ch in
  (∀ j, j ∈ rows ↔ ABF.nDACNum ep !! j = Some ch) ∧
  StronglySorted lt rows ∧
  ∀ (k j : nat), rows !! k = Some j →
    ∃ t lv dl d dd pp pw,
      ABF.nEpochType ep !! j = Some t ∧
      ABF.fEpochInitLevel ep !! j = Some lv ∧
      ABF.fEpochLevelInc ep !! j = Some dl ∧
      ABF.lEpochInitDuration ep !! j = Some d ∧
      ABF.lEpochDurationInc ep !! j = Some dd ∧
      ABF.lEpochPulsePeriod ep !! j = Some pp ∧
      ABF.lEpochPulseWidth ep !! j = Some pw ∧
      type self !! S k = Some (PInt t) ∧
      level self !! S k = Some lv ∧
      levelDelta self !! S k = Some dl ∧
      duration self !! S k = Some d ∧
      durationDelta self !! S k = Some dd ∧
      pulsePeriod self !! S k = Some pp ∧
      pulseWidth self !! S k = Some pw.
Proof.
  intros Hfmt Hi ep rows.
  split.
  { intros j. unfold rows. rewrite elem_of_channelRows, Nat.sub_0_r.
    split; [tauto|]. split; [lia|done]. }
  split; [apply channelRows_sorted|].
  pose proof (segmented_columns a ch self w Hfmt Hi)
    as (hc & flag & _ & _ & Hcols).
  cbv zeta in Hcols. fold ep rows in Hcols.
  destruct Hcols as (E1 & (lastLevel & _ & E2) & E3 & E4 & E5 & E6 & E7 & _).
  apply segmented_Ok in Hi
    as (_ & hc' & s1 & _ & _ & _ & _ & Hs1 & _); [|done].
  unfold _fillEpochsFromABF in Hs1.
  pose proof (_fillEpochsFrom_reach _ _ _ _ _ Hs1) as Hr. clear Hs1.
  simpl in Hr. fold ep rows in Hr.
  intros k j Hk.
  destruct (Hr j) as ([t Ht] & [lv Hlv] & [dl Hdl] & [d Hd] & [dd Hdd]
                       & [pp Hpp] & [pw Hpw]).
  { by apply (list_elem_of_lookup_2 _ k). }
  exists t, lv, dl, d, dd, pp, pw.
  assert (∀ {A} (col : list A) (tl : list A) x,
            (∀ j, j ∈ rows → is_Some (col !! j)) →
            col !! j = Some x →
            (column col rows ++ tl) !! k = Some x) as Hcol.
  { intros A col tl x Hall Hx. apply lookup_app_l_Some.
    by rewrite (column_lookup col rows k j). }
  rewrite E1, E2, E3, E4, E5, E6, E7. cbn [lookup list_lookup].
  split_and!; try done.
  - apply lookup_app_l_Some.
    rewrite list_lookup_fmap, (column_lookup _ rows k j), Ht; [done| |done].
    intros j' Hj'. by apply Hr.
  - apply Hcol; [|done]. intros j' Hj'. by apply Hr.
  - apply Hcol; [|done]. intros j' Hj'. by apply Hr.
  - apply Hcol; [|done]. intros j' Hj'. by apply Hr.
  - apply Hcol; [|done]. intros j' Hj'. by apply Hr.
  - apply Hcol; [|done]. intros j' Hj'. by apply Hr.
  - apply Hcol; [|done]. intros j' Hj'. by apply Hr.
Qed.

(** ** Construction returns on a well-formed segmented header *)

Lemma _fillEpoch_forward i (s : Epochs V) :
  pointStart s ≠ [] → duration s ≠ [] →
  columns_reach (ABF._epochPerDacSection (abf s)) (S i) →
  ∃ s', _fillEpoch i s = (Ok s', []).
Proof.
  intros [ps Hps]%last_is_Some [d Hd]%last_is_Some
    (H1 & H2 & H3 & H4 & H5 & H6 & H7).
  destruct (lookup_lt_is_Some_2 _ i H1) as [t Ht].
  destruct (lookup_lt_is_Some_2 _ i H2) as [lv Hlv].
  destruct (lookup_lt_is_Some_2 _ i H3) as [dl Hdl].
  destruct (lookup_lt_is_Some_2 _ i H4) as [du Hdu].
  destruct (lookup_lt_is_Some_2 _ i H5) as [dd Hdd].
  destruct (lookup_lt_is_Some_2 _ i H6) as [pp Hpp].
  destruct (lookup_lt_is_Some_2 _ i H7) as [pw Hpw].
  unfold _fillEpoch. cbv zeta.
  rewrite !getitem_last, Hps, bind_ret, Hd, bind_ret.
  cbn [abf pointStart duration with_pointStart with_type with_level
       with_levelDelta with_duration with_durationDelta with_pulsePeriod
       with_pulseWidth].
  rewrite !getitem_nat, Ht, bind_ret, Hlv, bind_ret, Hdl, bind_ret,
    Hdu, bind_ret, Hdd, bind_ret, Hpp, bind_ret, Hpw, bind_ret.
  rewrite getitem_snoc, bind_ret, getitem_snoc, bind_ret. eauto.
Qed.

Lemma _fillEpochsFrom_forward dacNums : ∀ i (s : Epochs V),
  pointStart s ≠ [] → duration s ≠ [] →
  columns_reach (ABF._epochPerDacSection (abf s)) (i + length dacNums) →
  ∃ s', _fillEpochsFrom i dacNums s = (Ok s', []).
Proof.
  induction dacNums as [|dacNum rest IH]; intros i s Hps Hd Hcol; simpl.
  - by exists s.
  - simpl in Hcol.
    assert (columns_reach (ABF._epochPerDacSection (abf s)) (S i)) as Hcol1.
    { unfold columns_reach in *. destruct_and!. split_and!; lia. }
    assert (columns_reach (ABF._epochPerDacSection (abf s))
              (S i + length rest)) as Hcol2.
    { unfold columns_reach in *. destruct_and!. split_and!; lia. }
    case_decide.
    + by apply IH.
    + destruct (_fillEpoch_forward i s Hps Hd Hcol1) as [s1 Hs1].
      rewrite Hs1, bind_ok.
      apply _fillEpoch_Ok in Hs1
        as (_ & ps & d & t & lv & dl & du & dd & pp & pw & Hs1).
      cbv zeta in Hs1.
      destruct Hs1 as (_ & _ & _ & _ & _ & _ & _ & _ & _ & ->).
      apply IH; simpl; try done; by intros [_ ?]%app_eq_nil.
Qed.

(** X5: a segmented-format header whose sweep length is in the range of a
    float ([|sweepPointCount| < 2^1024]), whose channel indexes
    [holdingCommand], [nInterEpisodeLevel] and [dacUnits], and whose table
    columns are as long as [nDACNum], is always accepted: the constructor
    returns an object and emits no warning. *)
Theorem segmented_returns (a : ABF.t V) ch :
  ABF.abfFileFormat a = 2 →
  Z.abs (ABF.sweepPointCount a) < 2 ^ 1024 →
  indexes ch (ABF.holdingCommand a) →
  indexes ch (ABF.nInterEpisodeLevel (ABF._dacSection a)) →
  indexes ch (ABF.dacUnits a) →
  columns_reach (ABF._epochPerDacSection a)
    (length (ABF.nDACNum (ABF._epochPerDacSection a))) →
  Z.of_nat (length (ABF.nDACNum (ABF._epochPerDacSection a))) + 65 ≤ 1114111 →
  ∃ self, __init__ a ch = (Ok self, []).
Proof.
  intros Hfmt [off Hdiv]%int_truediv_64_returns
    [hc Hhc]%getitem_in_range [flag Hflag]%getitem_in_range
    [u Hu]%getitem_in_range Hcol Hmax.
  unfold __init__. cbv zeta.
  rewrite decide_False, decide_True by (done || lia).
  assert (_addPreEpoch (_initEpochVars a ch) = (Ok (preEpoch a ch hc), []))
    as ->.
  { pose proof Hdiv as [-> _]%preOffset_Ok.
    unfold _addPreEpoch. simpl abf. rewrite Hdiv, bind_ok.
    cbv zeta. simpl abf. simpl channel. rewrite Hhc. reflexivity. }
  rewrite bind_ok.
  destruct (_fillEpochsFrom_forward
              (ABF.nDACNum (ABF._epochPerDacSection a)) 0 (preEpoch a ch hc))
    as [s1 Hs1]; try done.
  unfold _fillEpochsFromABF. simpl abf. rewrite Hs1, bind_ok.
  apply _fillEpochsFrom_Ok in Hs1 as (_ & Hfr & _ & _ & Hlen & _).
  specialize (Hlen 1%nat). simpl in Hlen.
  destruct Hlen as (_ & Hlpe & Hlty & Hllv & _ & Hldu & _);
    [by unfold same_len|].
  destruct Hfr as (Ha & Hc & _ & _ & Hoff & _). simpl in Ha, Hc, Hoff.
  pose proof (length_channelRows
                (ABF.nDACNum (ABF._epochPerDacSection a)) ch 0) as Hrows.
  assert (pointEnd s1 ≠ []) as Hne1 by (by intros E; rewrite E in Hlpe).
  assert (level s1 ≠ []) as Hne2 by (by intros E; rewrite E in Hllv).
  assert (type s1 ≠ []) as Hne3 by (by intros E; rewrite E in Hlty).
  assert (duration s1 ≠ []) as Hne4 by (by intros E; rewrite E in Hldu).
  rewrite <- Ha, <- Hc in Hflag.
  destruct (decide (flag ≠ 0)) as [Hf|Hf].
  - rewrite (_addPostEpoch_sustain s1 flag _ Hflag Hf Hoff Hne1), bind_ok.
    apply last_is_Some in Hne4 as [d Hd].
    rewrite (finish_forward _ d u); simpl; rewrite ?Ha, ?Hc; eauto.
    lia.
  - apply last_is_Some in Hne1 as [pe Hpe], Hne2 as [lv Hlv].
    rewrite (_addPostEpoch_revert s1 flag _ pe lv Hflag ltac:(lia) Hoff Hpe Hlv),
      bind_ok.
    rewrite (finish_forward _ 0 u); simpl; rewrite ?Ha, ?Hc; eauto.
    + by intros [_ ?]%app_eq_nil.
    + rewrite length_app. simpl. lia.
    + by rewrite last_snoc.
Qed.

(** ** The bounds as sums of durations *)

Lemma final_sums (a : ABF.t V) ch (self : Epochs V) w :
  ABF.abfFileFormat a = 2 →
  __init__ a ch = (Ok self, w) →
  let off := preOffset a in
  (∀ (i : nat) x, pointStart self !! i = Some x →
                  x = sumZ (take i (duration self))) ∧
  (∀ (i : nat) y, (S i < length (pointEnd self))%nat →
                  pointEnd self !! i = Some y →
                  y = sumZ (take (S i) (duration self))) ∧
  length (pointStart self) = length (pointEnd self) ∧
  length (duration self) = length (pointEnd self) ∧
  contiguous self ∧
  ∃ flag,
    getitem (ABF.nInterEpisodeLevel (ABF._dacSection a)) ch = (Ok flag, []) ∧
    last (pointEnd self)
    = Some (ABF.sweepPointCount a + off - (if decide (flag ≠ 0) then 1 else 0)) ∧
    duration self
    = off :: channelDurations a ch ++ (if decide (flag ≠ 0) then [] else [0]).
Proof.
  intros Hfmt Hi off.
  apply segmented_shape in Hi
    as (_ & hc & s1 & flag & u & _ & Hflag & _ & Hfr & _ & Hch & _ & Hdur
        & Hcase); [|done].
  destruct Hfr as (Ha & _). simpl in Ha.
  pose proof Hch as (Hl1 & Hl2 & _).
  pose proof (chained_sums s1 Hch) as Hsums.
  assert (0 < length (duration s1))%nat as Hpos by (rewrite Hdur; simpl; lia).
  destruct Hcase as [(Hf & d & _ & ->)|(Hf & pe & lv & Hpe & _ & ->)];
    simpl; rewrite ?length_insert, ?length_app; simpl.
  - split_and!.
    + intros i x Hx. apply lookup_lt_Some in Hx as Hlt.
      destruct (Hsums i) as [Hx' _]; [lia|]. congruence.
    + intros i y Hlt Hy. rewrite list_lookup_insert_ne in Hy by lia.
      destruct (Hsums i) as [_ Hy']; [lia|]. congruence.
    + lia.
    + lia.
    + by apply contiguous_sustained.
    + exists flag. destruct (decide (flag ≠ 0)); [|done]. split; [done|].
      split; [|by rewrite app_nil_r].
      rewrite last_lookup, length_insert, list_lookup_insert_eq by lia.
      rewrite Ha. f_equal. unfold off. lia.
  - split_and!; [| |lia|lia| |].
    + intros i x Hx.
      destruct (decide (i < length (pointStart s1))%nat) as [Hlt|Hge].
      * rewrite lookup_app_l in Hx by lia. rewrite take_app_le by lia.
        destruct (Hsums i) as [Hx' _]; [lia|]. congruence.
      * apply lookup_lt_Some in Hx as Hlt. rewrite length_app in Hlt.
        simpl in Hlt. assert (i = length (duration s1)) as -> by lia.
        rewrite lookup_app_r in Hx by lia.
        replace (length (duration s1) - length (pointStart s1))%nat
          with 0%nat in Hx by lia.
        simpl in Hx. rewrite take_app_length.
        rewrite last_lookup in Hpe.
        destruct (Hsums (pred (length (pointEnd s1)))) as [_ Hy']; [lia|].
        rewrite Hy' in Hpe.
        replace (S (pred (length (pointEnd s1)))) with (length (duration s1))
          in Hpe by lia.
        rewrite firstn_all in Hpe. congruence.
    + intros i y Hlt Hy. rewrite lookup_app_l in Hy by lia.
      rewrite take_app_le by lia.
      destruct (Hsums i) as [_ Hy']; [lia|]. congruence.
    + by apply contiguous_postEpoch.
    + exists flag. destruct (decide (flag ≠ 0)); [lia|]. split; [done|].
      rewrite !last_snoc, Hdur, Ha. split; [|done].
      f_equal. unfold off. lia.
Qed.

(** X6: in a timeline built from a segmented-format header every epoch starts
    at the sum of the base durations of the epochs before it, the pre-epoch
    counting for [_pointOffset], and every epoch but the last ends at its
    start plus its own base duration.  The last end is set from the sweep
    length instead: [sweepPointCount + _pointOffset], less one when the
    channel sustains, where [_pointOffset] is the value of
    [int(sweepPointCount/64)]. *)
Theorem bounds_are_sums_of_durations (a : ABF.t V) ch (self : Epochs V) w :
  ABF.abfFileFormat a = 2 →
  __init__ a ch = (Ok self, w) →
  (∀ (i : nat) x, pointStart self !! i = Some x →
                  x = sumZ (take i (duration self))) ∧
  (∀ (i : nat) y, (S i < length (pointEnd self))%nat →
                  pointEnd self !! i = Some y →
                  y = sumZ (take (S i) (duration self))) ∧
  ∃ off flag,
    int_truediv_64 (ABF.sweepPointCount a) = (Ok off, []) ∧
    _pointOffset self = Some off ∧
    getitem (ABF.nInterEpisodeLevel (ABF._dacSection a)) ch = (Ok flag, []) ∧
    last (pointEnd self)
    = Some (ABF.sweepPointCount a + off - (if decide (flag ≠ 0) then 1 else 0)) ∧
    duration self
    = off :: channelDurations a ch ++ (if decide (flag ≠ 0) then [] else [0]).
Proof.
  intros Hfmt Hi.
  destruct (segmented_offset a ch self w Hfmt Hi) as [Hdiv Hpo].
  destruct (final_sums a ch self w Hfmt Hi)
    as (H1 & H2 & _ & _ & _ & flag & H3).
  split; [done|]. split; [done|]. by exists (preOffset a), flag.
Qed.

(** ** The epochs tile the sweep *)

Lemma chain_reaches (ps pe : list Z) :
  length ps = length pe → ps !! 0%nat = Some 0 →
  (∀ (i : nat) y x, pe !! i = Some y → ps !! S i = Some x → y = x) →
  ∀ (k : nat) y (j : Z), pe !! k = Some y → 0 ≤ j < y →
    ∃ (i : nat) x y', ps !! i = Some x ∧ pe !! i = Some y' ∧ x ≤ j < y'.
Proof.
  intros Hlen H0 Hcont k. induction k as [|k IH]; intros y j Hy Hj.
  - exists 0%nat, 0, y. split_and!; try done; lia.
  - destruct (lookup_lt_is_Some_2 ps (S k)) as [x Hx].
    { apply lookup_lt_Some in Hy. lia. }
    destruct (lookup_lt_is_Some_2 pe k) as [y' Hy'].
    { apply lookup_lt_Some in Hy. lia. }
    pose proof (Hcont _ _ _ Hy' Hx) as ->.
    destruct (decide (j < x)) as [Hlt|Hge].
    + apply (IH x j); [done|lia].
    + exists (S k), x, y. split_and!; try done; lia.
Qed.

Lemma chain_monotone (ps pe : list Z) :
  length ps = length pe →
  (∀ (i : nat) y x, pe !! i = Some y → ps !! S i = Some x → y = x) →
  (∀ (i : nat) x y, ps !! i = Some x → pe !! i = Some y → x ≤ y) →
  ∀ (d i : nat) y x, pe !! i = Some y → ps !! (S i + d)%nat = Some x → y ≤ x.
Proof.
  intros Hlen Hcont Hle d. induction d as [|d IH]; intros i y x Hy Hx.
  - rewrite Nat.add_0_r in Hx. by rewrite (Hcont _ _ _ Hy Hx).
  - replace (S i + S d)%nat with (S (S i) + d)%nat in Hx by lia.
    destruct (lookup_lt_is_Some_2 ps (S i)) as [x1 Hx1].
    { apply lookup_lt_Some in Hx. lia. }
    destruct (lookup_lt_is_Some_2 pe (S i)) as [y1 Hy1].
    { apply lookup_lt_Some in Hx. lia. }
    pose proof (Hcont _ _ _ Hy Hx1) as ->.
    pose proof (Hle _ _ _ Hx1 Hy1). pose proof (IH _ _ _ Hy1 Hx). lia.
Qed.

Lemma final_bounds (a : ABF.t V) ch (self : Epochs V) w :
  ABF.abfFileFormat a = 2 →
  __init__ a ch = (Ok self, w) →
  0 ≤ ABF.sweepPointCount a →
  Forall (λ d, 0 ≤ d) (channelDurations a ch) →
  (∀ flag,
     getitem (ABF.nInterEpisodeLevel (ABF._dacSection a)) ch = (Ok flag, []) →
     (flag ≠ 0 →
      sumZ (removelast (channelDurations a ch)) ≤ ABF.sweepPointCount a - 1) ∧
     (flag = 0 → sumZ (channelDurations a ch) ≤ ABF.sweepPointCount a)) →
  ∀ (i : nat) x y,
    pointStart self !! i = Some x → pointEnd self !! i = Some y → x ≤ y.
Proof.
  intros Hfmt Hi HN Hnn Hfit i x y Hx Hy.
  destruct (final_sums a ch self w Hfmt Hi)
    as (Hs & He & Hl1 & Hl2 & _ & flag & Hflag & Hlast & Hdur).
  destruct (Hfit flag Hflag) as [Hsus Hrev].
  assert (0 ≤ preOffset a) as Hoff by (by apply preOffset_nonneg).
  rewrite (Hs _ _ Hx).
  apply lookup_lt_Some in Hy as Hlt.
  destruct (decide (S i < length (pointEnd self))%nat) as [Hin|Hend].
  - rewrite (He _ _ Hin Hy).
    destruct (lookup_lt_is_Some_2 (duration self) i) as [d Hd]; [lia|].
    rewrite (take_S_r _ _ _ Hd), sumZ_app. simpl.
    assert (0 ≤ d); [|lia].
    rewrite Hdur in Hd. destruct i as [|i]; simpl in Hd; [by simplify_eq|].
    apply lookup_app_Some in Hd as [Hd|[_ Hd]].
    + by eapply (Forall_lookup_1 _ _ _ _ Hnn).
    + destruct (decide (flag ≠ 0)); [by rewrite lookup_nil in Hd|].
      apply list_lookup_singleton_Some in Hd as [_ <-]. done.
  - assert (i = pred (length (pointEnd self))) as -> by lia.
    rewrite last_lookup in Hlast. rewrite Hlast in Hy. simplify_eq.
    rewrite Hdur. rewrite <- Hl2, Hdur.
    destruct (decide (flag ≠ 0)) as [Hf|Hf].
    + rewrite app_nil_r. simpl pred.
      pose proof (sumZ_all_but_last _ (channelDurations a ch) Hoff).
      specialize (Hsus Hf). lia.
    + simpl pred. rewrite length_app. simpl length.
      replace (length (channelDurations a ch) + 1)%nat
        with (S (length (channelDurations a ch))) by lia.
      simpl. rewrite take_app_length.
      assert (flag = 0) as Hf0 by lia. specialize (Hrev Hf0). lia.
Qed.

(** X7: with non-negative declared durations that fit in the sweep, the epochs
    of a segmented timeline tile the samples from 0 to the last end
    ([sweepPointCount + _pointOffset], less one when the channel sustains)
    without gap or overlap: every such sample lies in the range
    [[pointStart, pointEnd)] of exactly one epoch. *)
Theorem epochs_tile_the_sweep (a : ABF.t V) ch (self : Epochs V) w :
  ABF.abfFileFormat a = 2 →
  __init__ a ch = (Ok self, w) →
  0 ≤ ABF.sweepPointCount a →
  Forall (λ d, 0 ≤ d) (channelDurations a ch) →
  (∀ flag,
     getitem (ABF.nInterEpisodeLevel (ABF._dacSection a)) ch = (Ok flag, []) →
     (flag ≠ 0 →
      sumZ (removelast (channelDurations a ch)) ≤ ABF.sweepPointCount a - 1) ∧
     (flag = 0 → sumZ (channelDurations a ch) ≤ ABF.sweepPointCount a)) →
  ∃ lastEnd, last (pointEnd self) = Some lastEnd ∧
    ∀ j, 0 ≤ j < lastEnd →
      (∃ (i : nat) x y, pointStart self !! i = Some x ∧
                        pointEnd self !! i = Some y ∧ x ≤ j < y) ∧
      (∀ (i i' : nat) x y x' y',
         pointStart self !! i = Some x → pointEnd self !! i = Some y →
         pointStart self !! i' = Some x' → pointEnd self !! i' = Some y' →
         x ≤ j < y → x' ≤ j < y' → i = i').
Proof.
  intros Hfmt Hi HN Hnn Hfit.
  pose proof (final_bounds a ch self w Hfmt Hi HN Hnn Hfit) as Hle.
  destruct (final_sums a ch self w Hfmt Hi)
    as (Hs & _ & Hl1 & _ & Hcont & flag & _ & Hlast & _).
  assert (pointStart self !! 0%nat = Some 0) as H0.
  { destruct (lookup_lt_is_Some_2 (pointStart self) 0) as [x Hx].
    - apply last_Some in Hlast as [l' Hl']. rewrite Hl1, Hl', length_app.
      simpl. lia.
    - by rewrite Hx, (Hs _ _ Hx). }
  eexists. split; [exact Hlast|]. intros j Hj. split.
  - rewrite last_lookup in Hlast.
    by eapply (chain_reaches _ _ Hl1 H0 Hcont _ _ j Hlast).
  - assert (∀ (i i' : nat) x y x' y',
       (i < i')%nat →
       pointStart self !! i = Some x → pointEnd self !! i = Some y →
       pointStart self !! i' = Some x' → pointEnd self !! i' = Some y' →
       x ≤ j < y → x' ≤ j < y' → False) as Hlt.
    { intros i i' x y x' y' Hii Hx Hy Hx' Hy' Hj1 Hj2.
      replace i' with (S i + (i' - S i))%nat in Hx' by lia.
      pose proof (chain_monotone _ _ Hl1 Hcont Hle _ _ _ _ Hy Hx'). lia. }
    intros i i' x y x' y' Hx Hy Hx' Hy' Hj1 Hj2.
    destruct (Nat.lt_trichotomy i i') as [Hc|[Hc|Hc]]; [|done|].
    + exfalso. by eapply (Hlt i i').
    + exfalso. by eapply (Hlt i' i).
Qed.

(** ** How construction fails *)

Lemma bind_Raise_inv {A B} (m : M A) (k : A → M B) x w :
  bind m k = (Raise x, w) →
  (∃ w1, m = (Raise x, w1)) ∨ (∃ a w1 w2, m = (Ok a, w1) ∧ k a = (Raise x, w2)).
Proof.
  unfold bind. destruct m as [[a|e] w1].
  - destruct (k a) as [r w2] eqn:Hk. intros [= -> <-]. right. by exists a, w1, w2.
  - intros [= -> <-]. left. by exists w1.
Qed.

Lemma getitem_raise_inv {A} (l : list A) i x w :
  getitem l i = (Raise x, w) → x = IndexError.
Proof. unfold getitem. repeat case_match; by intros [= <- _]. Qed.

Lemma setitem_raise_inv {A} (l : list A) i v x w :
  setitem l i v = (Raise x, w) → x = IndexError.
Proof. unfold setitem. repeat case_match; by intros [= <- _]. Qed.

Local Ltac raise_inv H :=
  cbv beta zeta in H;
  repeat (
    first
      [ apply bind_Raise_inv in H as [[? H]|(? & ? & ? & _ & H)];
        [first [by apply getitem_raise_inv in H
               |by apply setitem_raise_inv in H
               |done]|]
      | done ];
    cbv beta zeta in H).

Lemma _fillEpoch_raise_inv i (s : Epochs V) x w :
  _fillEpoch i s = (Raise x, w) → x = IndexError.
Proof. unfold _fillEpoch. intros Hr. raise_inv Hr. Qed.

Lemma _fillEpochsFrom_raise_inv dacNums : ∀ i (s : Epochs V) x w,
  _fillEpochsFrom i dacNums s = (Raise x, w) → x = IndexError.
Proof.
  induction dacNums as [|dacNum rest IH]; intros i s x w; simpl; [done|].
  case_decide; [apply IH|].
  intros [[? Hr]|(? & ? & ? & _ & Hr)]%bind_Raise_inv.
  - by apply _fillEpoch_raise_inv in Hr.
  - by apply IH in Hr.
Qed.

Lemma _addPostEpoch_raise_inv (s : Epochs V) x w :
  is_Some (_pointOffset s) →
  _addPostEpoch s = (Raise x, w) → x = IndexError.
Proof.
  intros [off Hoff]. unfold _addPostEpoch. cbv zeta. intros Hr.
  apply bind_Raise_inv in Hr as [[? Hr]|(flag & ? & ? & _ & Hr)];
    [by apply getitem_raise_inv in Hr|].
  case_decide.
  - rewrite Hoff in Hr. simpl attr in Hr. rewrite bind_ret in Hr. raise_inv Hr.
  - apply bind_Raise_inv in Hr as [[? Hr]|(pe & ? & ? & _ & Hr)];
      [by apply getitem_raise_inv in Hr|].
    cbn [_pointOffset with_pointStart] in Hr. rewrite Hoff in Hr.
    simpl attr in Hr. rewrite bind_ret in Hr. raise_inv Hr.
Qed.

Lemma mapM_chr_raise_inv n : ∀ i x w,
  mapM (λ x : nat, chr (Z.of_nat x + 64)) (seq i n) = (Raise x, w) →
  x = ValueError ∧ 1114111 < Z.of_nat (i + n) + 63.
Proof.
  intros i x w Hr. split.
  - revert i w Hr. induction n as [|n IH]; intros i w; simpl; [done|].
    intros [[? Hr]|(? & ? & ? & _ & Hr)]%bind_Raise_inv.
    + unfold chr in Hr. case_match; [done|]. by injection Hr as <-.
    + apply bind_Raise_inv in Hr as [[? Hr]|(? & ? & ? & _ & Hr)]; [|done].
      by apply IH in Hr.
  - destruct (Z.le_gt_cases (Z.of_nat (i + n) + 63) 1114111) as [Hle|]; [|lia].
    by rewrite mapM_chr_ok in Hr.
Qed.

Lemma _createEpochLabels_raise_inv (s : Epochs V) x w :
  _createEpochLabels s = (Raise x, w) →
  x = IndexError ∨
  (x = ValueError ∧ 1114111 < Z.of_nat (length (type s)) + 63).
Proof.
  unfold _createEpochLabels. cbv zeta. intros Hr.
  apply bind_Raise_inv in Hr as [[? Hr]|(? & ? & ? & _ & Hr)].
  - right. by apply mapM_chr_raise_inv in Hr.
  - left. cbn [label with_label duration] in Hr.
    apply bind_Raise_inv in Hr as [[? Hr]|(? & ? & ? & _ & Hr)];
      [by apply setitem_raise_inv in Hr|].
    apply bind_Raise_inv in Hr as [[? Hr]|(? & ? & ? & _ & Hr)];
      [by apply getitem_raise_inv in Hr|].
    case_decide; [|done]. raise_inv Hr.
Qed.

Lemma _updateEpochDetails_raise_inv (s : Epochs V) x w :
  _updateEpochDetails s = (Raise x, w) → x = IndexError.
Proof. unfold _updateEpochDetails. intros Hr. raise_inv Hr. Qed.

Lemma legacy_raise_inv (a : ABF.t V) ch x w :
  _updateForABFv1 (_initEpochVars a ch) = (Raise x, w) → x = IndexError.
Proof.
  unfold _updateForABFv1. cbv zeta.
  intros [[? Hr]|(? & ? & ? & _ & Hr)]%bind_Raise_inv; [done|].
  apply bind_Raise_inv in Hr as [[? Hr]|(? & ? & ? & _ & Hr)]; [|done].
  by apply getitem_raise_inv in Hr.
Qed.

Lemma _addPreEpoch_raise_inv (a : ABF.t V) ch x w :
  _addPreEpoch (_initEpochVars a ch) = (Raise x, w) →
  x = IndexError ∨
  (x = OverflowError ∧ 2 ^ 1024 ≤ Z.abs (ABF.sweepPointCount a)).
Proof.
  unfold _addPreEpoch. simpl abf.
  intros [[? Hr]|(off & ? & ? & _ & Hr)]%bind_Raise_inv.
  - right. by apply int_truediv_64_raise_inv in Hr as (-> & _ & ?).
  - left. cbv zeta in Hr.
    apply bind_Raise_inv in Hr as [[? Hr]|(? & ? & ? & _ & Hr)]; [|done].
    by apply getitem_raise_inv in Hr.
Qed.

Lemma segmented_raise_inv (a : ABF.t V) ch x w :
  (do self <- _addPreEpoch (_initEpochVars a ch);
   do self <- _fillEpochsFromABF self;
   _addPostEpoch self) = (Raise x, w) →
  x = IndexError ∨
  (x = OverflowError ∧ 2 ^ 1024 ≤ Z.abs (ABF.sweepPointCount a)).
Proof.
  intros [[? Hr]|(s0 & ? & ? & Hs0 & Hr)]%bind_Raise_inv.
  { by apply _addPreEpoch_raise_inv in Hr. }
  left.
  apply _addPreEpoch_Ok in Hs0 as (_ & hc & _ & ->).
  apply bind_Raise_inv in Hr as [[? Hr]|(s1 & ? & ? & Hs1 & Hr)].
  { by apply _fillEpochsFrom_raise_inv in Hr. }
  apply _fillEpochsFrom_Ok in Hs1 as (_ & Hfr & _).
  destruct Hfr as (_ & _ & _ & _ & Hoff & _).
  apply _addPostEpoch_raise_inv in Hr; [done|].
  rewrite Hoff. by eexists.
Qed.

Lemma segmented_length (a : ABF.t V) ch (s : Epochs V) w :
  (do self <- _addPreEpoch (_initEpochVars a ch);
   do self <- _fillEpochsFromABF self;
   _addPostEpoch self) = (Ok s, w) →
  (length (type s)
   ≤ 2 + length (ABF.nDACNum (ABF._epochPerDacSection a)))%nat.
Proof.
  intros Hs.
  apply bind_Ok_inv in Hs as (s0 & ? & ? & Hs0 & Hs & _).
  apply _addPreEpoch_Ok in Hs0 as (_ & hc & _ & ->).
  apply bind_Ok_inv in Hs as (s1 & ? & ? & Hs1 & Hs & _).
  apply _fillEpochsFrom_Ok in Hs1 as (_ & _ & _ & _ & Hlen & _).
  specialize (Hlen 1%nat). simpl in Hlen.
  destruct Hlen as (_ & _ & Hlty & _); [by unfold same_len|].
  pose proof (length_channelRows
                (ABF.nDACNum (ABF._epochPerDacSection a)) ch 0).
  apply _addPostEpoch_Ok in Hs as (_ & flag & off & _ & _ & Hcase).
  destruct Hcase as [(_ & _ & ->)|(_ & pe & lv & _ & _ & ->)]; simpl.
  - lia.
  - rewrite length_app. simpl. lia.
Qed.

(** X8: when the constructor raises, the exception is [IndexError]: no
    attribute is read before it is assigned and no value has the wrong
    type.  The two exceptions are the [OverflowError] of
    [int(sweepPointCount/64)] on the segmented path, which needs a sweep
    length outside the range of a float, and the [ValueError] of [chr],
    which needs an epoch table of more than a million rows. *)
Theorem construction_raises_IndexError (a : ABF.t V) ch x w :
  __init__ a ch = (Raise x, w) →
  x = IndexError ∨
  (x = OverflowError ∧ ABF.abfFileFormat a = 2 ∧
   2 ^ 1024 ≤ Z.abs (ABF.sweepPointCount a)) ∨
  (x = ValueError ∧
   1114111 < Z.of_nat (length (ABF.nDACNum (ABF._epochPerDacSection a))) + 65).
Proof.
  unfold __init__. cbv zeta.
  intros [[? Hr]|(s & ? & ? & Hs & Hr)]%bind_Raise_inv.
  - repeat case_decide; [| |done].
    + left. by apply legacy_raise_inv in Hr.
    + apply segmented_raise_inv in Hr as [->|[-> Hbig]]; [by left|].
      right. left. by split_and!.
  - apply bind_Raise_inv in Hr as [[? Hr]|(? & ? & ? & _ & Hr)];
      [|left; by apply _updateEpochDetails_raise_inv in Hr].
    apply _createEpochLabels_raise_inv in Hr as [->|[-> Hbig]]; [by left|].
    right. right. split; [done|].
    enough (length (type s)
            ≤ 2 + length (ABF.nDACNum (ABF._epochPerDacSection a)))%nat by lia.
    repeat case_decide.
    + apply _updateForABFv1_Ok in Hs as (_ & hc & _ & ->). simpl. lia.
    + by apply segmented_length in Hs.
    + apply ret_Ok_inv in Hs as [<- _]. simpl. lia.
Qed.

End Construction.

(** * Further properties of synthesis *)

Section Synthesis.
Context {V : Type} `{Level V}.













End Synthesis.

(** ** The text block and [len] *)

Section Display.
Context {V : Type} `{Level V}.

Local Ltac txt_inv :=
  repeat (cbv beta zeta in *;
    match goal with
    | H : bind _ _ = (Ok _, _) |- _ =>
        apply bind_Ok_inv in H as (? & ? & ? & ? & ? & ->)
    | H : ret _ = (Ok _, _) |- _ => apply ret_Ok_inv in H as [<- ->]
    end).

Lemma _txtFmt_Type_Ok (values vs : list (pyval V)) w :
  _txtFmt_Type values = (Ok vs, w) →
  length vs = length values ∧ Forall (λ v, ∃ s, v = PStr s) vs.
Proof.
  revert vs w. induction values as [|value rest IH]; intros vs w Hv.
  - apply ret_Ok_inv in Hv as [<- _]. by split.
  - cbn [_txtFmt_Type] in Hv.
    apply bind_Ok_inv in Hv as (v & w1 & w2 & Hv & Hrest & ->).
    apply bind_Ok_inv in Hrest as (vs' & w3 & w4 & Hrest & Hret & ->).
    apply ret_Ok_inv in Hret as [<- ->].
    apply IH in Hrest as [Hlen Hall]. split; [simpl; by rewrite Hlen|].
    constructor; [|done].
    repeat case_match; txt_inv; eauto.
Qed.

Lemma mapM_strings (l : list pystr) :
  mapM (λ val : pyval V, match val with PStr s => ret s | _ => percent_d val end)
    (PStr <$> l) = (Ok l, []).
Proof.
  induction l as [|s l IH]; [done|].
  cbn [fmap list_fmap mapM]. change (list_fmap _ _ PStr l) with (PStr <$> l).
  by rewrite bind_ret, IH, bind_ok.
Qed.

Lemma _txtFmt_strings lbl (l : list pystr) :
  lbl ≠ str "Type" →
  ∃ line, _txtFmt lbl (PStr <$> l : list (pyval V)) = (Ok (PStr <$> l, line), []).
Proof.
  intros Hl. unfold _txtFmt. rewrite decide_False by done.
  rewrite bind_ret, mapM_strings, bind_ok. by eexists.
Qed.

Lemma _txtFmt_Type_str s (rest : list (pyval V)) :
  _txtFmt (str "Type") (PStr s :: rest) = (Raise TypeError, []).
Proof. unfold _txtFmt. rewrite decide_True by done. done. Qed.

Lemma channel_label_not_Type ch :
  str "Ch" ++ fmt_d ch ++ str " EPOCH" ≠ str "Type".
Proof. intros [=]. Qed.

Lemma text_Ok_inv (self self' : Epochs V) out w :
  text self = (Ok (out, self'), w) →
  ∃ vs line w', _txtFmt (str "Type") (type self) = (Ok (vs, line), w') ∧
    self' = with_type vs self.
Proof.
  unfold text. intros Ht.
  apply bind_Ok_inv in Ht as ([? ?] & ? & ? & _ & Ht & _).
  apply bind_Ok_inv in Ht as ([vs line] & w' & ? & Hty & Ht & _).
  exists vs, line, w'. split; [done|].
  cbv zeta in Ht.
  repeat (apply bind_Ok_inv in Ht as (? & ? & ? & _ & Ht & _);
          try match type of Ht with (let (_, _) := ?x in _) = _ => destruct x end).
  by apply ret_Ok_inv in Ht as [[= _ <-] _].
Qed.

Lemma _txtFmt_Type_inv (values vs : list (pyval V)) line w :
  _txtFmt (str "Type") values = (Ok (vs, line), w) →
  length vs = length values ∧ Forall (λ v, ∃ s, v = PStr s) vs.
Proof.
  unfold _txtFmt. rewrite decide_True by done. intros Ht.
  apply bind_Ok_inv in Ht as (vs' & ? & ? & Hty & Ht & _).
  apply bind_Ok_inv in Ht as (? & ? & ? & _ & Ht & _).
  apply ret_Ok_inv in Ht as [[= <- _] _].
  by apply _txtFmt_Type_Ok in Hty.
Qed.

(** X12: when a read of [text] returns, the object it leaves differs from the
    one read only in [type], which has the same length and holds strings
    only, so that no element compares equal to 0 any more. *)
Theorem text_leaves_type_as_strings (self self' : Epochs V) out w :
  text self = (Ok (out, self'), w) →
  self' = with_type (type self') self ∧
  length (type self') = length (type self) ∧
  ∀ (e : nat) t, type self' !! e = Some t →
    (∃ s, t = PStr s) ∧ py_eq_int t 0 = false.
Proof.
  intros (vs & line & w' & Hty & ->)%text_Ok_inv.
  apply _txtFmt_Type_inv in Hty as [Hlen Hall].
  split; [done|]. split; [done|].
  intros e t Ht. cbn [type with_type] in Ht.
  rewrite Forall_lookup in Hall. destruct (Hall e t Ht) as [s ->]. eauto.
Qed.

(** X13: after a read of [text] that returned on a constructed timeline, the
    next read raises [TypeError]: the first element of [type] is a string
    and ["%d?" % value] refuses it. *)
Theorem text_second_read_raises (a : ABF.t V) ch (self self' : Epochs V)
    w out w' :
  __init__ a ch = (Ok self, w) →
  text self = (Ok (out, self'), w') →
  text self' = (Raise TypeError, []).
Proof.
  intros Hi (vs & line & w'' & Hty & ->)%text_Ok_inv.
  apply _txtFmt_Type_inv in Hty as [Hlen Hall].
  apply init_labels in Hi as [Hne _].
  destruct vs as [|v vs];
    [by destruct (type self)|].
  apply Forall_cons in Hall as [[s ->] _].
  unfold text. cbn [label channel type with_type].
  destruct (_txtFmt_strings (str "Ch" ++ fmt_d (channel self) ++ str " EPOCH")
              (label self)) as [l1 ->]; [apply channel_label_not_Type|].
  rewrite bind_ok. cbv zeta. by rewrite _txtFmt_Type_str.
Qed.

(** X14: [len] of a constructed timeline returns the number of epochs, which is
    the length of the per-epoch lists and at least 1. *)
Theorem len_counts_epochs (a : ABF.t V) ch (self : Epochs V) w :
  __init__ a ch = (Ok self, w) →
  ∃ n : nat,
    __len__ self = (Ok (Z.of_nat n), []) ∧ (1 ≤ n)%nat ∧
    epochCount self = Some n ∧
    length (type self) = n ∧ length (label self) = n ∧
    length (pointStart self) = n ∧ length (pointEnd self) = n.
Proof.
  intros Hi. pose proof Hi as [Hne _]%init_labels.
  apply init_well_formed in Hi as ((n & Hn & Hl & Hc & Hel) & _).
  destruct Hn as (Hps & Hpe & Hty & _).
  exists n. unfold __len__. rewrite Hel. simpl attr.
  rewrite bind_ret, length_seq.
  split_and!; try done. destruct (type self); simpl in *; [done|lia].
Qed.

End Display.

(** ** The further properties on the concrete headers *)

Lemma unknown_format_raises_witness :
  ABF.abfFileFormat header_unknown ≠ 1 ∧
  ABF.abfFileFormat header_unknown ≠ 2 ∧
  __init__ header_unknown 0 = (Raise IndexError, []).
Proof.
  assert (ABF.abfFileFormat header_unknown ≠ 1) as H1 by (simpl; lia).
  assert (ABF.abfFileFormat header_unknown ≠ 2) as H2 by (simpl; lia).
  split; [exact H1|]. split; [exact H2|].
  exact (unknown_format_raises header_unknown 0 H1 H2).
Defined.

Lemma invalid_channel_raises_witness :
  (5 < - Z.of_nat (length (ABF.holdingCommand header_fit))
   ∨ Z.of_nat (length (ABF.holdingCommand header_fit)) ≤ 5) ∧
  Z.abs (ABF.sweepPointCount header_fit) < 2 ^ 1024 ∧
  2 ^ 1030 ≤ Z.abs (ABF.sweepPointCount header_huge) ∧
  __init__ header_fit 5 = (Raise IndexError, []) ∧
  __init__ header_huge 5 = (Raise OverflowError, []) ∧
  __init__ header_legacy 5
  = (Raise IndexError, [str "ABFv1 epoch synthesis not fully supported"]).
Proof.
  assert (5 < - Z.of_nat (length (ABF.holdingCommand header_fit))
          ∨ Z.of_nat (length (ABF.holdingCommand header_fit)) ≤ 5) as Hch
    by (right; simpl; lia).
  assert (Z.abs (ABF.sweepPointCount header_fit) < 2 ^ 1024) as Hfloat
    by reflexivity.
  assert (2 ^ 1030 ≤ Z.abs (ABF.sweepPointCount header_huge)) as Hhuge
    by (vm_compute; discriminate).
  split; [exact Hch|]. split; [exact Hfloat|]. split; [exact Hhuge|].
  split; [|split].
  - exact (proj1 (proj2 (invalid_channel_raises header_fit 5 Hch) eq_refl)
             Hfloat).
  - exact (proj2 (proj2 (invalid_channel_raises header_huge 5 Hch) eq_refl)
             Hhuge).
  - exact (proj1 (invalid_channel_raises header_legacy 5 Hch) eq_refl).
Defined.

Lemma ingestion_selects_channel_rows_witness :
  ABF.abfFileFormat header_fit = 2 ∧
  __init__ header_fit 0 = (Ok timeline_fit, []) ∧
  channelRows 0 (ABF.nDACNum (ABF._epochPerDacSection header_fit)) 0
    !! 1%nat = Some 2%nat ∧
  ∃ t d,
    ABF.nEpochType (ABF._epochPerDacSection header_fit) !! 2%nat = Some t ∧
    ABF.lEpochInitDuration (ABF._epochPerDacSection header_fit) !! 2%nat
    = Some d ∧
    type timeline_fit !! 2%nat = Some (PInt t) ∧
    duration timeline_fit !! 2%nat = Some d.
Proof.
  assert (__init__ header_fit 0 = (Ok timeline_fit, [])) as Hi
    by compute_eq.
  split; [reflexivity|]. split; [exact Hi|]. split; [reflexivity|].
  destruct (ingestion_selects_channel_rows header_fit 0 timeline_fit []
              eq_refl Hi) as (_ & _ & Hrow).
  destruct (Hrow 1%nat 2%nat eq_refl)
    as (t & lv & dl & d & dd & pp & pw & Ht & _ & _ & Hd & _ & _ & _
        & Hty & _ & _ & Hdu & _).
  exists t, d. split; [exact Ht|]. split; [exact Hd|].
  split; [exact Hty|exact Hdu].
Defined.

Lemma segmented_copies_rows_witness :
  ABF.abfFileFormat header_fit = 2 ∧
  __init__ header_fit 0 = (Ok timeline_fit, []) ∧
  ∃ hc flag,
    getitem (ABF.holdingCommand header_fit) 0 = (Ok hc, []) ∧
    getitem (ABF.nInterEpisodeLevel (ABF._dacSection header_fit)) 0
    = (Ok flag, []) ∧
    duration timeline_fit
    = 15 :: column (ABF.lEpochInitDuration (ABF._epochPerDacSection header_fit))
              (channelRows 0
                 (ABF.nDACNum (ABF._epochPerDacSection header_fit)) 0)
            ++ (if decide (flag ≠ 0) then [] else [0]).
Proof.
  assert (__init__ header_fit 0 = (Ok timeline_fit, [])) as Hi
    by compute_eq.
  split; [reflexivity|]. split; [exact Hi|].
  destruct (segmented_copies_rows header_fit 0 timeline_fit [] eq_refl Hi)
    as (off & hc & flag & Hdiv & _ & _ & Hhc & Hflag & _ & _ & _ & Hdur & _).
  vm_compute in Hdiv. injection Hdiv as <-.
  exists hc, flag. split; [exact Hhc|]. split; [exact Hflag|]. exact Hdur.
Defined.

Lemma segmented_returns_witness :
  ABF.abfFileFormat header_fit = 2 ∧
  Z.abs (ABF.sweepPointCount header_fit) < 2 ^ 1024 ∧
  indexes 0 (ABF.holdingCommand header_fit) ∧
  indexes 0 (ABF.nInterEpisodeLevel (ABF._dacSection header_fit)) ∧
  indexes 0 (ABF.dacUnits header_fit) ∧
  columns_reach (ABF._epochPerDacSection header_fit)
    (length (ABF.nDACNum (ABF._epochPerDacSection header_fit))) ∧
  ∃ self, __init__ header_fit 0 = (Ok self, []).
Proof.
  assert (indexes 0 (ABF.holdingCommand header_fit)) as H1
    by (unfold indexes; simpl; lia).
  assert (indexes 0 (ABF.nInterEpisodeLevel (ABF._dacSection header_fit)))
    as H2 by (unfold indexes; simpl; lia).
  assert (indexes 0 (ABF.dacUnits header_fit)) as H3
    by (unfold indexes; simpl; lia).
  assert (columns_reach (ABF._epochPerDacSection header_fit)
            (length (ABF.nDACNum (ABF._epochPerDacSection header_fit))))
    as H4 by (unfold columns_reach; simpl; lia).
  assert (Z.abs (ABF.sweepPointCount header_fit) < 2 ^ 1024) as Hfloat
    by reflexivity.
  split; [reflexivity|]. split; [exact Hfloat|]. split; [exact H1|].
  split; [exact H2|]. split; [exact H3|]. split; [exact H4|].
  apply (segmented_returns header_fit 0 eq_refl Hfloat H1 H2 H3 H4).
  simpl. lia.
Defined.

Lemma bounds_are_sums_of_durations_witness :
  ABF.abfFileFormat header_sustain = 2 ∧
  __init__ header_sustain 0 = (Ok timeline_sustain, []) ∧
  (∀ (i : nat) x, pointStart timeline_sustain !! i = Some x →
                  x = sumZ (take i (duration timeline_sustain))) ∧
  ∃ flag,
    getitem (ABF.nInterEpisodeLevel (ABF._dacSection header_sustain)) 0
    = (Ok flag, []) ∧
    last (pointEnd timeline_sustain)
    = Some (1000 + 15 - (if decide (flag ≠ 0) then 1 else 0)).
Proof.
  assert (__init__ header_sustain 0 = (Ok timeline_sustain, [])) as Hi
    by compute_eq.
  split; [reflexivity|]. split; [exact Hi|].
  destruct (bounds_are_sums_of_durations header_sustain 0 timeline_sustain []
              eq_refl Hi)
    as (Hstart & _ & off & flag & Hdiv & _ & Hflag & Hlast & _).
  vm_compute in Hdiv. injection Hdiv as <-.
  split; [exact Hstart|]. exists flag. split; [exact Hflag|exact Hlast].
Defined.

Lemma epochs_tile_the_sweep_witness :
  ABF.abfFileFormat header_fit = 2 ∧
  __init__ header_fit 0 = (Ok timeline_fit, []) ∧
  0 ≤ ABF.sweepPointCount header_fit ∧
  Forall (λ d, 0 ≤ d) (channelDurations header_fit 0) ∧
  (∀ flag,
     getitem (ABF.nInterEpisodeLevel (ABF._dacSection header_fit)) 0
       = (Ok flag, []) →
     (flag ≠ 0 →
      sumZ (removelast (channelDurations header_fit 0))
      ≤ ABF.sweepPointCount header_fit - 1) ∧
     (flag = 0 →
      sumZ (channelDurations header_fit 0) ≤ ABF.sweepPointCount header_fit)) ∧
  ∃ lastEnd, last (pointEnd timeline_fit) = Some lastEnd ∧
    ∀ j, 0 ≤ j < lastEnd →
      (∃ (i : nat) x y, pointStart timeline_fit !! i = Some x ∧
                        pointEnd timeline_fit !! i = Some y ∧ x ≤ j < y) ∧
      (∀ (i i' : nat) x y x' y',
         pointStart timeline_fit !! i = Some x →
         pointEnd timeline_fit !! i = Some y →
         pointStart timeline_fit !! i' = Some x' →
         pointEnd timeline_fit !! i' = Some y' →
         x ≤ j < y → x' ≤ j < y' → i = i').
Proof.
  assert (Forall (λ d, 0 ≤ d) (channelDurations header_fit 0)) as Hnn.
  { change (channelDurations header_fit 0) with [100; 200].
    repeat constructor; lia. }
  assert (∀ flag,
     getitem (ABF.nInterEpisodeLevel (ABF._dacSection header_fit)) 0
       = (Ok flag, []) →
     (flag ≠ 0 →
      sumZ (removelast (channelDurations header_fit 0))
      ≤ ABF.sweepPointCount header_fit - 1) ∧
     (flag = 0 →
      sumZ (channelDurations header_fit 0) ≤ ABF.sweepPointCount header_fit))
    as Hfit.
  { intros flag Hflag. vm_compute in Hflag. injection Hflag as <-.
    split; [done|]. intros _.
    change (channelDurations header_fit 0) with [100; 200]. simpl. lia. }
  split; [reflexivity|]. split; [compute_eq|]. split; [simpl; lia|].
  split; [exact Hnn|]. split; [exact Hfit|].
  apply (epochs_tile_the_sweep header_fit 0 timeline_fit []);
    [reflexivity|compute_eq|simpl; lia|exact Hnn|exact Hfit].
Defined.

Lemma construction_raises_IndexError_witness :
  __init__ header_fit 5 = (Raise IndexError, []) ∧
  (IndexError = IndexError ∨
   (IndexError = OverflowError ∧ ABF.abfFileFormat header_fit = 2 ∧
    2 ^ 1024 ≤ Z.abs (ABF.sweepPointCount header_fit)) ∨
   (IndexError = ValueError ∧
    1114111
    < Z.of_nat (length (ABF.nDACNum (ABF._epochPerDacSection header_fit)))
      + 65)).
Proof.
  assert (__init__ header_fit 5 = (Raise IndexError, [])) as Hr
    by compute_eq.
  split; [exact Hr|].
  exact (construction_raises_IndexError header_fit 5 IndexError [] Hr).
Defined.




Lemma text_leaves_type_as_strings_witness :
  ∃ out,
    text timeline_off = (Ok (out, timeline_off_shown), []) ∧
    timeline_off_shown = with_type (type timeline_off_shown) timeline_off ∧
    length (type timeline_off_shown) = length (type timeline_off) ∧
    ∀ (e : nat) t, type timeline_off_shown !! e = Some t →
      (∃ s, t = PStr s) ∧ py_eq_int t 0 = false.
Proof.
  exists (match text timeline_off with (Ok (o, _), _) => o | _ => [] end).
  assert (text timeline_off
          = (Ok (match text timeline_off with
                 | (Ok (o, _), _) => o
                 | _ => []
                 end, timeline_off_shown), [])) as Ht by compute_eq.
  split; [exact Ht|].
  exact (text_leaves_type_as_strings timeline_off timeline_off_shown _ [] Ht).
Defined.

Lemma text_second_read_raises_witness :
  ∃ out,
    __init__ header_off 0 = (Ok timeline_off, []) ∧
    text timeline_off = (Ok (out, timeline_off_shown), []) ∧
    text timeline_off_shown = (Raise TypeError, []).
Proof.
  exists (match text timeline_off with (Ok (o, _), _) => o | _ => [] end).
  assert (text timeline_off
          = (Ok (match text timeline_off with
                 | (Ok (o, _), _) => o
                 | _ => []
                 end, timeline_off_shown), [])) as Ht by compute_eq.
  assert (__init__ header_off 0 = (Ok timeline_off, [])) as Hi
    by compute_eq.
  split; [exact Hi|]. split; [exact Ht|].
  exact (text_second_read_raises header_off 0 timeline_off timeline_off_shown
           [] _ [] Hi Ht).
Defined.

Lemma len_counts_epochs_witness :
  __init__ header_fit 0 = (Ok timeline_fit, []) ∧
  ∃ n : nat,
    __len__ timeline_fit = (Ok (Z.of_nat n), []) ∧ (1 ≤ n)%nat ∧
    epochCount timeline_fit = Some n ∧
    length (type timeline_fit) = n ∧ length (label timeline_fit) = n ∧
    length (pointStart timeline_fit) = n ∧
    length (pointEnd timeline_fit) = n.
Proof.
  assert (__init__ header_fit 0 = (Ok timeline_fit, [])) as Hi
    by compute_eq.
  split; [exact Hi|].
  exact (len_counts_epochs header_fit 0 timeline_fit [] Hi).
Defined.
